(** * image-to-video generator: the two batch jobs and their job life cycle

    A shallow embedding of [image-prompter.py] and [generate-video.py].
    Both programs are sequential scripts that talk to the file system, the
    process environment, the logger and three remote services.  The
    embedding threads an explicit [World] through every call:

    - the file system is an ordered association list from paths to nodes
      (the order is the order in which a directory is enumerated);
    - everything the program does to the outside (log records, sleeps,
      remote calls, file opens and writes) is appended to a trace;
    - the remote services are functions of a clock that counts the remote
      calls answered so far, so that the same request may be answered
      differently each time it is made;
    - a Python exception is an outcome of its own that carries the world
      reached when it was raised, so that [try ... except Exception] is a
      handler on outcomes;
    - the [while] loop of the poller takes fuel, and running out of fuel is a
      third outcome, distinct from returning and from raising.

    Files are opened in two modes.  In binary mode (the images, the videos)
    the program sees the bytes of a file.  In text mode (the prompt files)
    the bytes are decoded on reading and the text is encoded on writing, by
    a codec that the locale of the process decides and that may raise; the
    codec is a parameter, next to the remote services.

    Configuring the logger opens the log file of the script in the working
    directory, which creates it when it is missing and raises when the path
    is a directory.  The records themselves are events of the trace: the
    contents of the two log files are left out, so that what a statement says
    about the file system is said about every path but those two.

    Also left out: file permissions and full disks (a path cannot be opened
    only when it, or its parent, is missing or of the wrong kind), exceptions
    that are not instances of [Exception], and time itself (a sleep is an
    event that carries its duration).  [str.lower] is modelled on ASCII
    letters, and [UnboundLocalError] carries the message of Python 3.11 and
    later. *)

From Stdlib Require Import String Ascii List Arith Lia Bool.
Import ListNotations.
Local Open Scope string_scope.
Local Open Scope list_scope.
Local Open Scope nat_scope.

Set Implicit Arguments.

(** ** Strings and paths, as [str] and [pathlib] compute them *)

Module Py.

(** [s.endswith(suf)] *)
Definition endswith (s suf : string) : bool :=
  let n := String.length s in
  let m := String.length suf in
  (m <=? n) && String.eqb (substring (n - m) m s) suf.

(** [s.replace(pat, '')] for a non-empty [pat]: every occurrence, scanning
    from the left, occurrences not overlapping.  [skip] counts the
    characters of a match that are still to be dropped. *)
Fixpoint remove_from (pat : string) (skip : nat) (s : string) : string :=
  match s with
  | EmptyString => EmptyString
  | String c s' =>
      match skip with
      | S k => remove_from pat k s'
      | O =>
          if prefix pat s
          then remove_from pat (String.length pat - 1) s'
          else String c (remove_from pat 0 s')
      end
  end.

Definition remove_all (pat s : string) : string := remove_from pat 0 s.

(** [s.rfind(c)] for a single character *)
Fixpoint rfind (c : ascii) (s : string) : option nat :=
  match s with
  | EmptyString => None
  | String a s' =>
      match rfind c s' with
      | Some i => Some (S i)
      | None => if Ascii.eqb a c then Some 0 else None
      end
  end.

(** [s.lower()] on ASCII letters *)
Definition lower_ascii (c : ascii) : ascii :=
  let n := nat_of_ascii c in
  if (65 <=? n) && (n <=? 90) then ascii_of_nat (n + 32) else c.

Fixpoint lower (s : string) : string :=
  match s with
  | EmptyString => EmptyString
  | String c s' => String (lower_ascii c) (lower s')
  end.

(** Truth value of a [str]: the empty string is false. *)
Definition truthy (s : string) : bool :=
  match s with EmptyString => false | String _ _ => true end.

Definition slash : ascii := ascii_of_nat 47.
Definition dot : ascii := ascii_of_nat 46.

(** [PurePath.name]: the last component. *)
Definition name (p : string) : string :=
  match rfind slash p with
  | Some i => substring (S i) (String.length p - S i) p
  | None => p
  end.

(** [PurePath.parent] of a relative path: [Path('prompts').parent] is
    [Path('.')]. *)
Definition parent (p : string) : string :=
  match rfind slash p with
  | Some i => substring 0 i p
  | None => "."
  end.

(** [PurePath.suffix] and [PurePath.stem] (pathlib up to Python 3.13): the
    last dot of the name counts when it is neither its first nor its last
    character. *)
Definition suffix_at (nm : string) : option nat :=
  match rfind dot nm with
  | Some i => if (0 <? i) && (i <? String.length nm - 1) then Some i else None
  | None => None
  end.

Definition suffix (p : string) : string :=
  let nm := name p in
  match suffix_at nm with
  | Some i => substring i (String.length nm - i) nm
  | None => EmptyString
  end.

Definition stem (p : string) : string :=
  let nm := name p in
  match suffix_at nm with
  | Some i => substring 0 i nm
  | None => nm
  end.

(** [a / b]: joining on [Path('.')] gives the component itself. *)
Definition joinpath (a b : string) : string :=
  if String.eqb a "." then b else a ++ "/" ++ b.

End Py.

(** ** Exceptions, tasks, responses *)

(** A Python exception: its class name and [str(e)].  Every exception of the
    model is an instance of [Exception], the class both programs catch. *)
Record exn : Type := Exn { exn_class : string; exn_str : string }.

(** A task of the video service: [task.id], [task.status], [task.output]
    ([None] or a list of URLs). *)
Record Task : Type := mkTask {
  task_id : string;
  task_status : string;
  task_output : option (list string)
}.

(** What [requests.get(url, stream=True)] hands back: the error
    [raise_for_status] raises (if any), the chunks [iter_content] yields, and
    the error that ends the stream early (if any) after those chunks. *)
Record Response : Type := mkResponse {
  resp_status_error : option exn;
  resp_chunks : list string;
  resp_stream_error : option exn
}.

(** A chat completion: [message.content] of each of [response.choices]. *)
Record Completion : Type := mkCompletion {
  choices : list (option string)
}.

(** The remote services.  The first argument of each is the number of remote
    calls answered before this one.

    The last two fields are the codec of text files, which the locale of the
    process decides: [decode_text] is what reading in text mode makes of the
    bytes of a file (strict decoding, every line ending read as a line feed)
    and may raise [UnicodeDecodeError]; [encode_text] is the bytes that
    writing a text in text mode produces and may raise [UnicodeEncodeError]. *)
Record Services : Type := mkServices {
  b64encode : string -> string;
  image_to_video_create : nat -> string -> string -> string -> exn + Task;
  tasks_retrieve : nat -> string -> exn + Task;
  requests_get : nat -> string -> exn + Response;
  chat_completions_create : nat -> string -> exn + Completion;
  decode_text : string -> exn + string;
  encode_text : string -> exn + string
}.

(** ** The world *)

Inductive Level : Type := INFO | ERROR.

Inductive Event : Type :=
| ELog (lvl : Level) (msg : string)
| EBasicConfig (logfile : string)
| ESleep (seconds : nat)
| ECreate (model prompt_image prompt_text : string)
| ERetrieve (id : string)
| EGet (url : string)
| EChat (model image_url : string)
| ERead (path : string)
| EOpenWrite (path : string)
| EWrite (path data : string)
| EMkdir (path : string)
| EListDir (path : string).

Inductive Node : Type :=
| File (content : string)
| Dir.

Definition FS : Type := list (string * Node).

Record World : Type := mkWorld {
  env : list (string * string);
  fs : FS;
  clock : nat;
  trace : list Event
}.

Module Fs.

Fixpoint lookup (p : string) (m : FS) : option Node :=
  match m with
  | [] => None
  | (q, n) :: m' => if String.eqb q p then Some n else lookup p m'
  end.

(** Replace the node at [p] where it is, or add it at the end. *)
Fixpoint put (p : string) (n : Node) (m : FS) : FS :=
  match m with
  | [] => [(p, n)]
  | (q, n') :: m' =>
      if String.eqb q p then (q, n) :: m' else (q, n') :: put p n m'
  end.

Definition is_dir (p : string) (m : FS) : bool :=
  String.eqb p "." ||
  match lookup p m with Some Dir => true | _ => false end.

(** The name of [key] inside directory [d], when [key] is an entry of [d]
    itself. *)
Definition child_name (d key : string) : option string :=
  let rest :=
    if String.eqb d "." then Some key
    else if prefix (d ++ "/") key
         then Some (substring (S (String.length d))
                              (String.length key - S (String.length d)) key)
         else None in
  match rest with
  | Some r =>
      match r, Py.rfind Py.slash r with
      | String _ _, None => Some r
      | _, _ => None
      end
  | None => None
  end.

(** Entries of directory [d], in enumeration order, as paths. *)
Fixpoint entries (d : string) (m : FS) : list string :=
  match m with
  | [] => []
  | (q, _) :: m' =>
      match child_name d q with
      | Some _ => q :: entries d m'
      | None => entries d m'
      end
  end.

End Fs.

Fixpoint getenv_in (k : string) (e : list (string * string)) : option string :=
  match e with
  | [] => None
  | (k', v) :: e' => if String.eqb k' k then Some v else getenv_in k e'
  end.

(** ** Outcomes and the monad of the scripts *)

Inductive Res (A : Type) : Type :=
| Ret (a : A) (w : World)
| Raise (e : exn) (w : World)
| OutOfFuel (w : World).

Arguments Raise {A} e w.
Arguments OutOfFuel {A} w.

Definition M (A : Type) : Type := World -> Res A.

Definition ret {A} (a : A) : M A := fun w => Ret a w.

Definition bind {A B} (m : M A) (k : A -> M B) : M B :=
  fun w =>
    match m w with
    | Ret a w' => k a w'
    | Raise e w' => Raise e w'
    | OutOfFuel w' => OutOfFuel w'
    end.

Definition raise {A} (e : exn) : M A := fun w => Raise e w.

(** [try: body  except Exception as e: handler(e)] *)
Definition try_except {A} (body : M A) (handler : exn -> M A) : M A :=
  fun w =>
    match body w with
    | Raise e w' => handler e w'
    | r => r
    end.

Declare Scope py_scope.
Delimit Scope py_scope with py.
Notation "x <- m ;; k" := (bind m (fun x => k))
  (at level 61, m at next level, right associativity) : py_scope.
Notation "m ;; k" := (bind m (fun _ => k))
  (at level 61, right associativity) : py_scope.
Local Open Scope py_scope.

Definition world_of {A} (r : Res A) : World :=
  match r with
  | Ret _ w => w
  | Raise _ w => w
  | OutOfFuel w => w
  end.

(** ** Primitive operations *)

Definition emit (e : Event) (w : World) : World :=
  mkWorld (env w) (fs w) (clock w) (trace w ++ [e]).

Definition tick (w : World) : World :=
  mkWorld (env w) (fs w) (S (clock w)) (trace w).

Definition set_fs (m : FS) (w : World) : World :=
  mkWorld (env w) m (clock w) (trace w).

(** [logging.info(msg)], [logging.error(msg)] *)
Definition log (lvl : Level) (msg : string) : M unit :=
  fun w => Ret tt (emit (ELog lvl msg) w).

(** [time.sleep(n)] *)
Definition sleep (n : nat) : M unit :=
  fun w => Ret tt (emit (ESleep n) w).

(** [os.getenv(k)] *)
Definition getenv (k : string) : M (option string) :=
  fun w => Ret (getenv_in k (env w)) w.

Definition FileNotFoundError (p : string) : exn :=
  Exn "FileNotFoundError" ("[Errno 2] No such file or directory: '" ++ p ++ "'").
Definition IsADirectoryError (p : string) : exn :=
  Exn "IsADirectoryError" ("[Errno 21] Is a directory: '" ++ p ++ "'").
Definition FileExistsError (p : string) : exn :=
  Exn "FileExistsError" ("[Errno 17] File exists: '" ++ p ++ "'").
Definition NotADirectoryError (p : string) : exn :=
  Exn "NotADirectoryError" ("[Errno 20] Not a directory: '" ++ p ++ "'").

(** The error of reaching [p] when [q], an ancestor of [p], is not a
    directory: [ENOTDIR] when the nearest ancestor that exists is a file,
    [ENOENT] when it is a directory that lacks the next component. *)
Fixpoint path_error (fuel : nat) (q p : string) (m : FS) : exn :=
  match Fs.lookup q m with
  | Some (File _) => NotADirectoryError p
  | Some Dir => FileNotFoundError p
  | None =>
      match fuel with
      | O => FileNotFoundError p
      | S fuel' =>
          if String.eqb (Py.parent q) "." then FileNotFoundError p
          else path_error fuel' (Py.parent q) p m
      end
  end.

(** The error of reaching a path [p] that does not exist. *)
Definition missing_error (p : string) (m : FS) : exn :=
  if String.eqb (Py.parent p) "." then FileNotFoundError p
  else path_error (String.length p) (Py.parent p) p m.

(** [with open(p, 'rb') as f: f.read()]: the bytes of the file. *)
Definition read_file (p : string) : M string :=
  fun w =>
    let w' := emit (ERead p) w in
    match Fs.lookup p (fs w) with
    | Some (File c) => Ret c w'
    | Some Dir => Raise (IsADirectoryError p) w'
    | None => Raise (missing_error p (fs w)) w'
    end.

(** [with open(p, 'r') as f: f.read()]: the file is opened as in binary mode
    and its bytes are decoded, which may raise. *)
Definition read_text (svc : Services) (p : string) : M string :=
  bytes <- read_file p ;;
  match decode_text svc bytes with
  | inl e => raise e
  | inr text => ret text
  end.

(** [open(p, 'w')] or [open(p, 'wb')]: the file is created or truncated. *)
Definition open_write (p : string) : M unit :=
  fun w =>
    let w' := emit (EOpenWrite p) w in
    match Fs.lookup p (fs w) with
    | Some Dir => Raise (IsADirectoryError p) w'
    | _ =>
        if Fs.is_dir (Py.parent p) (fs w)
        then Ret tt (set_fs (Fs.put p (File EmptyString) (fs w)) w')
        else Raise (missing_error p (fs w)) w'
    end.

(** [f.write(data)] of bytes on a file opened by [open_write] in mode
    ['wb'] *)
Definition write (p data : string) : M unit :=
  fun w =>
    let w' := emit (EWrite p data) w in
    match Fs.lookup p (fs w) with
    | Some (File c) => Ret tt (set_fs (Fs.put p (File (c ++ data)) (fs w)) w')
    | _ => Ret tt w'
    end.

(** [f.write(text)] on a file opened by [open_write] in mode ['w']: the text
    is encoded, which may raise before a byte is written, and the bytes are
    written. *)
Definition write_text (svc : Services) (p text : string) : M unit :=
  match encode_text svc text with
  | inl e => raise e
  | inr bytes => write p bytes
  end.

(** [p.exists()] *)
Definition exists_ (p : string) : M bool :=
  fun w => Ret (match Fs.lookup p (fs w) with Some _ => true | None => false end) w.

(** [p.mkdir(exist_ok=True)] *)
Definition mkdir_exist_ok (p : string) : M unit :=
  fun w =>
    let w' := emit (EMkdir p) w in
    match Fs.lookup p (fs w) with
    | Some Dir => Ret tt w'
    | Some (File _) => Raise (FileExistsError p) w'
    | None =>
        if Fs.is_dir (Py.parent p) (fs w)
        then Ret tt (set_fs (Fs.put p Dir (fs w)) w')
        else Raise (missing_error p (fs w)) w'
    end.

(** [p.iterdir()]: raises when [p] is not a directory. *)
Definition iterdir (p : string) : M (list string) :=
  fun w =>
    let w' := emit (EListDir p) w in
    if Fs.is_dir p (fs w) then Ret (Fs.entries p (fs w)) w'
    else match Fs.lookup p (fs w) with
         | Some _ => Raise (NotADirectoryError p) w'
         | None => Raise (missing_error p (fs w)) w'
         end.

(** [p.glob('*' + tail)]: the entries of [p] whose name ends with [tail];
    nothing when [p] is not a directory. *)
Definition glob_suffix (p tail : string) : M (list string) :=
  fun w =>
    let w' := emit (EListDir p) w in
    if Fs.is_dir p (fs w)
    then Ret (filter (fun q => Py.endswith (Py.name q) tail) (Fs.entries p (fs w))) w'
    else Ret [] w'.

(** The world in which the logger writes to [logfile]: the file exists, and
    is new and empty when it was not there. *)
Definition configured (logfile : string) (w : World) : World :=
  let w' := emit (EBasicConfig logfile) w in
  match Fs.lookup logfile (fs w) with
  | None => set_fs (Fs.put logfile (File EmptyString) (fs w)) w'
  | Some _ => w'
  end.

(** [logging.basicConfig(handlers=[logging.FileHandler(logfile),
    logging.StreamHandler()])]: the file handler opens [logfile] for
    appending when it is built, before anything is configured, and raises
    when it cannot.  The text of that exception names the absolute path of
    the log file; the working directory is not part of the world, so the
    text here names the path as it was given. *)
Definition basic_config (logfile : string) : M unit :=
  fun w =>
    match Fs.lookup logfile (fs w) with
    | Some Dir => Raise (IsADirectoryError logfile) w
    | _ => Ret tt (configured logfile w)
    end.

(** [for x in xs: body(x)] *)
Fixpoint for_each {A} (xs : list A) (body : A -> M unit) : M unit :=
  match xs with
  | [] => ret tt
  | x :: xs' => body x ;; for_each xs' body
  end.

(** ** generate-video.py *)

Module VideoGen.
Section WithServices.

Variable svc : Services.

(** The fields [__init__] sets on [self]. *)
Record Generator : Type := mkGenerator {
  runway_key : string;
  input_folder : string;
  output_folder : string
}.

Definition ValueError_no_key : exn :=
  Exn "ValueError" "RUNWAY_API_KEY not found in environment variables".

(** Reading [video_url] on line 111 when neither branch above bound it. *)
Definition UnboundLocalError_video_url : exn :=
  Exn "UnboundLocalError"
      "cannot access local variable 'video_url' where it is not associated with a value".

(** [setup_logging] (lines 27-36) *)
Definition setup_logging : M unit := basic_config "runway_generator.log".

(** [SimpleVideoGenerator.__init__] (lines 10-25): [not self.runway_key]
    holds for [None] and for the empty string. *)
Definition SimpleVideoGenerator
    (input_prompt_folder output_video_folder : string) : M Generator :=
  key <- getenv "RUNWAY_API_KEY" ;;
  match key with
  | Some k =>
      if Py.truthy k
      then setup_logging ;;
           ret (mkGenerator k input_prompt_folder output_video_folder)
      else raise ValueError_no_key
  | None => raise ValueError_no_key
  end.

(** [self.client.image_to_video.create(model=, prompt_image=, prompt_text=)] *)
Definition create (model prompt_image prompt_text : string) : M Task :=
  fun w =>
    let w' := tick (emit (ECreate model prompt_image prompt_text) w) in
    match image_to_video_create svc (clock w) model prompt_image prompt_text with
    | inl e => Raise e w'
    | inr t => Ret t w'
    end.

(** [self.client.tasks.retrieve(id)] *)
Definition retrieve (id : string) : M Task :=
  fun w =>
    let w' := tick (emit (ERetrieve id) w) in
    match tasks_retrieve svc (clock w) id with
    | inl e => Raise e w'
    | inr t => Ret t w'
    end.

(** [requests.get(url, stream=True)] *)
Definition get (url : string) : M Response :=
  fun w =>
    let w' := tick (emit (EGet url) w) in
    match requests_get svc (clock w) url with
    | inl e => Raise e w'
    | inr r => Ret r w'
    end.

(** [response.raise_for_status()] *)
Definition raise_for_status (r : Response) : M unit :=
  match resp_status_error r with
  | Some e => raise e
  | None => ret tt
  end.

(** Lines 47-49: the chunks that are not empty are written, in order; the
    iterator may end by raising. *)
Definition write_content (output_path : string) (r : Response) : M unit :=
  for_each (resp_chunks r)
           (fun chunk => if Py.truthy chunk then write output_path chunk else ret tt) ;;
  match resp_stream_error r with
  | Some e => raise e
  | None => ret tt
  end.

(** The [try] block of [download_video] (lines 43-52) *)
Definition download_video_try (url output_path : string) : M bool :=
  response <- get url ;;
  raise_for_status response ;;
  open_write output_path ;;
  write_content output_path response ;;
  log INFO ("Successfully downloaded video to " ++ output_path) ;;
  ret true.

(** [download_video] (lines 38-56) *)
Definition download_video (url output_path : string) : M bool :=
  try_except
    (download_video_try url output_path)
    (fun e =>
       log ERROR ("Error downloading video: " ++ exn_str e) ;;
       ret false).

(** [task.status not in ['SUCCEEDED', 'FAILED']] is the negation of this. *)
Definition terminal (status : string) : bool :=
  String.eqb status "SUCCEEDED" || String.eqb status "FAILED".

(** One turn of the loop body, lines 99-101. *)
Definition poll_once (task : Task) : M Task :=
  sleep 10 ;;
  task' <- retrieve (task_id task) ;;
  log INFO ("Task status: " ++ task_status task') ;;
  ret task'.

(** The [while] loop of lines 98-101. *)
Fixpoint poll (fuel : nat) (task : Task) : M Task :=
  if terminal (task_status task) then ret task
  else match fuel with
       | O => fun w => OutOfFuel w
       | S fuel' => task' <- poll_once task ;; poll fuel' task'
       end.

(** The first [n] turns of the loop body, whatever the statuses: the run the
    loop is compared with. *)
Fixpoint poll_n (n : nat) (task : Task) : M Task :=
  match n with
  | O => ret task
  | S n' => task' <- poll_once task ;; poll_n n' task'
  end.

(** Lines 92-101: from the created task to the task in a terminal status. *)
Definition await (fuel : nat) (created : Task) : M Task :=
  let tid := task_id created in
  sleep 10 ;;
  task <- retrieve tid ;;
  log INFO ("Waiting for task " ++ task_id task ++ " to complete") ;;
  poll fuel task.

Definition image_name_of (prompt_path : string) : string :=
  Py.remove_all "_prompt" (Py.stem prompt_path).

Definition image_path_of (self : Generator) (prompt_path : string) : string :=
  Py.joinpath (Py.joinpath (Py.parent (input_folder self)) "input-photos")
              (image_name_of prompt_path ++ ".jpg").

(** Lines 66-101 of [generate_video]: [None] is the [return] of line 76,
    otherwise the image name and the task the loop ended on. *)
Definition run_task (self : Generator) (fuel : nat) (prompt_path : string)
  : M (option (string * Task)) :=
  prompt <- read_text svc prompt_path ;;
  let image_name := image_name_of prompt_path in
  let image_path := image_path_of self prompt_path in
  found <- exists_ image_path ;;
  if negb found
  then log ERROR ("Could not find image for " ++ prompt_path) ;; ret None
  else
    log INFO ("Creating video generation task for " ++ image_name) ;;
    image <- read_file image_path ;;
    let base64_image := b64encode svc image in
    task <- create "gen3a_turbo" ("data:image/png;base64," ++ base64_image) prompt ;;
    task <- await fuel task ;;
    ret (Some (image_name, task)).

(** Lines 103-120 of [generate_video].  [video_url] is bound on the branch
    of line 106 only; line 111 reads it. *)
Definition handle_task (self : Generator) (image_name : string) (task : Task)
  : M unit :=
  if String.eqb (task_status task) "SUCCEEDED" then
    video_url <-
      match task_output task with
      | Some (url :: _) => log INFO ("Video URL: " ++ url) ;; ret (Some url)
      | _ => log ERROR ("No output url for " ++ image_name) ;; ret None
      end ;;
    match video_url with
    | None => raise UnboundLocalError_video_url
    | Some video_url =>
        if Py.truthy video_url then
          let output_path := Py.joinpath (output_folder self) (image_name ++ ".mp4") in
          ok <- download_video video_url output_path ;;
          if (ok : bool)
          then log INFO ("Video generation complete for " ++ image_name)
          else log ERROR ("Failed to download video for " ++ image_name)
        else log ERROR ("No video URL in task output for " ++ image_name)
    end
  else log ERROR ("Task failed for " ++ image_name).

(** [generate_video] (lines 58-123) *)
Definition generate_video (self : Generator) (fuel : nat) (prompt_path : string)
  : M unit :=
  try_except
    (r <- run_task self fuel prompt_path ;;
     match r with
     | None => ret tt
     | Some (image_name, task) => handle_task self image_name task
     end)
    (fun e => log ERROR ("Error processing " ++ prompt_path ++ ": " ++ exn_str e)).

(** The body of the loop of [process_all_prompts] (lines 130-131). *)
Definition process_prompt (self : Generator) (fuel : nat) (prompt_path : string)
  : M unit :=
  log INFO ("Processing " ++ Py.name prompt_path) ;;
  generate_video self fuel prompt_path.

(** [process_all_prompts] (lines 125-131) *)
Definition process_all_prompts (self : Generator) (fuel : nat) : M unit :=
  mkdir_exist_ok (output_folder self) ;;
  prompt_paths <- glob_suffix (input_folder self) "_prompt.txt" ;;
  for_each prompt_paths (process_prompt self fuel).

(** [main] (lines 133-142) *)
Definition main (fuel : nat) : M unit :=
  let input_prompt_folder := "prompts" in
  let output_video_folder := "videos" in
  try_except
    (generator <- SimpleVideoGenerator input_prompt_folder output_video_folder ;;
     process_all_prompts generator fuel)
    (fun e => log ERROR ("Error in main: " ++ exn_str e)).

End WithServices.
End VideoGen.

(** ** image-prompter.py *)

Module Prompter.
Section WithServices.

Variable svc : Services.

Record Generator : Type := mkGenerator {
  input_folder : string;
  output_folder : string
}.

Definition IndexError : exn := Exn "IndexError" "list index out of range".

(** [setup_logging] (lines 25-34) *)
Definition setup_logging : M unit := basic_config "prompt_generator.log".

(** [PhotoPromptGenerator.__init__] (lines 11-23); the key goes to the
    client, which the services stand for. *)
Definition PhotoPromptGenerator (api_key : option string)
    (input_folder output_folder : string) : M Generator :=
  setup_logging ;;
  ret (mkGenerator input_folder output_folder).

(** [encode_image] (lines 36-47) *)
Definition encode_image (image_path : string) : M string :=
  bytes <- read_file image_path ;;
  ret (b64encode svc bytes).

(** [self.client.chat.completions.create(model='gpt-4o', ...)] with the
    fixed system message and the image as a data URL. *)
Definition chat (image_url : string) : M Completion :=
  fun w =>
    let w' := tick (emit (EChat "gpt-4o" image_url) w) in
    match chat_completions_create svc (clock w) image_url with
    | inl e => Raise e w'
    | inr r => Ret r w'
    end.

(** [get_image_prompt] (lines 49-95): the image is encoded before the
    [try] begins. *)
Definition get_image_prompt (image_path : string) : M (option string) :=
  base64_image <- encode_image image_path ;;
  try_except
    (response <- chat ("data:image/jpeg;base64," ++ base64_image) ;;
     match choices response with
     | first :: _ => ret first
     | [] => raise IndexError
     end)
    (fun e =>
       log ERROR ("Error generating prompt for " ++ image_path ++ ": " ++ exn_str e) ;;
       ret None).

(** [save_prompt] (lines 97-111) *)
Definition save_prompt (self : Generator) (image_name prompt : string) : M unit :=
  let output_file := Py.joinpath (output_folder self) (image_name ++ "_prompt.txt") in
  try_except
    (open_write output_file ;;
     write_text svc output_file prompt ;;
     log INFO ("Saved prompt for " ++ image_name))
    (fun e => log ERROR ("Error saving prompt for " ++ image_name ++ ": " ++ exn_str e)).

Definition image_extensions : list string := [".jpg"; ".jpeg"; ".png"].

Definition is_image (image_path : string) : bool :=
  existsb (String.eqb (Py.lower (Py.suffix image_path))) image_extensions.

(** The body of the loop of [process_photos] (lines 120-125); [if prompt:]
    is false for [None] and for the empty string. *)
Definition process_photo (self : Generator) (image_path : string) : M unit :=
  if is_image image_path then
    log INFO ("Processing " ++ Py.name image_path) ;;
    prompt <- get_image_prompt image_path ;;
    match prompt with
    | Some text =>
        if Py.truthy text then save_prompt self (Py.stem image_path) text else ret tt
    | None => ret tt
    end
  else ret tt.

(** [process_photos] (lines 113-125) *)
Definition process_photos (self : Generator) : M unit :=
  mkdir_exist_ok (output_folder self) ;;
  image_paths <- iterdir (input_folder self) ;;
  for_each image_paths (process_photo self).

End WithServices.
End Prompter.

(** ** Reading a trace *)

(** The status queries of a trace. *)
Definition is_query (e : Event) : bool :=
  match e with ERetrieve _ => true | _ => false end.

Definition queries (t : list Event) : nat := List.length (filter is_query t).

(** The sleeps and status queries of a trace, in order. *)
Definition is_timing (e : Event) : bool :=
  match e with ESleep _ | ERetrieve _ => true | _ => false end.

Definition timing (t : list Event) : list Event := filter is_timing t.

(** A sequence of pairs: a sleep of ten seconds, then a status query. *)
Fixpoint alternating (t : list Event) : bool :=
  match t with
  | [] => true
  | ESleep 10 :: ERetrieve _ :: t' => alternating t'
  | _ => false
  end.

(** The log records of a trace, in order. *)
Fixpoint logs (t : list Event) : list (Level * string) :=
  match t with
  | [] => []
  | ELog lvl msg :: t' => (lvl, msg) :: logs t'
  | _ :: t' => logs t'
  end.

(** The jobs submitted in a trace. *)
Definition is_create (e : Event) : bool :=
  match e with ECreate _ _ _ => true | _ => false end.

(** ** Relations between the world before and the world after *)

(** Every run of [m] relates the world it starts in to the world it ends in,
    however it ends. *)
Definition steps {A} (R : World -> World -> Prop) (m : M A) : Prop :=
  forall w, R w (world_of (m w)).

Definition same_fs (w w' : World) : Prop := fs w' = fs w.

Definition same_logs (w w' : World) : Prop := logs (trace w') = logs (trace w).

Definition extends (w w' : World) : Prop := exists d, trace w' = trace w ++ d.

Definition keeps_file (p : string) (w w' : World) : Prop :=
  forall c, Fs.lookup p (fs w) = Some (File c) ->
            exists c', Fs.lookup p (fs w') = Some (File c').

(** [open(p, 'w')] succeeds: [p] is not a directory and its parent is one. *)
Definition writable (p : string) (m : FS) : bool :=
  match Fs.lookup p m with
  | Some Dir => false
  | _ => Fs.is_dir (Py.parent p) m
  end.

(** The bytes of a response body, chunk after chunk. *)
Definition body_of (r : Response) : string :=
  fold_right String.append EmptyString (resp_chunks r).

(** The two records that report a finished download. *)
Definition success_records (output_path image_name : string) : list (Level * string) :=
  [(INFO, ("Successfully downloaded video to " ++ output_path)%string);
   (INFO, ("Video generation complete for " ++ image_name)%string)].

(** Lines 43-49 of [download_video]: the [try] block up to the last write. *)
Definition download_prefix (svc : Services) (url output_path : string) : M unit :=
  response <- VideoGen.get svc url ;;
  VideoGen.raise_for_status response ;;
  open_write output_path ;;
  VideoGen.write_content output_path response.

(** ** Scenarios

    Concrete services and worlds on which the statements below are run. *)

Module Scenario.

Definition generator : VideoGen.Generator :=
  VideoGen.mkGenerator "key" "prompts" "videos".

Definition no_key_world : World :=
  mkWorld [("OPENAI_API_KEY", "sk")]
          [("prompts", Dir); ("prompts/a_prompt.txt", File "slow pan")] 0 [].

(** A service whose job succeeds at the second query and carries no output. *)
Definition no_output_services : Services :=
  mkServices (fun s => s)
    (fun _ _ _ _ => inr (mkTask "t1" "PENDING" None))
    (fun c id => if c <=? 1 then inr (mkTask id "RUNNING" None)
                 else inr (mkTask id "SUCCEEDED" (Some [])))
    (fun _ _ => inl (Exn "ConnectionError" "unreachable"))
    (fun _ _ => inl (Exn "APIError" "unreachable"))
    (fun bytes => inr bytes) (fun text => inr text).

Definition two_prompts_world : World :=
  mkWorld [("RUNWAY_API_KEY", "key")]
          [("prompts", Dir); ("input-photos", Dir); ("videos", Dir);
           ("input-photos/a.jpg", File "AAAA");
           ("input-photos/b.jpg", File "BBBB");
           ("prompts/a_prompt.txt", File "slow pan");
           ("prompts/b_prompt.txt", File "gentle waves")] 0 [].

Definition after_no_output_task : World :=
  world_of (VideoGen.run_task no_output_services generator 3 "prompts/a_prompt.txt"
              (emit (ELog INFO "Processing a_prompt.txt") two_prompts_world)).

End Scenario.

Module Download.

(** A job that succeeds at once with one URL; the download breaks after the
    first chunk. *)
Definition broken_stream_services : Services :=
  mkServices (fun s => s)
    (fun _ _ _ _ => inr (mkTask "t1" "PENDING" None))
    (fun _ id => inr (mkTask id "SUCCEEDED" (Some ["https://cdn/v.mp4"])))
    (fun _ _ => inr (mkResponse None ["ab"; "cd"]
                       (Some (Exn "ChunkedEncodingError" "Connection broken"))))
    (fun _ _ => inl (Exn "APIError" "unreachable"))
    (fun bytes => inr bytes) (fun text => inr text).

Definition succeeded_task : Task :=
  mkTask "t1" "SUCCEEDED" (Some ["https://cdn/v.mp4"]).

Definition after_broken_stream : World :=
  world_of (VideoGen.download_video_try broken_stream_services
              "https://cdn/v.mp4" "videos/a.mp4"
              (emit (ELog INFO "Video URL: https://cdn/v.mp4") Scenario.two_prompts_world)).

End Download.

(** ** The video of an item *)

(** [self.output_folder / f'{image_name}.mp4'] for the image name of a
    prompt file. *)
Definition video_path (self : VideoGen.Generator) (prompt_path : string) : string :=
  Py.joinpath (VideoGen.output_folder self)
              (VideoGen.image_name_of prompt_path ++ ".mp4").

(** The job of the item reached SUCCEEDED with a non-empty output list. *)
Definition job_succeeded_with_output
    (svc : Services) (self : VideoGen.Generator) (fuel : nat)
    (prompt_path : string) (w : World) : Prop :=
  exists task w1 url urls,
    VideoGen.run_task svc self fuel prompt_path w
      = Ret (Some (VideoGen.image_name_of prompt_path, task)) w1 /\
    task_status task = "SUCCEEDED" /\
    task_output task = Some (url :: urls).

(** After the item is processed there is a file at its video path. *)
Definition video_exists_after
    (svc : Services) (self : VideoGen.Generator) (fuel : nat)
    (prompt_path : string) (w : World) : Prop :=
  exists c,
    Fs.lookup (video_path self prompt_path)
              (fs (world_of (VideoGen.generate_video svc self fuel prompt_path w)))
      = Some (File c).

Module Unreachable.

(** The job succeeds with one URL, and the host of the video cannot be
    reached. *)
Definition services : Services :=
  mkServices (fun s => s)
    (fun _ _ _ _ => inr (mkTask "t1" "PENDING" None))
    (fun _ id => inr (mkTask id "SUCCEEDED" (Some ["https://cdn/v.mp4"])))
    (fun _ _ => inl (Exn "ConnectionError" "Max retries exceeded"))
    (fun _ _ => inl (Exn "APIError" "unreachable"))
    (fun bytes => inr bytes) (fun text => inr text).

Definition after_task : World :=
  world_of (VideoGen.run_task services Scenario.generator 3 "prompts/a_prompt.txt"
              Scenario.two_prompts_world).

End Unreachable.

Module Reachable.

(** The job succeeds at the third query and the video arrives in three
    chunks, the second one empty. *)
Definition services : Services :=
  mkServices (fun s => s)
    (fun _ _ _ _ => inr (mkTask "t1" "PENDING" None))
    (fun c id => if c <=? 2 then inr (mkTask id "RUNNING" None)
                 else inr (mkTask id "SUCCEEDED" (Some ["https://cdn/v.mp4"])))
    (fun _ _ => inr (mkResponse None ["ab"; EmptyString; "cd"] None))
    (fun _ _ => inr (mkCompletion [Some "slow pan, film grain"]))
    (fun bytes => inr bytes) (fun text => inr text).

Definition after_task : World :=
  world_of (VideoGen.run_task services Scenario.generator 3 "prompts/a_prompt.txt"
              Scenario.two_prompts_world).

End Reachable.

(** ** The prompt of an image *)

(** [self.output_folder / f'{image_name}_prompt.txt'] for the stem of an
    image. *)
Definition prompt_path_of (self : Prompter.Generator) (image_path : string) : string :=
  Py.joinpath (Prompter.output_folder self) (Py.stem image_path ++ "_prompt.txt").

(** The data URL [get_image_prompt] sends for the bytes of an image. *)
Definition image_url_of (svc : Services) (bytes : string) : string :=
  "data:image/jpeg;base64," ++ b64encode svc bytes.

(** The vision call made for the image answers with a completion. *)
Definition vision_call_succeeds
    (svc : Services) (image_path : string) (w : World) : Prop :=
  exists bytes r,
    Fs.lookup image_path (fs w) = Some (File bytes) /\
    chat_completions_create svc (clock w) (image_url_of svc bytes) = inr r.

(** Processing the image opens its prompt file for writing. *)
Definition prompt_written
    (svc : Services) (self : Prompter.Generator) (image_path : string) (w : World)
  : Prop :=
  In (EOpenWrite (prompt_path_of self image_path))
     (trace (world_of (Prompter.process_photo svc self image_path w))).

Module Photos.

Definition generator : Prompter.Generator :=
  Prompter.mkGenerator "input-photos" "prompts".

(** The vision service answers, with one choice whose content is [None]. *)
Definition silent_services : Services :=
  mkServices (fun s => s)
    (fun _ _ _ _ => inl (Exn "APIError" "unreachable"))
    (fun _ _ => inl (Exn "APIError" "unreachable"))
    (fun _ _ => inl (Exn "ConnectionError" "unreachable"))
    (fun _ _ => inr (mkCompletion [None]))
    (fun bytes => inr bytes) (fun text => inr text).

Definition one_photo_world : World :=
  mkWorld [("OPENAI_API_KEY", "sk")]
          [("input-photos", Dir); ("prompts", Dir);
           ("input-photos/a.jpg", File "AAAA")] 0 [].

(** [input-photos/a.jpg] is a directory; [input-photos/b.jpg] is a photo. *)
Definition unreadable_first_world : World :=
  mkWorld [("OPENAI_API_KEY", "sk")]
          [("input-photos", Dir);
           ("input-photos/a.jpg", Dir);
           ("input-photos/b.jpg", File "BBBB")] 0 [].

End Photos.

Module Stale.

(** The prompt of a photo [a_prompt_b] that is no longer there, next to a
    photo [a_b]. *)
Definition world : World :=
  mkWorld [("RUNWAY_API_KEY", "key")]
          [("prompts", Dir); ("input-photos", Dir); ("videos", Dir);
           ("input-photos/a_b.jpg", File "AAAA");
           ("prompts/a_prompt_b_prompt.txt", File "slow pan")] 0 [].

End Stale.

Module Rerun.

(** The world of a second run: [videos/a.mp4] is there from the first. *)
Definition world : World :=
  mkWorld [("RUNWAY_API_KEY", "key")]
          [("prompts", Dir); ("input-photos", Dir); ("videos", Dir);
           ("input-photos/a.jpg", File "AAAA");
           ("prompts/a_prompt.txt", File "slow pan");
           ("videos/a.mp4", File "the video of the first run")] 0 [].

Definition after_task : World :=
  world_of (VideoGen.run_task Reachable.services Scenario.generator 3
              "prompts/a_prompt.txt" world).

End Rerun.

Module Busy.

(** A job that stays RUNNING whenever it is asked. *)
Definition services : Services :=
  mkServices (fun s => s)
    (fun _ _ _ _ => inr (mkTask "t1" "PENDING" None))
    (fun _ id => inr (mkTask id "RUNNING" None))
    (fun _ _ => inl (Exn "ConnectionError" "unreachable"))
    (fun _ _ => inl (Exn "APIError" "unreachable"))
    (fun bytes => inr bytes) (fun text => inr text).

Definition running_task : Task := mkTask "t1" "RUNNING" None.

(** The world after four turns of the loop against [Reachable.services]. *)
Definition after_four_turns : World :=
  world_of (VideoGen.poll_n Reachable.services 4 running_task Scenario.two_prompts_world).

End Busy.

Module Locale.

(** A process whose locale is ASCII.  A byte above 127 cannot be decoded and
    a character above 127 cannot be encoded; reading in text mode gives a
    line feed for a carriage return and for a carriage return followed by a
    line feed. *)
Definition cr : ascii := ascii_of_nat 13.
Definition lf : ascii := ascii_of_nat 10.

Fixpoint all_ascii (s : string) : bool :=
  match s with
  | EmptyString => true
  | String c s' => (nat_of_ascii c <? 128) && all_ascii s'
  end.

Fixpoint universal_newlines (s : string) : string :=
  match s with
  | EmptyString => EmptyString
  | String c s' =>
      if Ascii.eqb c cr then
        match s' with
        | String c' _ =>
            if Ascii.eqb c' lf then universal_newlines s'
            else String lf (universal_newlines s')
        | EmptyString => String lf EmptyString
        end
      else String c (universal_newlines s')
  end.

Definition UnicodeDecodeError : exn :=
  Exn "UnicodeDecodeError" "'ascii' codec can't decode byte: ordinal not in range(128)".

Definition UnicodeEncodeError : exn :=
  Exn "UnicodeEncodeError" "'ascii' codec can't encode character: ordinal not in range(128)".

(** The services of [Reachable], in that locale. *)
Definition services : Services :=
  mkServices (fun s => s)
    (fun _ _ _ _ => inr (mkTask "t1" "PENDING" None))
    (fun c id => if c <=? 2 then inr (mkTask id "RUNNING" None)
                 else inr (mkTask id "SUCCEEDED" (Some ["https://cdn/v.mp4"])))
    (fun _ _ => inr (mkResponse None ["ab"; EmptyString; "cd"] None))
    (fun _ _ => inr (mkCompletion [Some "slow pan, film grain"]))
    (fun bytes => if all_ascii bytes then inr (universal_newlines bytes)
                  else inl UnicodeDecodeError)
    (fun text => if all_ascii text then inr text else inl UnicodeEncodeError).

(** [caf] followed by the byte 233. *)
Definition accented : string := "caf" ++ String (ascii_of_nat 233) EmptyString.

(** Two lines that end in a carriage return and a line feed. *)
Definition two_lines : string :=
  "slow pan" ++ String cr (String lf ("film grain" ++ String cr (String lf EmptyString))).

(** A second run.  The prompt of [a] is written with carriage returns, the
    prompt of [b] holds a byte that is not ASCII, and the videos of both are
    there from the first run. *)
Definition world : World :=
  mkWorld [("RUNWAY_API_KEY", "key")]
          [("prompts", Dir); ("input-photos", Dir); ("videos", Dir);
           ("input-photos/a.jpg", File "AAAA");
           ("input-photos/b.jpg", File "BBBB");
           ("prompts/a_prompt.txt", File two_lines);
           ("prompts/b_prompt.txt", File accented);
           ("videos/a.mp4", File "the video of the first run");
           ("videos/b.mp4", File "another video of the first run")] 0 [].

(** What reading [two_lines] in text mode gives. *)
Definition two_lines_read : string :=
  "slow pan" ++ String lf ("film grain" ++ String lf EmptyString).

Definition after_task : World :=
  world_of (VideoGen.run_task services Scenario.generator 3 "prompts/a_prompt.txt" world).

End Locale.

(** ** Kinds of events, and what a computation may touch *)

Inductive Kind : Type :=
| KLog | KBasicConfig | KSleep | KCreate | KRetrieve | KGet | KChat
| KRead | KOpenWrite | KWrite | KMkdir | KListDir.

Definition kind (e : Event) : Kind :=
  match e with
  | ELog _ _ => KLog
  | EBasicConfig _ => KBasicConfig
  | ESleep _ => KSleep
  | ECreate _ _ _ => KCreate
  | ERetrieve _ => KRetrieve
  | EGet _ => KGet
  | EChat _ _ => KChat
  | ERead _ => KRead
  | EOpenWrite _ => KOpenWrite
  | EWrite _ _ => KWrite
  | EMkdir _ => KMkdir
  | EListDir _ => KListDir
  end.

(** The world after has the trace of the world before plus events of the
    kinds [ks] only. *)
Definition emits (ks : list Kind) (w w' : World) : Prop :=
  exists d, trace w' = trace w ++ d /\ Forall (fun e => In (kind e) ks) d.

(** Every path but [p] holds after what it held before. *)
Definition only_changes (p : string) (w w' : World) : Prop :=
  forall q, q <> p -> Fs.lookup q (fs w') = Fs.lookup q (fs w).

Definition is_get (e : Event) : bool :=
  match e with EGet _ => true | _ => false end.

Definition is_chat (e : Event) : bool :=
  match e with EChat _ _ => true | _ => false end.

(** The URL the result handler asks for, if it asks: the first entry of the
    output of a SUCCEEDED task, when that entry is not empty. *)
Definition download_url (task : Task) : option string :=
  if String.eqb (task_status task) "SUCCEEDED" then
    match task_output task with
    | Some (url :: _) => if Py.truthy url then Some url else None
    | _ => None
    end
  else None.

(** The job an item submits, if it submits: the prompt has to be a file
    whose bytes decode to a text, and the image has to be a file. *)
Definition submission_of
    (svc : Services) (self : VideoGen.Generator) (prompt_path : string) (w : World)
  : list Event :=
  match Fs.lookup prompt_path (fs w) with
  | Some (File bytes) =>
      match decode_text svc bytes,
            Fs.lookup (VideoGen.image_path_of self prompt_path) (fs w) with
      | inr prompt, Some (File image) =>
          [ECreate "gen3a_turbo" ("data:image/png;base64," ++ b64encode svc image) prompt]
      | _, _ => []
      end
  | _ => []
  end.

Module Edge.

(** [input-photos/a.jpg] is a directory. *)
Definition image_is_a_folder : World :=
  mkWorld [("RUNWAY_API_KEY", "key")]
          [("prompts", Dir); ("input-photos", Dir); ("videos", Dir);
           ("input-photos/a.jpg", Dir);
           ("prompts/a_prompt.txt", File "slow pan")] 0 [].

(** The first entry of the output is the empty string. *)
Definition empty_url_task : Task := mkTask "t1" "SUCCEEDED" (Some [EmptyString; "https://cdn/w.mp4"]).

Definition failed_task : Task := mkTask "t1" "FAILED" None.

End Edge.

(** Everything a download needs goes well: the GET answers, its status is a
    success, the destination can be opened, and the stream ends without an
    error. *)
Definition download_ok (svc : Services) (url p : string) (w : World) : Prop :=
  exists r,
    requests_get svc (clock w) url = inr r /\
    resp_status_error r = None /\
    writable p (fs w) = true /\
    resp_stream_error r = None.

(** [p.mkdir(exist_ok=True)] raises: [p] is a file, or [p] is absent and its
    parent is not a directory. *)
Definition cannot_mkdir (p : string) (m : FS) : bool :=
  match Fs.lookup p m with
  | Some Dir => false
  | Some (File _) => true
  | None => negb (Fs.is_dir (Py.parent p) m)
  end.

Module Startup.

Definition empty_key_world : World :=
  mkWorld [("RUNWAY_API_KEY", EmptyString)]
          [("prompts", Dir); ("prompts/a_prompt.txt", File "slow pan")] 0 [].

(** [videos] is a regular file. *)
Definition videos_is_a_file : World :=
  mkWorld [("RUNWAY_API_KEY", "key")]
          [("prompts", Dir); ("prompts/a_prompt.txt", File "slow pan");
           ("videos", File "notes")] 0 [].

(** There is no [prompts] folder. *)
Definition no_prompts_folder : World :=
  mkWorld [("RUNWAY_API_KEY", "key")]
          [("input-photos", Dir); ("input-photos/a.jpg", File "AAAA")] 0 [].

End Startup.

(** The vision request an entry of the input folder leads to, if any: the
    entry has an image suffix and is a file. *)
Definition vision_request_of (svc : Services) (image_path : string) (w : World)
  : list Event :=
  if Prompter.is_image image_path then
    match Fs.lookup image_path (fs w) with
    | Some (File bytes) => [EChat "gpt-4o" (image_url_of svc bytes)]
    | _ => []
    end
  else [].

Module Folders.

(** A photo next to a prompt file left by an earlier run. *)
Definition second_run : World :=
  mkWorld [("OPENAI_API_KEY", "sk")]
          [("input-photos", Dir); ("prompts", Dir);
           ("input-photos/a.jpg", File "AAAA");
           ("input-photos/notes.txt", File "not a photo");
           ("prompts/a_prompt.txt", File "the prompt of the first run")] 0 [].

(** [prompts/a_prompt.txt] is a directory, so that it cannot be opened. *)
Definition prompt_is_a_folder : World :=
  mkWorld [("OPENAI_API_KEY", "sk")]
          [("input-photos", Dir); ("prompts", Dir);
           ("input-photos/a.jpg", File "AAAA");
           ("prompts/a_prompt.txt", Dir)] 0 [].

(** There is no [input-photos] folder. *)
Definition no_photos_folder : World :=
  mkWorld [("OPENAI_API_KEY", "sk")] [("readme.md", File "hello")] 0 [].

End Folders.

(** [pat in s] *)
Fixpoint occurs (pat s : string) : bool :=
  prefix pat s ||
  match s with
  | EmptyString => false
  | String _ s' => occurs pat s'
  end.

Module Failing.

(** The job fails at the second query; its output still names a URL. *)
Definition services : Services :=
  mkServices (fun s => s)
    (fun _ _ _ _ => inr (mkTask "t1" "PENDING" None))
    (fun c id => if c <=? 1 then inr (mkTask id "RUNNING" None)
                 else inr (mkTask id "FAILED" (Some ["https://cdn/v.mp4"])))
    (fun _ _ => inr (mkResponse None ["ab"] None))
    (fun _ _ => inl (Exn "APIError" "unreachable"))
    (fun bytes => inr bytes) (fun text => inr text).

Definition after_task : World :=
  world_of (VideoGen.run_task services Scenario.generator 3 "prompts/a_prompt.txt"
              Scenario.two_prompts_world).

End Failing.

(** ** A second run of the video batch *)

(** The prompt files the batch finds in [w]: what the glob of line 129
    yields. *)
Definition prompt_files (self : VideoGen.Generator) (w : World) : list string :=
  match glob_suffix (VideoGen.input_folder self) "_prompt.txt" w with
  | Ret paths _ => paths
  | _ => []
  end.

(** The event [e] is among the events added between [w] and [w']. *)
Definition adds (e : Event) (w w' : World) : Prop :=
  exists before after, trace w' = trace w ++ before ++ e :: after.

(** * Properties *)

(** ** Running the monad *)

Lemma bind_Ret {A B} (m : M A) (k : A -> M B) w a w1 :
  m w = Ret a w1 -> bind m k w = k a w1.
Proof. unfold bind; intros ->; reflexivity. Qed.

Lemma bind_Raise {A B} (m : M A) (k : A -> M B) w e w1 :
  m w = Raise e w1 -> bind m k w = Raise e w1.
Proof. unfold bind; intros ->; reflexivity. Qed.

Lemma bind_Ret_inv {A B} (m : M A) (k : A -> M B) w b w' :
  bind m k w = Ret b w' -> exists a w1, m w = Ret a w1 /\ k a w1 = Ret b w'.
Proof.
  unfold bind; destruct (m w) as [a w1|e w1|w1]; try discriminate.
  intros H; exists a, w1; split; [reflexivity | exact H].
Qed.

Section Steps.

Variable R : World -> World -> Prop.
Hypothesis R_refl : forall w, R w w.
Hypothesis R_trans : forall w1 w2 w3, R w1 w2 -> R w2 w3 -> R w1 w3.

Lemma steps_ret {A} (a : A) : steps R (ret a).
Proof. intros w; apply R_refl. Qed.

Lemma steps_raise {A} (e : exn) : steps R (@raise A e).
Proof. intros w; apply R_refl. Qed.

Lemma steps_bind {A B} (m : M A) (k : A -> M B) :
  steps R m -> (forall a, steps R (k a)) -> steps R (bind m k).
Proof.
  intros Hm Hk w. specialize (Hm w). unfold bind.
  destruct (m w) as [a w1|e w1|w1]; simpl in *; try assumption.
  eapply R_trans; [exact Hm | apply Hk].
Qed.

Lemma steps_try_except {A} (m : M A) (h : exn -> M A) :
  steps R m -> (forall e, steps R (h e)) -> steps R (try_except m h).
Proof.
  intros Hm Hh w. specialize (Hm w). unfold try_except.
  destruct (m w) as [a w1|e w1|w1]; simpl in *; try assumption.
  eapply R_trans; [exact Hm | apply Hh].
Qed.

Lemma steps_for_each {A} (xs : list A) (body : A -> M unit) :
  (forall x, steps R (body x)) -> steps R (for_each xs body).
Proof.
  intros Hb; induction xs as [|x xs IH]; simpl.
  - apply steps_ret.
  - apply steps_bind; [apply Hb | intros _; exact IH].
Qed.

Lemma bind_continues {A B} (m : M A) (k : A -> M B) w :
  (forall a, steps R (k a)) -> R (world_of (m w)) (world_of (bind m k w)).
Proof.
  intros Hk. unfold bind.
  destruct (m w) as [a w1|e w1|w1]; simpl; try apply R_refl. apply Hk.
Qed.

Lemma try_except_continues {A} (m : M A) (h : exn -> M A) w :
  (forall e, steps R (h e)) -> R (world_of (m w)) (world_of (try_except m h w)).
Proof.
  intros Hh. unfold try_except.
  destruct (m w) as [a w1|e w1|w1]; simpl; try apply R_refl. apply Hh.
Qed.

End Steps.


(** ** The polling loop *)

Lemma queries_emit e w :
  queries (trace (emit e w)) = queries (trace w) + (if is_query e then 1 else 0).
Proof.
  unfold queries, emit; simpl. rewrite filter_app, length_app; simpl.
  destruct (is_query e); reflexivity.
Qed.

Lemma trace_tick w : trace (tick w) = trace w.
Proof. reflexivity. Qed.

Lemma poll_once_unfold svc task w :
  VideoGen.poll_once svc task w =
  let w1 := tick (emit (ERetrieve (task_id task)) (emit (ESleep 10) w)) in
  match tasks_retrieve svc (clock w) (task_id task) with
  | inl e => Raise e w1
  | inr task' => Ret task' (emit (ELog INFO ("Task status: " ++ task_status task')) w1)
  end.
Proof.
  unfold VideoGen.poll_once, VideoGen.retrieve, bind, sleep, log, ret; simpl.
  destruct (tasks_retrieve svc (clock w) (task_id task)); reflexivity.
Qed.

Lemma poll_once_queries svc task w task' w' :
  VideoGen.poll_once svc task w = Ret task' w' ->
  queries (trace w') = queries (trace w) + 1.
Proof.
  rewrite poll_once_unfold; simpl.
  destruct (tasks_retrieve svc (clock w) (task_id task)); try discriminate.
  intros H; injection H as _ <-.
  rewrite queries_emit, trace_tick, !queries_emit; simpl. lia.
Qed.

Lemma poll_n_queries svc k : forall task w task' w',
  VideoGen.poll_n svc k task w = Ret task' w' ->
  queries (trace w') = queries (trace w) + k.
Proof.
  induction k as [|k IH]; simpl; intros task w task' w' H.
  - injection H as _ <-. lia.
  - apply bind_Ret_inv in H as (t1 & w1 & H1 & H2).
    apply poll_once_queries in H1. apply IH in H2. lia.
Qed.

Lemma poll_done svc fuel task w :
  VideoGen.terminal (task_status task) = true ->
  VideoGen.poll svc fuel task w = Ret task w.
Proof. intros H; destruct fuel; simpl; rewrite H; reflexivity. Qed.

Lemma poll_turn svc fuel task w :
  VideoGen.terminal (task_status task) = false ->
  VideoGen.poll svc (S fuel) task w =
  bind (VideoGen.poll_once svc task) (VideoGen.poll svc fuel) w.
Proof. intros H; simpl; rewrite H; reflexivity. Qed.

Lemma poll_out_of_fuel svc task w :
  VideoGen.terminal (task_status task) = false ->
  VideoGen.poll svc 0 task w = OutOfFuel w.
Proof. intros H; simpl; rewrite H; reflexivity. Qed.

Lemma poll_returns_first_terminal svc fuel : forall task w task' w',
  VideoGen.poll svc fuel task w = Ret task' w' ->
  exists k, k <= fuel /\
    VideoGen.poll_n svc k task w = Ret task' w' /\
    VideoGen.terminal (task_status task') = true /\
    (forall i ti wi, i < k -> VideoGen.poll_n svc i task w = Ret ti wi ->
                     VideoGen.terminal (task_status ti) = false).
Proof.
  induction fuel as [|fuel IH]; intros task w task' w' H;
    destruct (VideoGen.terminal (task_status task)) eqn:T.
  - rewrite (poll_done _ _ _ _ T) in H. injection H as <- <-.
    exists 0; repeat split; auto; intros; lia.
  - rewrite (poll_out_of_fuel _ _ _ T) in H; discriminate.
  - rewrite (poll_done _ _ _ _ T) in H. injection H as <- <-.
    exists 0; repeat split; auto; try lia; intros; lia.
  - rewrite (poll_turn _ _ _ _ T) in H.
    apply bind_Ret_inv in H as (t1 & w1 & H1 & H2).
    destruct (IH _ _ _ _ H2) as (k & Hk & Hn & Hterm & Hbefore).
    exists (S k); repeat split; try lia; auto.
    + simpl. rewrite (bind_Ret _ _ _ H1). exact Hn.
    + intros [|i] ti wi Hi Hrun.
      * simpl in Hrun. injection Hrun as <- _. exact T.
      * simpl in Hrun. rewrite (bind_Ret _ _ _ H1) in Hrun.
        apply (Hbefore i ti wi); [lia | exact Hrun].
Qed.

Lemma first_terminal_is_returned svc fuel : forall k task w task' w',
  k <= fuel ->
  VideoGen.poll_n svc k task w = Ret task' w' ->
  VideoGen.terminal (task_status task') = true ->
  (forall i ti wi, i < k -> VideoGen.poll_n svc i task w = Ret ti wi ->
                   VideoGen.terminal (task_status ti) = false) ->
  VideoGen.poll svc fuel task w = Ret task' w'.
Proof.
  induction fuel as [|fuel IH]; intros k task w task' w' Hk Hn Hterm Hbefore.
  - assert (k = 0) by lia; subst k. simpl in Hn. injection Hn as <- <-.
    apply poll_done; exact Hterm.
  - destruct k as [|k].
    + simpl in Hn. injection Hn as <- <-. apply poll_done; exact Hterm.
    + assert (T : VideoGen.terminal (task_status task) = false).
      { apply (Hbefore 0 task w); [lia | reflexivity]. }
      rewrite (poll_turn _ _ _ _ T).
      simpl in Hn. apply bind_Ret_inv in Hn as (t1 & w1 & H1 & H2).
      rewrite (bind_Ret _ _ _ H1).
      apply (IH k); try lia; auto.
      intros i ti wi Hi Hrun. apply (Hbefore (S i) ti wi); [lia|].
      simpl. rewrite (bind_Ret _ _ _ H1). exact Hrun.
Qed.

(** C4. The polling loop returns exactly at the first retrieved status that is
    SUCCEEDED or FAILED: the loop returns task [task'] in world [w'] if and
    only if, for some [k] within the fuel, [k] turns of the loop body lead to
    [task'] and [w'], the status of [task'] is terminal, and the status
    after every smaller number of turns is not.  The world reached is the one
    after those [k] turns, so exactly [k] status queries were made and none
    after the terminal status was seen. *)
Theorem poll_stops_exactly_at_first_terminal_status svc fuel task w task' w' :
  VideoGen.poll svc fuel task w = Ret task' w' <->
  exists k, k <= fuel /\
    VideoGen.poll_n svc k task w = Ret task' w' /\
    VideoGen.terminal (task_status task') = true /\
    (forall i ti wi, i < k -> VideoGen.poll_n svc i task w = Ret ti wi ->
                     VideoGen.terminal (task_status ti) = false) /\
    queries (trace w') = queries (trace w) + k.
Proof.
  split.
  - intros H. destruct (poll_returns_first_terminal _ _ _ _ H)
      as (k & Hk & Hn & Hterm & Hbefore).
    exists k; repeat split; auto. eapply poll_n_queries; eauto.
  - intros (k & Hk & Hn & Hterm & Hbefore & _).
    eapply first_terminal_is_returned; eauto.
Qed.

Lemma trace_emit e w : trace (emit e w) = trace w ++ [e].
Proof. reflexivity. Qed.

Lemma poll_timing svc fuel : forall task w,
  exists d, trace (world_of (VideoGen.poll svc fuel task w)) = trace w ++ d /\
            alternating (timing d) = true.
Proof.
  induction fuel as [|fuel IH]; intros task w;
    destruct (VideoGen.terminal (task_status task)) eqn:T.
  - rewrite (poll_done _ _ _ _ T). exists []; rewrite app_nil_r; auto.
  - rewrite (poll_out_of_fuel _ _ _ T). exists []; rewrite app_nil_r; auto.
  - rewrite (poll_done _ _ _ _ T). exists []; rewrite app_nil_r; auto.
  - rewrite (poll_turn _ _ _ _ T). unfold bind. rewrite poll_once_unfold; simpl.
    destruct (tasks_retrieve svc (clock w) (task_id task)) as [e|t1].
    + exists [ESleep 10; ERetrieve (task_id task)]; simpl.
      rewrite <- app_assoc; auto.
    + match goal with |- context [VideoGen.poll svc fuel t1 ?w1] =>
        destruct (IH t1 w1) as (d & Hd & Halt) end.
      exists (ESleep 10 :: ERetrieve (task_id task)
                :: ELog INFO ("Task status: " ++ task_status t1) :: d).
      split; [|exact Halt].
      rewrite Hd; simpl. rewrite <- !app_assoc; reflexivity.
Qed.

Lemma poll_never_returns svc
  (busy : forall c id, exists t,
      tasks_retrieve svc c id = inr t /\ VideoGen.terminal (task_status t) = false)
  fuel : forall task w,
  VideoGen.terminal (task_status task) = false ->
  exists w', VideoGen.poll svc fuel task w = OutOfFuel w' /\
             queries (trace w') = queries (trace w) + fuel.
Proof.
  induction fuel as [|fuel IH]; intros task w T.
  - rewrite (poll_out_of_fuel _ _ _ T). exists w; split; [reflexivity | lia].
  - rewrite (poll_turn _ _ _ _ T).
    destruct (busy (clock w) (task_id task)) as (t1 & Hq & T1).
    destruct (VideoGen.poll_once svc task w) as [t w1|e w1|w1] eqn:Honce;
      rewrite poll_once_unfold in Honce; simpl in Honce; rewrite Hq in Honce;
      try discriminate.
    injection Honce as <- Hw1.
    destruct (IH t1 w1 T1) as (w' & Hrun & Hcount).
    exists w'; split.
    + unfold bind. rewrite poll_once_unfold; simpl. rewrite Hq, Hw1. exact Hrun.
    + rewrite Hcount, <- Hw1.
      rewrite queries_emit, trace_tick, !queries_emit; simpl. lia.
Qed.

(** C5. After the job is submitted the program sleeps ten seconds once and
    then makes the first status query; from there on the sleeps and the
    status queries come in pairs, a sleep of ten seconds right before each
    query.  There is no bound on the number of turns: against a service
    that never reports SUCCEEDED or FAILED, the wait uses up whatever fuel it
    is given and has made one query more than that fuel. *)
Theorem await_sleeps_ten_seconds_before_each_query svc fuel created w :
  (exists rest,
      trace (world_of (VideoGen.await svc fuel created w)) =
        trace w ++ ESleep 10 :: ERetrieve (task_id created) :: rest /\
      alternating (timing rest) = true) /\
  ((forall c id, exists t,
       tasks_retrieve svc c id = inr t /\ VideoGen.terminal (task_status t) = false) ->
   exists w', VideoGen.await svc fuel created w = OutOfFuel w' /\
              queries (trace w') = queries (trace w) + S fuel).
Proof.
  split.
  - unfold VideoGen.await, bind, sleep, VideoGen.retrieve, log; simpl.
    destruct (tasks_retrieve svc (clock w) (task_id created)) as [e|t1]; simpl.
    + exists []; split; [rewrite <- app_assoc; reflexivity | reflexivity].
    + match goal with |- context [VideoGen.poll svc fuel t1 ?w1] =>
        destruct (poll_timing svc fuel t1 w1) as (d & Hd & Halt) end.
      exists (ELog INFO ("Waiting for task " ++ task_id t1 ++ " to complete") :: d).
      split; [|exact Halt].
      rewrite Hd; simpl. rewrite <- !app_assoc; reflexivity.
  - intros busy.
    destruct (busy (clock w) (task_id created)) as (t1 & Hq & T1).
    unfold VideoGen.await, bind, sleep, VideoGen.retrieve, log; simpl.
    rewrite Hq.
    match goal with |- context [VideoGen.poll svc fuel t1 ?w1] =>
      destruct (poll_never_returns svc busy fuel t1 w1 T1) as (w' & Hrun & Hcount) end.
    exists w'; split; [exact Hrun|].
    rewrite Hcount. rewrite queries_emit, trace_tick, !queries_emit; simpl. lia.
Qed.

(** ** Start-up *)

(** C6. When RUNWAY_API_KEY is not in the environment the constructor raises
    in the world it was called in, and [main] ends in that same world with one
    more log record: the file system and the clock of remote calls are
    untouched and the trace has gained no read, no listing and no
    submission, so no item was processed. *)
Theorem missing_runway_key_fails_before_any_processing svc fuel w :
  getenv_in "RUNWAY_API_KEY" (env w) = None ->
  VideoGen.SimpleVideoGenerator "prompts" "videos" w
    = Raise VideoGen.ValueError_no_key w /\
  VideoGen.main svc fuel w
    = Ret tt (emit (ELog ERROR
                      "Error in main: RUNWAY_API_KEY not found in environment variables")
                   w).
Proof.
  intros H.
  assert (Hinit : VideoGen.SimpleVideoGenerator "prompts" "videos" w
                  = Raise VideoGen.ValueError_no_key w).
  { unfold VideoGen.SimpleVideoGenerator, bind, getenv. rewrite H. reflexivity. }
  split; [exact Hinit|].
  unfold VideoGen.main, try_except.
  rewrite (bind_Raise _ _ _ Hinit). reflexivity.
Qed.

Lemma missing_runway_key_witness :
  VideoGen.main Scenario.no_output_services 5 Scenario.no_key_world
  = Ret tt (mkWorld [("OPENAI_API_KEY", "sk")]
                    [("prompts", Dir); ("prompts/a_prompt.txt", File "slow pan")] 0
                    [ELog ERROR
                       "Error in main: RUNWAY_API_KEY not found in environment variables"]).
Proof.
  apply (missing_runway_key_fails_before_any_processing
           Scenario.no_output_services 5 Scenario.no_key_world).
  reflexivity.
Defined.

(** ** The result handler *)

Lemma generate_video_after_run_task svc self fuel prompt_path w image_name task w1 :
  VideoGen.run_task svc self fuel prompt_path w = Ret (Some (image_name, task)) w1 ->
  VideoGen.generate_video svc self fuel prompt_path w =
  try_except (VideoGen.handle_task svc self image_name task)
             (fun e => log ERROR ("Error processing " ++ prompt_path ++ ": " ++ exn_str e))
             w1.
Proof.
  intros H. unfold VideoGen.generate_video, try_except.
  rewrite (bind_Ret _ _ _ H). reflexivity.
Qed.

(** C1. A job that reaches SUCCEEDED with a missing or empty output list: the
    handler logs the error [No output url], the read of the unbound
    [video_url] raises and is logged at the per-item boundary, and the item
    returns normally.  The world after the item is the world in which the
    task was obtained plus these two ERROR records: no download was
    requested, no file was opened, no [Task failed] record was written, and
    the loop goes on with the rest of the prompt files. *)
Theorem succeeded_without_output_is_logged_and_skipped
    svc self fuel prompt_path rest w image_name task w1 :
  VideoGen.run_task svc self fuel prompt_path
      (emit (ELog INFO ("Processing " ++ Py.name prompt_path)) w)
    = Ret (Some (image_name, task)) w1 ->
  task_status task = "SUCCEEDED" ->
  task_output task = None \/ task_output task = Some [] ->
  let w2 :=
    emit (ELog ERROR ("Error processing " ++ prompt_path ++ ": "
                        ++ exn_str VideoGen.UnboundLocalError_video_url))
         (emit (ELog ERROR ("No output url for " ++ image_name)) w1) in
  VideoGen.process_prompt svc self fuel prompt_path w = Ret tt w2 /\
  for_each (prompt_path :: rest) (VideoGen.process_prompt svc self fuel) w
    = for_each rest (VideoGen.process_prompt svc self fuel) w2.
Proof.
  intros Hrun Hstatus Hout w2.
  assert (Hitem : VideoGen.process_prompt svc self fuel prompt_path w = Ret tt w2).
  { unfold VideoGen.process_prompt, bind at 1, log.
    rewrite (generate_video_after_run_task _ _ _ _ _ Hrun).
    unfold try_except, VideoGen.handle_task. rewrite Hstatus; simpl.
    destruct Hout as [-> | ->]; reflexivity. }
  split; [exact Hitem|].
  simpl. rewrite (bind_Ret _ _ _ Hitem). reflexivity.
Qed.

Lemma succeeded_without_output_witness :
  for_each ["prompts/a_prompt.txt"; "prompts/b_prompt.txt"]
           (VideoGen.process_prompt Scenario.no_output_services Scenario.generator 3)
           Scenario.two_prompts_world
  = for_each ["prompts/b_prompt.txt"]
             (VideoGen.process_prompt Scenario.no_output_services Scenario.generator 3)
             (emit (ELog ERROR ("Error processing prompts/a_prompt.txt: "
                      ++ exn_str VideoGen.UnboundLocalError_video_url))
                (emit (ELog ERROR "No output url for a") Scenario.after_no_output_task)).
Proof.
  apply (succeeded_without_output_is_logged_and_skipped
           Scenario.no_output_services Scenario.generator 3 "prompts/a_prompt.txt"
           ["prompts/b_prompt.txt"] Scenario.two_prompts_world
           (image_name := "a") (task := mkTask "t1" "SUCCEEDED" (Some []))
           (w1 := Scenario.after_no_output_task)).
  - vm_compute; reflexivity.
  - reflexivity.
  - right; reflexivity.
Defined.

(** ** The file system and the log *)

Lemma lookup_put_same p n m : Fs.lookup p (Fs.put p n m) = Some n.
Proof.
  induction m as [|[q n'] m IH]; simpl.
  - rewrite String.eqb_refl; reflexivity.
  - destruct (String.eqb q p) eqn:E; simpl; rewrite E; auto.
Qed.

Lemma logs_app a b : logs (a ++ b) = logs a ++ logs b.
Proof.
  induction a as [|e a IH]; simpl; [reflexivity|].
  destruct e; simpl; rewrite ?IH; reflexivity.
Qed.

Lemma logs_emit e w :
  logs (trace (emit e w)) = logs (trace w) ++ logs [e].
Proof. rewrite trace_emit, logs_app; reflexivity. Qed.

Lemma append_assoc (a b c : string) : ((a ++ b) ++ c = a ++ (b ++ c))%string.
Proof. induction a as [|x a IH]; simpl; [reflexivity | rewrite IH; reflexivity]. Qed.

Lemma bind_assoc {A B C} (m : M A) (k : A -> M B) (h : B -> M C) w :
  bind (bind m k) h w = bind m (fun a => bind (k a) h) w.
Proof. unfold bind; destruct (m w); reflexivity. Qed.

Lemma bind_ext {A B} (m : M A) (k k' : A -> M B) w :
  (forall a w', k a w' = k' a w') -> bind m k w = bind m k' w.
Proof. intros H; unfold bind; destruct (m w); auto. Qed.

Lemma same_logs_refl w : same_logs w w.
Proof. reflexivity. Qed.

Lemma same_logs_trans w1 w2 w3 : same_logs w1 w2 -> same_logs w2 w3 -> same_logs w1 w3.
Proof. unfold same_logs; congruence. Qed.

Lemma keeps_file_refl p w : keeps_file p w w.
Proof. intros c H; eauto. Qed.

Lemma keeps_file_trans p w1 w2 w3 :
  keeps_file p w1 w2 -> keeps_file p w2 w3 -> keeps_file p w1 w3.
Proof. intros H12 H23 c H. destruct (H12 c H) as (c' & H'). eauto. Qed.

(** ** Downloading *)

Lemma write_same_logs p data : steps same_logs (write p data).
Proof.
  intros w; unfold write, same_logs; simpl.
  destruct (Fs.lookup p (fs w)) as [[c|]|]; simpl;
    rewrite logs_app; simpl; apply app_nil_r.
Qed.

Lemma write_keeps_file p data : steps (keeps_file p) (write p data).
Proof.
  intros w c H; unfold write; simpl. rewrite H; simpl.
  rewrite lookup_put_same; eauto.
Qed.

Lemma log_keeps_file p lvl msg : steps (keeps_file p) (log lvl msg).
Proof. intros w c H; simpl; eauto. Qed.

(** [known] closes the goals that are about a computation already dealt with;
    it is tried before a definition gets unfolded. *)
Ltac steps_with Hrefl Htrans known :=
  repeat first
    [ known
    | apply (@steps_ret _ Hrefl)
    | apply (@steps_raise _ Hrefl)
    | apply (@steps_bind _ Htrans); [|intros ?]
    | apply (@steps_try_except _ Htrans); [|intros ?]
    | apply (@steps_for_each _ Hrefl Htrans); intros ? ].

Lemma write_content_same_logs p r : steps same_logs (VideoGen.write_content p r).
Proof.
  unfold VideoGen.write_content. steps_with same_logs_refl same_logs_trans fail.
  - destruct (Py.truthy x); [apply write_same_logs|].
    steps_with same_logs_refl same_logs_trans fail.
  - destruct (resp_stream_error r); steps_with same_logs_refl same_logs_trans fail.
Qed.

Lemma write_content_keeps_file p r : steps (keeps_file p) (VideoGen.write_content p r).
Proof.
  unfold VideoGen.write_content.
  steps_with (keeps_file_refl p) (@keeps_file_trans p) fail.
  - destruct (Py.truthy x); [apply write_keeps_file|].
    steps_with (keeps_file_refl p) (@keeps_file_trans p) fail.
  - destruct (resp_stream_error r);
      steps_with (keeps_file_refl p) (@keeps_file_trans p) fail.
Qed.

Lemma open_write_same_logs p : steps same_logs (open_write p).
Proof.
  intros w; unfold open_write, same_logs; simpl.
  destruct (Fs.lookup p (fs w)) as [[c|]|]; simpl;
    try destruct (Fs.is_dir (Py.parent p) (fs w)); simpl;
    rewrite logs_app; simpl; apply app_nil_r.
Qed.

Lemma get_same_logs svc url : steps same_logs (VideoGen.get svc url).
Proof.
  intros w; unfold VideoGen.get, same_logs; simpl.
  destruct (requests_get svc (clock w) url); simpl;
    rewrite logs_app; simpl; apply app_nil_r.
Qed.

Lemma download_prefix_same_logs svc url p : steps same_logs (download_prefix svc url p).
Proof.
  unfold download_prefix.
  steps_with same_logs_refl same_logs_trans
    ltac:(first [ apply get_same_logs | apply open_write_same_logs
                | apply write_content_same_logs ]).
  unfold VideoGen.raise_for_status; destruct (resp_status_error a);
    steps_with same_logs_refl same_logs_trans fail.
Qed.

Lemma download_video_try_split svc url p w :
  VideoGen.download_video_try svc url p w =
  bind (download_prefix svc url p)
       (fun _ => log INFO ("Successfully downloaded video to " ++ p) ;; ret true) w.
Proof.
  unfold VideoGen.download_video_try, download_prefix.
  rewrite bind_assoc. apply bind_ext; intros r w1.
  rewrite bind_assoc. apply bind_ext; intros _ w2.
  rewrite bind_assoc. reflexivity.
Qed.

Lemma interrupted_download_keeps_logs svc url p w e w1 :
  VideoGen.download_video_try svc url p w = Raise e w1 ->
  logs (trace w1) = logs (trace w).
Proof.
  rewrite download_video_try_split. unfold bind at 1.
  pose proof (download_prefix_same_logs svc url p w) as Hlogs.
  destruct (download_prefix svc url p w) as [[] w2|e2 w2|w2]; simpl in *;
    try discriminate.
  intros H; injection H as _ <-. exact Hlogs.
Qed.

(** C9. A download that a request error interrupts (the GET, the status
    check, the open or the stream raises): the handler of the succeeded task
    returns after writing [Error downloading video] and [Failed to download
    video]; the records the item has added to the log are the URL record and
    these two ERROR records, and neither [Successfully downloaded video] nor
    [Video generation complete] is among them.  What was written to the
    destination before the interruption stays in the world [w1]. *)
Theorem interrupted_download_reports_no_success
    svc self image_name task url urls w e w1 :
  task_status task = "SUCCEEDED" ->
  task_output task = Some (url :: urls) ->
  Py.truthy url = true ->
  VideoGen.download_video_try svc url
      (Py.joinpath (VideoGen.output_folder self) (image_name ++ ".mp4"))
      (emit (ELog INFO ("Video URL: " ++ url)) w)
    = Raise e w1 ->
  let added :=
    [(INFO, ("Video URL: " ++ url)%string);
     (ERROR, ("Error downloading video: " ++ exn_str e)%string);
     (ERROR, ("Failed to download video for " ++ image_name)%string)] in
  let w2 :=
    emit (ELog ERROR ("Failed to download video for " ++ image_name))
         (emit (ELog ERROR ("Error downloading video: " ++ exn_str e)) w1) in
  VideoGen.handle_task svc self image_name task w = Ret tt w2 /\
  fs w2 = fs w1 /\
  logs (trace w2) = logs (trace w) ++ added /\
  forall r,
    In r (success_records
            (Py.joinpath (VideoGen.output_folder self) (image_name ++ ".mp4"))
            image_name) ->
    ~ In r added.
Proof.
  intros Hstatus Hout Hurl Hdl added w2.
  split; [|split; [reflexivity|split]].
  - unfold VideoGen.handle_task. rewrite Hstatus, Hout; simpl.
    unfold bind at 1; simpl. rewrite Hurl.
    unfold bind at 1, VideoGen.download_video, try_except.
    simpl in Hdl. rewrite Hdl. reflexivity.
  - apply interrupted_download_keeps_logs in Hdl.
    unfold w2. rewrite !logs_emit, Hdl, logs_emit; simpl.
    rewrite <- !app_assoc; reflexivity.
  - intros r Hr Hadded. unfold success_records in Hr; simpl in Hr, Hadded.
    destruct Hr as [<-|[<-|[]]];
      destruct Hadded as [H|[H|[H|[]]]]; discriminate H.
Qed.

Lemma interrupted_download_witness :
  VideoGen.handle_task Download.broken_stream_services Scenario.generator "a"
      Download.succeeded_task Scenario.two_prompts_world
    = Ret tt
        (emit (ELog ERROR "Failed to download video for a")
           (emit (ELog ERROR "Error downloading video: Connection broken")
              Download.after_broken_stream)) /\
  Fs.lookup "videos/a.mp4" (fs Download.after_broken_stream) = Some (File "abcd").
Proof.
  split; [|reflexivity].
  apply (@interrupted_download_reports_no_success
           Download.broken_stream_services Scenario.generator "a"
           Download.succeeded_task "https://cdn/v.mp4" [] Scenario.two_prompts_world
           (Exn "ChunkedEncodingError" "Connection broken")
           Download.after_broken_stream);
    reflexivity.
Defined.

(** ** What an item leaves in the file system *)

Lemma same_fs_refl w : same_fs w w.
Proof. reflexivity. Qed.

Lemma same_fs_trans w1 w2 w3 : same_fs w1 w2 -> same_fs w2 w3 -> same_fs w1 w3.
Proof. unfold same_fs; congruence. Qed.

Lemma log_same_fs lvl msg : steps same_fs (log lvl msg).
Proof. intros w; reflexivity. Qed.

Lemma sleep_same_fs n : steps same_fs (sleep n).
Proof. intros w; reflexivity. Qed.

Lemma read_file_same_fs p : steps same_fs (read_file p).
Proof.
  intros w; unfold read_file, same_fs.
  destruct (Fs.lookup p (fs w)) as [[c|]|]; reflexivity.
Qed.

Lemma read_text_same_fs svc p : steps same_fs (read_text svc p).
Proof.
  unfold read_text.
  steps_with same_fs_refl same_fs_trans ltac:(apply read_file_same_fs).
  destruct (decode_text svc a); steps_with same_fs_refl same_fs_trans fail.
Qed.

Lemma exists_same_fs p : steps same_fs (exists_ p).
Proof. intros w; reflexivity. Qed.

Lemma create_same_fs svc model image text :
  steps same_fs (VideoGen.create svc model image text).
Proof.
  intros w; unfold VideoGen.create, same_fs.
  destruct (image_to_video_create svc (clock w) model image text); reflexivity.
Qed.

Lemma retrieve_same_fs svc id : steps same_fs (VideoGen.retrieve svc id).
Proof.
  intros w; unfold VideoGen.retrieve, same_fs.
  destruct (tasks_retrieve svc (clock w) id); reflexivity.
Qed.

Ltac same_fs_known svc :=
  first [ apply log_same_fs | apply sleep_same_fs | apply read_file_same_fs
        | apply read_text_same_fs
        | apply exists_same_fs | apply create_same_fs | apply retrieve_same_fs ].

Lemma poll_same_fs svc fuel : forall task, steps same_fs (VideoGen.poll svc fuel task).
Proof.
  induction fuel as [|fuel IH]; intros task; simpl;
    destruct (VideoGen.terminal (task_status task)).
  - apply steps_ret, same_fs_refl.
  - intros w; reflexivity.
  - apply steps_ret, same_fs_refl.
  - unfold VideoGen.poll_once.
    steps_with same_fs_refl same_fs_trans
      ltac:(first [ same_fs_known svc | apply IH ]).
Qed.

Lemma run_task_same_fs svc self fuel prompt_path :
  steps same_fs (VideoGen.run_task svc self fuel prompt_path).
Proof.
  unfold VideoGen.run_task.
  steps_with same_fs_refl same_fs_trans ltac:(same_fs_known svc).
  destruct (negb a0).
  - steps_with same_fs_refl same_fs_trans ltac:(same_fs_known svc).
  - unfold VideoGen.await.
    steps_with same_fs_refl same_fs_trans
      ltac:(first [ same_fs_known svc | apply poll_same_fs ]).
Qed.

Lemma run_task_image_name svc self fuel prompt_path w image_name task w1 :
  VideoGen.run_task svc self fuel prompt_path w = Ret (Some (image_name, task)) w1 ->
  image_name = VideoGen.image_name_of prompt_path.
Proof.
  unfold VideoGen.run_task. intros H.
  apply bind_Ret_inv in H as (prompt & wa & _ & H).
  apply bind_Ret_inv in H as (found & wb & _ & H).
  destruct (negb found).
  - apply bind_Ret_inv in H as (? & wc & _ & H). discriminate H.
  - apply bind_Ret_inv in H as (? & wc & _ & H).
    apply bind_Ret_inv in H as (image & wd & _ & H).
    apply bind_Ret_inv in H as (t0 & we & _ & H).
    apply bind_Ret_inv in H as (t1 & wf & _ & H).
    injection H as <- _ _. reflexivity.
Qed.

Lemma open_write_ok p w :
  writable p (fs w) = true ->
  open_write p w =
  Ret tt (set_fs (Fs.put p (File EmptyString) (fs w)) (emit (EOpenWrite p) w)).
Proof.
  unfold writable, open_write.
  destruct (Fs.lookup p (fs w)) as [[c|]|]; try discriminate;
    intros ->; reflexivity.
Qed.

Lemma download_video_opened svc url p w r :
  requests_get svc (clock w) url = inr r ->
  resp_status_error r = None ->
  writable p (fs w) = true ->
  VideoGen.download_video svc url p w =
  try_except
    (VideoGen.write_content p r ;;
     log INFO ("Successfully downloaded video to " ++ p) ;;
     ret true)
    (fun e => log ERROR ("Error downloading video: " ++ exn_str e) ;; ret false)
    (set_fs (Fs.put p (File EmptyString) (fs w))
            (emit (EOpenWrite p) (tick (emit (EGet url) w)))).
Proof.
  intros Hget Hstatus Hopen.
  unfold VideoGen.download_video, try_except, VideoGen.download_video_try.
  unfold bind at 1, VideoGen.get. rewrite Hget.
  unfold bind at 1, VideoGen.raise_for_status. rewrite Hstatus.
  unfold ret at 1. unfold bind at 1.
  rewrite open_write_ok by exact Hopen. reflexivity.
Qed.

Lemma handle_task_opened svc self image_name task url urls r w :
  task_status task = "SUCCEEDED" ->
  task_output task = Some (url :: urls) ->
  Py.truthy url = true ->
  requests_get svc (clock w) url = inr r ->
  resp_status_error r = None ->
  writable (Py.joinpath (VideoGen.output_folder self) (image_name ++ ".mp4")) (fs w)
    = true ->
  let out := Py.joinpath (VideoGen.output_folder self) (image_name ++ ".mp4") in
  let w2 := emit (ELog INFO ("Video URL: " ++ url)) w in
  VideoGen.handle_task svc self image_name task w
  = bind
      (try_except
         (VideoGen.write_content out r ;;
          log INFO ("Successfully downloaded video to " ++ out) ;;
          ret true)
         (fun e => log ERROR ("Error downloading video: " ++ exn_str e) ;; ret false))
      (fun ok : bool =>
         if ok then log INFO ("Video generation complete for " ++ image_name)
         else log ERROR ("Failed to download video for " ++ image_name))
      (set_fs (Fs.put out (File EmptyString) (fs w2))
              (emit (EOpenWrite out) (tick (emit (EGet url) w2)))).
Proof.
  intros Hs Ho Hurl Hget Hstatus Hopen out w2.
  pose proof (@download_video_opened svc url out w2 r Hget Hstatus Hopen) as Hdl.
  unfold VideoGen.handle_task. rewrite Hs, Ho.
  change (String.eqb "SUCCEEDED" "SUCCEEDED") with true. cbv iota.
  unfold bind at 1. unfold bind at 1.
  unfold log at 1, ret at 1. fold w2. rewrite Hurl.
  unfold bind at 1. fold out. rewrite Hdl.
  unfold bind at 3. reflexivity.
Qed.

Lemma try_except_ext {A} (m m' : M A) (h : exn -> M A) w w' :
  m w = m' w' -> try_except m h w = try_except m' h w'.
Proof. unfold try_except; intros ->; reflexivity. Qed.

(** The claim of C2 fails when the host of the video cannot be reached: the
    job of [prompts/a_prompt.txt] reaches SUCCEEDED with one URL in its
    output, and no file [videos/a.mp4] exists afterwards. *)
Lemma video_iff_succeeded_counterexample :
  ~ (video_exists_after Unreachable.services Scenario.generator 3
       "prompts/a_prompt.txt" Scenario.two_prompts_world
     <->
     job_succeeded_with_output Unreachable.services Scenario.generator 3
       "prompts/a_prompt.txt" Scenario.two_prompts_world).
Proof.
  intros [_ H].
  assert (Hjob : job_succeeded_with_output Unreachable.services Scenario.generator 3
                   "prompts/a_prompt.txt" Scenario.two_prompts_world).
  { exists (mkTask "t1" "SUCCEEDED" (Some ["https://cdn/v.mp4"])),
           Unreachable.after_task, "https://cdn/v.mp4", [].
    repeat split; reflexivity. }
  destruct (H Hjob) as [c Hc]. vm_compute in Hc. discriminate Hc.
Qed.

(** C2, amended.  For a prompt file whose video path holds nothing before the
    item is processed: a file exists there afterwards only if the job
    reached SUCCEEDED with a non-empty output list; and one does exist
    afterwards when the job reached SUCCEEDED with an output list whose first
    entry is a non-empty URL, the GET of that URL came back with a success
    status, and the folder of the video is a directory. *)
Theorem video_exists_only_if_succeeded_and_if_downloaded
    svc self fuel prompt_path w :
  Fs.lookup (video_path self prompt_path) (fs w) = None ->
  (video_exists_after svc self fuel prompt_path w ->
   job_succeeded_with_output svc self fuel prompt_path w) /\
  (forall task w1 url urls r,
      VideoGen.run_task svc self fuel prompt_path w
        = Ret (Some (VideoGen.image_name_of prompt_path, task)) w1 ->
      task_status task = "SUCCEEDED" ->
      task_output task = Some (url :: urls) ->
      Py.truthy url = true ->
      requests_get svc (clock w1) url = inr r ->
      resp_status_error r = None ->
      Fs.is_dir (Py.parent (video_path self prompt_path)) (fs w) = true ->
      video_exists_after svc self fuel prompt_path w).
Proof.
  intros Hnone. split.
  - intros [c Hc].
    pose proof (run_task_same_fs svc self fuel prompt_path w) as Hfs.
    unfold same_fs in Hfs.
    unfold VideoGen.generate_video, try_except, bind in Hc.
    destruct (VideoGen.run_task svc self fuel prompt_path w)
      as [[[name task]|] w1|e w1|w1] eqn:Hrun; simpl in Hfs.
    + pose proof (run_task_image_name _ _ _ _ _ Hrun) as ->.
      unfold VideoGen.handle_task in Hc.
      destruct (String.eqb (task_status task) "SUCCEEDED") eqn:Hs.
      * destruct (task_output task) as [[|url urls]|] eqn:Ho.
        -- simpl in Hc. rewrite Hfs, Hnone in Hc. discriminate Hc.
        -- exists task, w1, url, urls. apply String.eqb_eq in Hs. auto.
        -- simpl in Hc. rewrite Hfs, Hnone in Hc. discriminate Hc.
      * simpl in Hc. rewrite Hfs, Hnone in Hc. discriminate Hc.
    + simpl in Hc. rewrite Hfs, Hnone in Hc. discriminate Hc.
    + simpl in Hc. rewrite Hfs, Hnone in Hc. discriminate Hc.
    + simpl in Hc. rewrite Hfs, Hnone in Hc. discriminate Hc.
  - intros task w1 url urls r Hrun Hs Ho Hurl Hget Hstatus Hdir.
    pose proof (run_task_same_fs svc self fuel prompt_path w) as Hfs.
    unfold same_fs in Hfs. rewrite Hrun in Hfs; simpl in Hfs.
    unfold video_exists_after.
    rewrite (generate_video_after_run_task _ _ _ _ _ Hrun).
    set (out := video_path self prompt_path) in *.
    assert (Hopen : writable out (fs w1) = true).
    { unfold writable. rewrite Hfs, Hnone. exact Hdir. }
    rewrite (@try_except_ext _ _ _ _ _ _
               (@handle_task_opened svc self (VideoGen.image_name_of prompt_path)
                  task url urls r w1 Hs Ho Hurl Hget Hstatus Hopen)).
    change (Py.joinpath (VideoGen.output_folder self)
              (VideoGen.image_name_of prompt_path ++ ".mp4")) with out.
    match goal with
    | |- exists c, Fs.lookup out (fs (world_of (?m ?w3))) = _ =>
        assert (Hkeep : steps (keeps_file out) m);
          [|apply (Hkeep w3 EmptyString); simpl; apply lookup_put_same]
    end.
    steps_with (keeps_file_refl out) (@keeps_file_trans out)
      ltac:(first [ apply write_content_keeps_file | apply log_keeps_file ]).
    destruct a; apply log_keeps_file.
Qed.

Lemma video_exists_witness :
  Fs.lookup (video_path Scenario.generator "prompts/a_prompt.txt")
            (fs Scenario.two_prompts_world) = None /\
  video_exists_after Reachable.services Scenario.generator 3
    "prompts/a_prompt.txt" Scenario.two_prompts_world.
Proof.
  split; [reflexivity|].
  apply (proj2 (@video_exists_only_if_succeeded_and_if_downloaded
                  Reachable.services Scenario.generator 3 "prompts/a_prompt.txt"
                  Scenario.two_prompts_world eq_refl))
    with (task := mkTask "t1" "SUCCEEDED" (Some ["https://cdn/v.mp4"]))
         (w1 := Reachable.after_task) (url := "https://cdn/v.mp4") (urls := [])
         (r := mkResponse None ["ab"; EmptyString; "cd"] None);
    vm_compute; reflexivity.
Defined.

(** ** The per-item boundary *)

(** In generate-video.py nothing an item does gets past [generate_video]. *)
Lemma generate_video_never_raises svc self fuel prompt_path w :
  forall e w', VideoGen.generate_video svc self fuel prompt_path w <> Raise e w'.
Proof.
  intros e w'. unfold VideoGen.generate_video, try_except.
  match goal with |- context [match ?m with _ => _ end] => destruct m end;
    discriminate.
Qed.

(** C3 fails in image-prompter.py.  [input-photos] lists [a.jpg], which is a
    directory, and then the photo [b.jpg].  [encode_image] raises on [a.jpg]
    before the [try] of [get_image_prompt] begins, nothing catches the
    exception, and [process_photos] ends with it: no ERROR record is
    written, [b.jpg] is never read and no request is made for it. *)
Theorem unreadable_photo_aborts_the_prompt_batch :
  Prompter.process_photos Reachable.services Photos.generator
      Photos.unreadable_first_world
  = Raise (IsADirectoryError "input-photos/a.jpg")
      (mkWorld [("OPENAI_API_KEY", "sk")]
         [("input-photos", Dir); ("input-photos/a.jpg", Dir);
          ("input-photos/b.jpg", File "BBBB"); ("prompts", Dir)]
         0
         [EMkdir "prompts"; EListDir "input-photos";
          ELog INFO "Processing a.jpg"; ERead "input-photos/a.jpg"]).
Proof. vm_compute. reflexivity. Qed.

(** ** The companion image *)

(** The guard of line 74: when nothing exists at the path the code derives
    for the image, the item ends after one ERROR record and submits nothing. *)
Lemma missing_image_submits_nothing svc self fuel prompt_path w :
  Fs.lookup (VideoGen.image_path_of self prompt_path) (fs w) = None ->
  exists msg,
    VideoGen.generate_video svc self fuel prompt_path w
    = Ret tt (emit (ELog ERROR msg) (emit (ERead prompt_path) w)).
Proof.
  intros Hnone.
  unfold VideoGen.generate_video, try_except, VideoGen.run_task, read_text, bind,
    read_file, exists_.
  destruct (Fs.lookup prompt_path (fs w)) as [[bytes|]|] eqn:Hp.
  - destruct (decode_text svc bytes) as [e|prompt].
    + eexists; reflexivity.
    + cbn [ret fs emit]. rewrite Hnone. eexists; reflexivity.
  - eexists; reflexivity.
  - eexists; reflexivity.
Qed.

(** C7 fails on a stem that holds [_prompt] before its end.  For
    [prompts/a_prompt_b_prompt.txt] the stem without its [_prompt] suffix is
    [a_prompt_b], and [input-photos/a_prompt_b.jpg] does not exist; the code
    removes every [_prompt], looks for [input-photos/a_b.jpg], finds it and
    submits a job with that image. *)
Theorem inner_prompt_in_stem_pairs_another_image :
  Py.stem "prompts/a_prompt_b_prompt.txt" = "a_prompt_b_prompt" /\
  Fs.lookup "input-photos/a_prompt_b.jpg" (fs Stale.world) = None /\
  VideoGen.image_path_of Scenario.generator "prompts/a_prompt_b_prompt.txt"
    = "input-photos/a_b.jpg" /\
  filter is_create
    (trace (world_of (VideoGen.generate_video Reachable.services Scenario.generator 3
                        "prompts/a_prompt_b_prompt.txt" Stale.world)))
    = [ECreate "gen3a_turbo" "data:image/png;base64,AAAA" "slow pan"] /\
  filter (fun r => match r with (ERROR, _) => true | _ => false end)
    (logs (trace (world_of (VideoGen.generate_video Reachable.services
                              Scenario.generator 3
                              "prompts/a_prompt_b_prompt.txt" Stale.world))))
    = [].
Proof. vm_compute. repeat split; reflexivity. Qed.

(** ** Prompt files *)

(** The claim of C8 fails when the vision call succeeds and the content of
    its first choice is [None]: [if prompt:] is false, and the prompt file is
    neither opened nor written. *)
Lemma prompt_written_on_success_counterexample :
  ~ (vision_call_succeeds Photos.silent_services "input-photos/a.jpg"
       Photos.one_photo_world ->
     prompt_written Photos.silent_services Photos.generator "input-photos/a.jpg"
       Photos.one_photo_world).
Proof.
  intros H.
  assert (Hcall : vision_call_succeeds Photos.silent_services "input-photos/a.jpg"
                    Photos.one_photo_world).
  { exists "AAAA", (mkCompletion [None]). split; reflexivity. }
  apply H in Hcall. unfold prompt_written in Hcall. vm_compute in Hcall.
  repeat (destruct Hcall as [Hcall|Hcall]; [discriminate Hcall|]).
  exact Hcall.
Qed.

(** C8, amended.  For an input image that can be read: when the vision call
    succeeds and the content of its first choice is a non-empty text, the
    prompt file can be opened for writing and the text can be encoded in the
    encoding of the file, the item returns and the prompt file holds the
    encoded text; when the vision call fails, the item returns after logging
    the error, and the prompt file is not opened: the events of the item are
    the read of the image, the request and the two log records. *)
Theorem prompt_file_is_written_for_a_text_and_not_on_failure
    svc self image_path w bytes :
  Prompter.is_image image_path = true ->
  Fs.lookup image_path (fs w) = Some (File bytes) ->
  (forall text others encoded,
      chat_completions_create svc (clock w) (image_url_of svc bytes)
        = inr (mkCompletion (Some text :: others)) ->
      Py.truthy text = true ->
      writable (prompt_path_of self image_path) (fs w) = true ->
      encode_text svc text = inr encoded ->
      exists w',
        Prompter.process_photo svc self image_path w = Ret tt w' /\
        Fs.lookup (prompt_path_of self image_path) (fs w') = Some (File encoded)) /\
  (forall e,
      chat_completions_create svc (clock w) (image_url_of svc bytes) = inl e ->
      Prompter.process_photo svc self image_path w
      = Ret tt
          (emit (ELog ERROR ("Error generating prompt for " ++ image_path ++ ": "
                               ++ exn_str e))
             (tick (emit (EChat "gpt-4o" (image_url_of svc bytes))
                      (emit (ERead image_path)
                         (emit (ELog INFO ("Processing " ++ Py.name image_path)) w)))))).
Proof.
  intros Himg Hfile.
  assert (Hprompt : forall r,
    chat_completions_create svc (clock w) (image_url_of svc bytes) = r ->
    Prompter.get_image_prompt svc image_path
      (emit (ELog INFO ("Processing " ++ Py.name image_path)) w)
    = let w1 := tick (emit (EChat "gpt-4o" (image_url_of svc bytes))
                        (emit (ERead image_path)
                           (emit (ELog INFO ("Processing " ++ Py.name image_path)) w))) in
      match r with
      | inl e =>
          Ret None (emit (ELog ERROR ("Error generating prompt for " ++ image_path
                                        ++ ": " ++ exn_str e)) w1)
      | inr (mkCompletion (first :: _)) => Ret first w1
      | inr (mkCompletion []) =>
          Ret None (emit (ELog ERROR ("Error generating prompt for " ++ image_path
                                        ++ ": " ++ exn_str Prompter.IndexError)) w1)
      end).
  { intros r Hr.
    unfold Prompter.get_image_prompt, Prompter.encode_image, try_except, bind,
      read_file, Prompter.chat, ret.
    change (fs (emit (ELog INFO ("Processing " ++ Py.name image_path)) w))
      with (fs w).
    rewrite Hfile. cbv beta iota.
    unfold image_url_of in Hr.
    change (clock (emit (ERead image_path)
                     (emit (ELog INFO ("Processing " ++ Py.name image_path)) w)))
      with (clock w).
    rewrite Hr.
    destruct r as [e|[[|first rest]]]; reflexivity. }
  split.
  - intros text others encoded Hchat Htext Hopen Hencode.
    unfold Prompter.process_photo. rewrite Himg.
    unfold bind at 1, log at 1. unfold bind at 1.
    rewrite (Hprompt _ Hchat). cbv zeta iota. rewrite Htext.
    unfold Prompter.save_prompt, try_except.
    change (Py.joinpath (Prompter.output_folder self)
              (Py.stem image_path ++ "_prompt.txt"))
      with (prompt_path_of self image_path).
    set (out := prompt_path_of self image_path) in *.
    unfold bind at 1. rewrite open_write_ok by exact Hopen.
    unfold bind at 1, write_text. rewrite Hencode. unfold write.
    cbn [fs set_fs emit tick]. rewrite lookup_put_same.
    eexists; split; [reflexivity|].
    cbn [fs set_fs emit tick]. apply lookup_put_same.
  - intros e Hchat.
    unfold Prompter.process_photo. rewrite Himg.
    unfold bind at 1, log at 1. unfold bind at 1.
    rewrite (Hprompt _ Hchat). reflexivity.
Qed.

Lemma prompt_file_witness :
  (exists w',
      Prompter.process_photo Reachable.services Photos.generator "input-photos/a.jpg"
        Photos.one_photo_world = Ret tt w' /\
      Fs.lookup "prompts/a_prompt.txt" (fs w') = Some (File "slow pan, film grain")) /\
  Fs.lookup "prompts/a_prompt.txt"
    (fs (world_of (Prompter.process_photo Scenario.no_output_services Photos.generator
                     "input-photos/a.jpg" Photos.one_photo_world))) = None.
Proof.
  pose proof (@prompt_file_is_written_for_a_text_and_not_on_failure
                Reachable.services Photos.generator "input-photos/a.jpg"
                Photos.one_photo_world "AAAA" eq_refl eq_refl) as [Hok _].
  pose proof (@prompt_file_is_written_for_a_text_and_not_on_failure
                Scenario.no_output_services Photos.generator "input-photos/a.jpg"
                Photos.one_photo_world "AAAA" eq_refl eq_refl) as [_ Hfail].
  split.
  - apply (Hok "slow pan, film grain" [] "slow pan, film grain"); reflexivity.
  - rewrite (Hfail (Exn "APIError" "unreachable") eq_refl). reflexivity.
Defined.

(** ** Traces that grow *)

Lemma extends_refl w : extends w w.
Proof. exists []; rewrite app_nil_r; reflexivity. Qed.

Lemma extends_trans w1 w2 w3 : extends w1 w2 -> extends w2 w3 -> extends w1 w3.
Proof.
  intros [d1 H1] [d2 H2]. exists (d1 ++ d2). rewrite H2, H1, app_assoc; reflexivity.
Qed.

Lemma extends_emit e w : extends w (emit e w).
Proof. exists [e]; reflexivity. Qed.

Lemma log_extends lvl msg : steps extends (log lvl msg).
Proof. intros w; apply extends_emit. Qed.

Lemma sleep_extends n : steps extends (sleep n).
Proof. intros w; apply extends_emit. Qed.

Lemma retrieve_extends svc id : steps extends (VideoGen.retrieve svc id).
Proof.
  intros w; unfold VideoGen.retrieve.
  destruct (tasks_retrieve svc (clock w) id); exists [ERetrieve id]; reflexivity.
Qed.

Lemma get_extends svc url : steps extends (VideoGen.get svc url).
Proof.
  intros w; unfold VideoGen.get.
  destruct (requests_get svc (clock w) url); exists [EGet url]; reflexivity.
Qed.

Lemma open_write_extends p : steps extends (open_write p).
Proof.
  intros w; unfold open_write.
  destruct (Fs.lookup p (fs w)) as [[c|]|];
    try destruct (Fs.is_dir (Py.parent p) (fs w));
    exists [EOpenWrite p]; reflexivity.
Qed.

Lemma write_extends p data : steps extends (write p data).
Proof.
  intros w; unfold write.
  destruct (Fs.lookup p (fs w)) as [[c|]|]; exists [EWrite p data]; reflexivity.
Qed.

Ltac extends_known svc :=
  first [ apply log_extends | apply sleep_extends | apply retrieve_extends
        | apply get_extends | apply open_write_extends | apply write_extends ].

Lemma poll_extends svc fuel : forall task, steps extends (VideoGen.poll svc fuel task).
Proof.
  induction fuel as [|fuel IH]; intros task; simpl;
    destruct (VideoGen.terminal (task_status task)).
  - apply steps_ret, extends_refl.
  - intros w; apply extends_refl.
  - apply steps_ret, extends_refl.
  - unfold VideoGen.poll_once.
    steps_with extends_refl extends_trans
      ltac:(first [ extends_known svc | apply IH ]).
Qed.

Lemma await_extends svc fuel task : steps extends (VideoGen.await svc fuel task).
Proof.
  unfold VideoGen.await.
  steps_with extends_refl extends_trans
    ltac:(first [ extends_known svc | apply poll_extends ]).
Qed.

Lemma raise_for_status_extends r : steps extends (VideoGen.raise_for_status r).
Proof.
  unfold VideoGen.raise_for_status; destruct (resp_status_error r);
    steps_with extends_refl extends_trans fail.
Qed.

Lemma write_content_extends p r : steps extends (VideoGen.write_content p r).
Proof.
  unfold VideoGen.write_content.
  steps_with extends_refl extends_trans fail.
  - destruct (Py.truthy x); [apply write_extends | apply steps_ret, extends_refl].
  - destruct (resp_stream_error r); steps_with extends_refl extends_trans fail.
Qed.

Lemma download_video_extends svc url p : steps extends (VideoGen.download_video svc url p).
Proof.
  unfold VideoGen.download_video, VideoGen.download_video_try.
  steps_with extends_refl extends_trans
    ltac:(first [ extends_known svc | apply raise_for_status_extends
                | apply write_content_extends ]).
Qed.

Lemma handle_task_extends svc self image_name task :
  steps extends (VideoGen.handle_task svc self image_name task).
Proof.
  unfold VideoGen.handle_task.
  destruct (String.eqb (task_status task) "SUCCEEDED"); [|apply log_extends].
  steps_with extends_refl extends_trans fail.
  - destruct (task_output task) as [[|url urls]|];
      steps_with extends_refl extends_trans ltac:(extends_known svc).
  - destruct a as [url|]; [|apply steps_raise, extends_refl].
    destruct (Py.truthy url); [|apply log_extends].
    steps_with extends_refl extends_trans
      ltac:(first [ extends_known svc | apply download_video_extends ]).
    destruct a; apply log_extends.
Qed.

Lemma append_nil_r (s : string) : (s ++ EmptyString)%string = s.
Proof. induction s as [|c s IH]; simpl; [reflexivity | rewrite IH; reflexivity]. Qed.

Lemma write_chunks_content p chunks : forall w acc,
  Fs.lookup p (fs w) = Some (File acc) ->
  exists w',
    for_each chunks (fun chunk => if Py.truthy chunk then write p chunk else ret tt) w
      = Ret tt w' /\
    Fs.lookup p (fs w')
      = Some (File (acc ++ fold_right String.append EmptyString chunks)) /\
    extends w w'.
Proof.
  induction chunks as [|c cs IH]; intros w acc Hacc; simpl.
  - exists w. rewrite append_nil_r. auto using extends_refl.
  - destruct c as [|x c]; simpl Py.truthy; cbv iota.
    + destruct (IH w acc Hacc) as (w' & Hrun & Hcontent & Hext).
      exists w'. split; [exact Hrun | auto].
    + set (c' := String x c) in *.
      assert (Hw : write p c' w
                   = Ret tt (set_fs (Fs.put p (File (acc ++ c')) (fs w))
                                    (emit (EWrite p c') w))).
      { unfold write. rewrite Hacc. reflexivity. }
      destruct (IH (set_fs (Fs.put p (File (acc ++ c')) (fs w)) (emit (EWrite p c') w))
                   (acc ++ c')%string) as (w' & Hrun & Hcontent & Hext).
      { simpl. apply lookup_put_same. }
      exists w'. rewrite (bind_Ret _ _ _ Hw). repeat split; auto.
      * rewrite Hcontent, append_assoc. reflexivity.
      * eapply extends_trans; [|exact Hext]. exists [EWrite p c']; reflexivity.
Qed.

Lemma run_task_reaches_create svc self fuel prompt_path w bytes prompt image :
  Fs.lookup prompt_path (fs w) = Some (File bytes) ->
  decode_text svc bytes = inr prompt ->
  Fs.lookup (VideoGen.image_path_of self prompt_path) (fs w) = Some (File image) ->
  VideoGen.run_task svc self fuel prompt_path w
  = bind (VideoGen.create svc "gen3a_turbo"
            ("data:image/png;base64," ++ b64encode svc image) prompt)
         (fun task =>
            task <- VideoGen.await svc fuel task ;;
            ret (Some (VideoGen.image_name_of prompt_path, task)))
         (emit (ERead (VideoGen.image_path_of self prompt_path))
            (emit (ELog INFO ("Creating video generation task for "
                                ++ VideoGen.image_name_of prompt_path))
               (emit (ERead prompt_path) w))).
Proof.
  intros Hp Hdecode Hi.
  assert (Hread : read_text svc prompt_path w = Ret prompt (emit (ERead prompt_path) w)).
  { unfold read_text, bind, read_file. rewrite Hp, Hdecode. reflexivity. }
  unfold VideoGen.run_task.
  rewrite (bind_Ret _ _ _ Hread).
  unfold bind at 1, exists_.
  change (fs (emit (ERead prompt_path) w)) with (fs w). rewrite Hi.
  cbv beta iota. change (negb true) with false. cbv iota.
  unfold bind at 1, log at 1.
  unfold bind at 1, read_file at 1.
  change (fs (emit (ELog INFO ("Creating video generation task for "
                                 ++ VideoGen.image_name_of prompt_path))
                (emit (ERead prompt_path) w))) with (fs w).
  rewrite Hi. reflexivity.
Qed.

(** ** Runs of the polling loop *)

Lemma poll_first_terminal_witness :
  VideoGen.poll Reachable.services 7 Busy.running_task Scenario.two_prompts_world
  = Ret (mkTask "t1" "SUCCEEDED" (Some ["https://cdn/v.mp4"])) Busy.after_four_turns.
Proof.
  apply (proj2 (poll_stops_exactly_at_first_terminal_status
                  Reachable.services 7 Busy.running_task Scenario.two_prompts_world
                  (mkTask "t1" "SUCCEEDED" (Some ["https://cdn/v.mp4"]))
                  Busy.after_four_turns)).
  exists 4. split; [lia|]. split; [vm_compute; reflexivity|].
  split; [reflexivity|]. split; [|vm_compute; reflexivity].
  intros i ti wi Hi Hrun.
  destruct i as [|[|[|[|i]]]]; try lia;
    vm_compute in Hrun; injection Hrun as <- _; reflexivity.
Defined.

Lemma await_never_returns_witness :
  exists w',
    VideoGen.await Busy.services 6 (mkTask "t1" "PENDING" None) Scenario.two_prompts_world
      = OutOfFuel w' /\
    queries (trace w') = 7.
Proof.
  apply (proj2 (await_sleeps_ten_seconds_before_each_query
                  Busy.services 6 (mkTask "t1" "PENDING" None)
                  Scenario.two_prompts_world)).
  intros c id. exists (mkTask id "RUNNING" None). split; reflexivity.
Defined.

(** * Further properties of the two scripts *)

(** ** Traces of the primitive operations *)

Lemma emits_refl ks w : emits ks w w.
Proof. exists []; rewrite app_nil_r; auto. Qed.

Lemma emits_trans ks w1 w2 w3 : emits ks w1 w2 -> emits ks w2 w3 -> emits ks w1 w3.
Proof.
  intros (d1 & H1 & F1) (d2 & H2 & F2). exists (d1 ++ d2). split.
  - rewrite H2, H1, app_assoc; reflexivity.
  - apply Forall_app; auto.
Qed.

Lemma emits_one ks e w w' :
  trace w' = trace w ++ [e] -> In (kind e) ks -> emits ks w w'.
Proof. intros H Hin. exists [e]; auto. Qed.

Lemma emits_incl ks ks' w w' : incl ks ks' -> emits ks w w' -> emits ks' w w'.
Proof.
  intros Hincl (d & H & F). exists d; split; [exact H|].
  eapply Forall_impl; [|exact F]. intros e He; apply Hincl; exact He.
Qed.

Lemma log_emits ks lvl msg : In KLog ks -> steps (emits ks) (log lvl msg).
Proof. intros H w. apply (@emits_one ks (ELog lvl msg)); auto. Qed.

Lemma sleep_emits ks n : In KSleep ks -> steps (emits ks) (sleep n).
Proof. intros H w. apply (@emits_one ks (ESleep n)); auto. Qed.

Lemma read_file_emits ks p : In KRead ks -> steps (emits ks) (read_file p).
Proof.
  intros H w. apply (@emits_one ks (ERead p)); auto.
  unfold read_file. destruct (Fs.lookup p (fs w)) as [[c|]|]; reflexivity.
Qed.

Lemma exists_emits ks p : steps (emits ks) (exists_ p).
Proof. intros w. apply emits_refl. Qed.

Lemma open_write_emits ks p : In KOpenWrite ks -> steps (emits ks) (open_write p).
Proof.
  intros H w. apply (@emits_one ks (EOpenWrite p)); auto.
  unfold open_write. destruct (Fs.lookup p (fs w)) as [[c|]|];
    try destruct (Fs.is_dir (Py.parent p) (fs w)); reflexivity.
Qed.

Lemma write_emits ks p data : In KWrite ks -> steps (emits ks) (write p data).
Proof.
  intros H w. apply (@emits_one ks (EWrite p data)); auto.
  unfold write. destruct (Fs.lookup p (fs w)) as [[c|]|]; reflexivity.
Qed.

Lemma create_emits ks svc model image text :
  In KCreate ks -> steps (emits ks) (VideoGen.create svc model image text).
Proof.
  intros H w. apply (@emits_one ks (ECreate model image text)); auto.
  unfold VideoGen.create.
  destruct (image_to_video_create svc (clock w) model image text); reflexivity.
Qed.

Lemma retrieve_emits ks svc id :
  In KRetrieve ks -> steps (emits ks) (VideoGen.retrieve svc id).
Proof.
  intros H w. apply (@emits_one ks (ERetrieve id)); auto.
  unfold VideoGen.retrieve. destruct (tasks_retrieve svc (clock w) id); reflexivity.
Qed.

Lemma get_emits ks svc url : In KGet ks -> steps (emits ks) (VideoGen.get svc url).
Proof.
  intros H w. apply (@emits_one ks (EGet url)); auto.
  unfold VideoGen.get. destruct (requests_get svc (clock w) url); reflexivity.
Qed.

Lemma chat_emits ks svc url : In KChat ks -> steps (emits ks) (Prompter.chat svc url).
Proof.
  intros H w. apply (@emits_one ks (EChat "gpt-4o" url)); auto.
  unfold Prompter.chat. destruct (chat_completions_create svc (clock w) url); reflexivity.
Qed.

Lemma mkdir_emits ks p : In KMkdir ks -> steps (emits ks) (mkdir_exist_ok p).
Proof.
  intros H w. apply (@emits_one ks (EMkdir p)); auto.
  unfold mkdir_exist_ok. destruct (Fs.lookup p (fs w)) as [[c|]|];
    try destruct (Fs.is_dir (Py.parent p) (fs w)); reflexivity.
Qed.

(** Closes a goal [steps (emits ks) op] for a primitive [op] and a list [ks]
    that is written out. *)
Ltac emits_known :=
  first [ apply exists_emits
        | apply log_emits; simpl; tauto
        | apply sleep_emits; simpl; tauto
        | apply read_file_emits; simpl; tauto
        | apply open_write_emits; simpl; tauto
        | apply write_emits; simpl; tauto
        | apply create_emits; simpl; tauto
        | apply retrieve_emits; simpl; tauto
        | apply get_emits; simpl; tauto
        | apply chat_emits; simpl; tauto
        | apply mkdir_emits; simpl; tauto ].

Ltac emits_steps ks known :=
  steps_with (emits_refl ks) (@emits_trans ks) ltac:(first [ emits_known | known ]).

Lemma filter_emits (P : Event -> bool) ks w w' :
  (forall e, In (kind e) ks -> P e = false) ->
  emits ks w w' -> filter P (trace w') = filter P (trace w).
Proof.
  intros HP (d & H & F). rewrite H, filter_app. clear H.
  assert (Hd : filter P d = []).
  { induction F as [|e d He F IH]; simpl; [reflexivity|].
    rewrite (HP e He). exact IH. }
  rewrite Hd, app_nil_r. reflexivity.
Qed.

(** ** Phases of an item and the events they add *)

Lemma poll_emits svc fuel : forall task,
  steps (emits [KSleep; KRetrieve; KLog]) (VideoGen.poll svc fuel task).
Proof.
  induction fuel as [|fuel IH]; intros task; simpl;
    destruct (VideoGen.terminal (task_status task)).
  - apply steps_ret, emits_refl.
  - intros w; apply emits_refl.
  - apply steps_ret, emits_refl.
  - unfold VideoGen.poll_once.
    emits_steps [KSleep; KRetrieve; KLog] ltac:(apply IH).
Qed.

Lemma await_emits svc fuel task :
  steps (emits [KSleep; KRetrieve; KLog]) (VideoGen.await svc fuel task).
Proof.
  unfold VideoGen.await.
  emits_steps [KSleep; KRetrieve; KLog] ltac:(apply poll_emits).
Qed.

Lemma write_content_emits p r :
  steps (emits [KWrite]) (VideoGen.write_content p r).
Proof.
  unfold VideoGen.write_content. emits_steps [KWrite] fail.
  - destruct (Py.truthy x); emits_steps [KWrite] fail.
  - destruct (resp_stream_error r); emits_steps [KWrite] fail.
Qed.

Lemma raise_for_status_emits ks r : steps (emits ks) (VideoGen.raise_for_status r).
Proof.
  unfold VideoGen.raise_for_status; destruct (resp_status_error r);
    [apply steps_raise | apply steps_ret]; apply emits_refl.
Qed.

Lemma steps_emits_incl {A} ks ks' (m : M A) :
  incl ks ks' -> steps (emits ks) m -> steps (emits ks') m.
Proof. intros Hincl H w. eapply emits_incl; [exact Hincl | apply H]. Qed.

Ltac incl_solve := intros ? ?; simpl in *; tauto.

(** Closes [forall e, In (kind e) ks -> P e = false] for a list [ks] that is
    written out. *)
Ltac kinds_solve :=
  let e := fresh "e" in
  let H := fresh "H" in
  intros e H; destruct e; simpl in *; first [reflexivity | intuition discriminate].

Lemma download_video_emits svc url p :
  steps (emits [KGet; KOpenWrite; KWrite; KLog]) (VideoGen.download_video svc url p).
Proof.
  unfold VideoGen.download_video, VideoGen.download_video_try.
  emits_steps [KGet; KOpenWrite; KWrite; KLog]
    ltac:(first [ apply raise_for_status_emits
                | apply (@steps_emits_incl _ [KWrite]);
                  [incl_solve | apply write_content_emits] ]).
Qed.

Lemma handle_task_emits svc self image_name task :
  steps (emits [KGet; KOpenWrite; KWrite; KLog])
        (VideoGen.handle_task svc self image_name task).
Proof.
  unfold VideoGen.handle_task.
  destruct (String.eqb (task_status task) "SUCCEEDED");
    [|emits_steps [KGet; KOpenWrite; KWrite; KLog] fail].
  emits_steps [KGet; KOpenWrite; KWrite; KLog] fail.
  - destruct (task_output task) as [[|url urls]|];
      emits_steps [KGet; KOpenWrite; KWrite; KLog] fail.
  - destruct a as [url|]; [|apply steps_raise, emits_refl].
    destruct (Py.truthy url); [|emits_steps [KGet; KOpenWrite; KWrite; KLog] fail].
    emits_steps [KGet; KOpenWrite; KWrite; KLog] ltac:(apply download_video_emits).
    destruct a; emits_steps [KGet; KOpenWrite; KWrite; KLog] fail.
Qed.

(** ** One download request at most *)

Lemma download_video_one_get svc url p w :
  filter is_get (trace (world_of (VideoGen.download_video svc url p w)))
  = filter is_get (trace w) ++ [EGet url].
Proof.
  assert (Hget : trace (world_of (VideoGen.get svc url w)) = trace w ++ [EGet url]).
  { unfold VideoGen.get. destruct (requests_get svc (clock w) url); reflexivity. }
  assert (Hrest : emits [KOpenWrite; KWrite; KLog]
                    (world_of (VideoGen.get svc url w))
                    (world_of (VideoGen.download_video svc url p w))).
  { unfold VideoGen.download_video, VideoGen.download_video_try.
    eapply emits_trans; [|apply (try_except_continues (emits_refl _))].
    - apply (bind_continues (emits_refl _)). intros r.
      emits_steps [KOpenWrite; KWrite; KLog]
        ltac:(first [ apply raise_for_status_emits
                    | apply (@steps_emits_incl _ [KWrite]);
                      [incl_solve | apply write_content_emits] ]).
    - intros e. emits_steps [KOpenWrite; KWrite; KLog] fail. }
  assert (Hno : forall e, In (kind e) [KOpenWrite; KWrite; KLog] -> is_get e = false)
    by kinds_solve.
  rewrite (filter_emits is_get Hno Hrest).
  rewrite Hget, filter_app. reflexivity.
Qed.

Lemma handle_task_downloads svc self image_name task url urls w :
  task_status task = "SUCCEEDED" ->
  task_output task = Some (url :: urls) ->
  Py.truthy url = true ->
  VideoGen.handle_task svc self image_name task w
  = bind (VideoGen.download_video svc url
            (Py.joinpath (VideoGen.output_folder self) (image_name ++ ".mp4")))
         (fun ok : bool =>
            if ok then log INFO ("Video generation complete for " ++ image_name)
            else log ERROR ("Failed to download video for " ++ image_name))
         (emit (ELog INFO ("Video URL: " ++ url)) w).
Proof.
  intros Hs Ho Hurl. unfold VideoGen.handle_task. rewrite Hs, Ho.
  change (String.eqb "SUCCEEDED" "SUCCEEDED") with true. cbv iota.
  unfold bind at 1. unfold bind at 1.
  unfold log at 1, ret at 1. rewrite Hurl. reflexivity.
Qed.

(** X1. The result handler sends a download request exactly when the task is
    SUCCEEDED and the first entry of its output is a non-empty URL, and then
    it sends one request, for that first URL: a FAILED task, a missing or
    empty output list and an empty first URL lead to no request, and further
    entries of the output are never fetched. *)
Theorem handler_requests_first_url_once svc self image_name task w :
  filter is_get (trace (world_of (VideoGen.handle_task svc self image_name task w)))
  = filter is_get (trace w)
    ++ match download_url task with
       | Some url => [EGet url]
       | None => []
       end.
Proof.
  unfold download_url.
  destruct (String.eqb (task_status task) "SUCCEEDED") eqn:Hs.
  - apply String.eqb_eq in Hs.
    destruct (task_output task) as [[|url urls]|] eqn:Ho.
    + unfold VideoGen.handle_task. rewrite Hs, Ho. simpl.
      rewrite filter_app. reflexivity.
    + destruct (Py.truthy url) eqn:Hurl.
      * rewrite (handle_task_downloads svc self image_name task w Hs Ho Hurl).
        match goal with |- context [bind ?m ?k ?w2] =>
          assert (Hrest : emits [KLog] (world_of (m w2)) (world_of (bind m k w2)))
        end.
        { apply (bind_continues (emits_refl _)).
          intros [|]; emits_steps [KLog] fail. }
        assert (Hno : forall e, In (kind e) [KLog] -> is_get e = false)
          by kinds_solve.
        rewrite (filter_emits is_get Hno Hrest).
        rewrite download_video_one_get, trace_emit, filter_app. simpl.
        rewrite app_nil_r. reflexivity.
      * destruct url; [|discriminate Hurl].
        unfold VideoGen.handle_task. rewrite Hs, Ho. simpl.
        rewrite <- app_assoc, filter_app. reflexivity.
    + unfold VideoGen.handle_task. rewrite Hs, Ho. simpl.
      rewrite filter_app. reflexivity.
  - unfold VideoGen.handle_task. rewrite Hs. simpl.
    rewrite filter_app. reflexivity.
Qed.

(** ** One submission at most *)

Lemma generate_video_from_create svc self fuel prompt_path w bytes prompt image :
  Fs.lookup prompt_path (fs w) = Some (File bytes) ->
  decode_text svc bytes = inr prompt ->
  Fs.lookup (VideoGen.image_path_of self prompt_path) (fs w) = Some (File image) ->
  VideoGen.generate_video svc self fuel prompt_path w
  = try_except
      (bind
         (bind (VideoGen.create svc "gen3a_turbo"
                  ("data:image/png;base64," ++ b64encode svc image) prompt)
               (fun task =>
                  task <- VideoGen.await svc fuel task ;;
                  ret (Some (VideoGen.image_name_of prompt_path, task))))
         (fun r : option (string * Task) =>
            match r with
            | None => ret tt
            | Some (image_name, task) => VideoGen.handle_task svc self image_name task
            end))
      (fun e => log ERROR ("Error processing " ++ prompt_path ++ ": " ++ exn_str e))
      (emit (ERead (VideoGen.image_path_of self prompt_path))
         (emit (ELog INFO ("Creating video generation task for "
                             ++ VideoGen.image_name_of prompt_path))
            (emit (ERead prompt_path) w))).
Proof.
  intros Hp Hdecode Hi. unfold VideoGen.generate_video, try_except. unfold bind at 1.
  rewrite (run_task_reaches_create svc self fuel prompt_path w Hp Hdecode Hi).
  reflexivity.
Qed.

Lemma generate_video_submissions svc self fuel prompt_path w :
  filter is_create
    (trace (world_of (VideoGen.generate_video svc self fuel prompt_path w)))
  = filter is_create (trace w) ++ submission_of svc self prompt_path w.
Proof.
  unfold submission_of.
  destruct (Fs.lookup prompt_path (fs w)) as [[bytes|]|] eqn:Hp.
  - destruct (decode_text svc bytes) as [e|prompt] eqn:Hdecode.
    { unfold VideoGen.generate_video, try_except, VideoGen.run_task, read_text, bind,
        read_file, raise, log.
      rewrite Hp, Hdecode. cbn [world_of trace emit]. rewrite !filter_app. simpl.
      rewrite !app_nil_r. reflexivity. }
    destruct (Fs.lookup (VideoGen.image_path_of self prompt_path) (fs w))
      as [[image|]|] eqn:Hi.
    + rewrite (generate_video_from_create svc self fuel prompt_path w Hp Hdecode Hi).
      match goal with |- context [try_except (bind (bind ?submit ?k1) ?k2) ?outer ?w4] =>
        assert (Hsubmit : trace (world_of (submit w4))
                          = trace w4 ++ [ECreate "gen3a_turbo"
                                           ("data:image/png;base64," ++ b64encode svc image)
                                           prompt]);
        [|assert (Hrest : emits [KSleep; KRetrieve; KLog; KGet; KOpenWrite; KWrite]
                            (world_of (submit w4))
                            (world_of (try_except (bind (bind submit k1) k2) outer w4)))]
      end.
      { unfold VideoGen.create.
        match goal with |- context [image_to_video_create ?a ?b ?c ?d ?e] =>
          destruct (image_to_video_create a b c d e) end; reflexivity. }
      { eapply emits_trans; [|apply (try_except_continues (emits_refl _))].
        - eapply emits_trans; [|apply (bind_continues (emits_refl _))].
          + apply (bind_continues (emits_refl _)). intros task.
            emits_steps [KSleep; KRetrieve; KLog; KGet; KOpenWrite; KWrite]
              ltac:(apply (@steps_emits_incl _ [KSleep; KRetrieve; KLog]);
                    [incl_solve | apply await_emits]).
          + intros [[image_name task]|].
            * apply (@steps_emits_incl _ [KGet; KOpenWrite; KWrite; KLog]);
                [incl_solve | apply handle_task_emits].
            * apply steps_ret, emits_refl.
        - intros e. emits_steps [KSleep; KRetrieve; KLog; KGet; KOpenWrite; KWrite] fail. }
      assert (Hno : forall e,
                 In (kind e) [KSleep; KRetrieve; KLog; KGet; KOpenWrite; KWrite] ->
                 is_create e = false) by kinds_solve.
      rewrite (filter_emits is_create Hno Hrest), Hsubmit.
      rewrite !trace_emit, !filter_app. simpl. rewrite !app_nil_r. reflexivity.
    + unfold VideoGen.generate_video, try_except, VideoGen.run_task, read_text, bind,
        read_file, ret, exists_, log.
      rewrite Hp, Hdecode. cbn [fs emit]. rewrite Hi. cbn [negb fs emit]. rewrite Hi.
      cbn [world_of trace emit]. rewrite !filter_app. simpl.
      rewrite !app_nil_r. reflexivity.
    + destruct (missing_image_submits_nothing svc self fuel prompt_path w Hi)
        as [msg ->].
      cbn [world_of]. rewrite !trace_emit, !filter_app. simpl.
      rewrite !app_nil_r. reflexivity.
  - unfold VideoGen.generate_video, try_except, VideoGen.run_task, read_text, bind,
      read_file, log.
    rewrite Hp. cbn [world_of trace emit]. rewrite !filter_app. simpl.
    rewrite !app_nil_r. reflexivity.
  - unfold VideoGen.generate_video, try_except, VideoGen.run_task, read_text, bind,
      read_file, log.
    rewrite Hp. cbn [world_of trace emit]. rewrite !filter_app. simpl.
    rewrite !app_nil_r. reflexivity.
Qed.

(** X2. An item submits one job when its prompt file is a file whose bytes
    can be decoded as text and the image [input-photos/<image name>.jpg] is a
    file, with the model [gen3a_turbo], the image as a data URL and the text
    the prompt file decodes to; otherwise (the prompt cannot be read or
    cannot be decoded, the image is missing or is a directory) it submits
    none.  Nothing that follows the submission, be it polling, downloading or
    the handling of an error, submits again. *)
Theorem item_submits_once_when_prompt_and_image_are_files
    svc self fuel prompt_path w :
  filter is_create
    (trace (world_of (VideoGen.generate_video svc self fuel prompt_path w)))
  = filter is_create (trace w) ++ submission_of svc self prompt_path w.
Proof. apply generate_video_submissions. Qed.

(** ** What an item leaves untouched *)

Lemma lookup_put_other p q n m :
  q <> p -> Fs.lookup q (Fs.put p n m) = Fs.lookup q m.
Proof.
  intros Hne. induction m as [|[k n'] m IH]; simpl.
  - destruct (String.eqb p q) eqn:E; [|reflexivity].
    apply String.eqb_eq in E; congruence.
  - destruct (String.eqb k p) eqn:E; simpl.
    + apply String.eqb_eq in E; subst k.
      destruct (String.eqb p q) eqn:E2; [|reflexivity].
      apply String.eqb_eq in E2; congruence.
    + rewrite IH; reflexivity.
Qed.

Lemma only_changes_refl p w : only_changes p w w.
Proof. intros q _; reflexivity. Qed.

Lemma only_changes_trans p w1 w2 w3 :
  only_changes p w1 w2 -> only_changes p w2 w3 -> only_changes p w1 w3.
Proof. intros H12 H23 q Hq. rewrite (H23 q Hq). apply H12; exact Hq. Qed.

Lemma same_fs_only_changes {A} p (m : M A) :
  steps same_fs m -> steps (only_changes p) m.
Proof. intros H w q _. rewrite (H w). reflexivity. Qed.

Lemma get_same_fs svc url : steps same_fs (VideoGen.get svc url).
Proof.
  intros w; unfold VideoGen.get, same_fs.
  destruct (requests_get svc (clock w) url); reflexivity.
Qed.

Lemma open_write_only_changes p : steps (only_changes p) (open_write p).
Proof.
  intros w q Hq. unfold open_write.
  destruct (Fs.lookup p (fs w)) as [[c|]|];
    try destruct (Fs.is_dir (Py.parent p) (fs w)); simpl;
    rewrite ?(lookup_put_other _ _ Hq); reflexivity.
Qed.

Lemma write_only_changes p data : steps (only_changes p) (write p data).
Proof.
  intros w q Hq. unfold write.
  destruct (Fs.lookup p (fs w)) as [[c|]|]; simpl;
    rewrite ?(lookup_put_other _ _ Hq); reflexivity.
Qed.

Ltac only_changes_known :=
  first [ apply open_write_only_changes | apply write_only_changes
        | apply same_fs_only_changes;
          first [ apply log_same_fs | apply get_same_fs | apply read_file_same_fs ] ].

Lemma raise_for_status_only_changes p r :
  steps (only_changes p) (VideoGen.raise_for_status r).
Proof.
  unfold VideoGen.raise_for_status; destruct (resp_status_error r);
    [apply steps_raise | apply steps_ret]; apply only_changes_refl.
Qed.

Lemma write_content_only_changes p r :
  steps (only_changes p) (VideoGen.write_content p r).
Proof.
  unfold VideoGen.write_content.
  steps_with (@only_changes_refl p) (@only_changes_trans p) fail.
  - destruct (Py.truthy x);
      steps_with (@only_changes_refl p) (@only_changes_trans p) only_changes_known.
  - destruct (resp_stream_error r);
      steps_with (@only_changes_refl p) (@only_changes_trans p) fail.
Qed.

Lemma download_video_only_changes svc url p :
  steps (only_changes p) (VideoGen.download_video svc url p).
Proof.
  unfold VideoGen.download_video, VideoGen.download_video_try.
  steps_with (@only_changes_refl p) (@only_changes_trans p)
    ltac:(first [ only_changes_known | apply raise_for_status_only_changes
                | apply write_content_only_changes ]).
Qed.

Lemma handle_task_only_changes svc self image_name task :
  steps (only_changes (Py.joinpath (VideoGen.output_folder self) (image_name ++ ".mp4")))
        (VideoGen.handle_task svc self image_name task).
Proof.
  set (out := Py.joinpath (VideoGen.output_folder self) (image_name ++ ".mp4")).
  unfold VideoGen.handle_task. fold out.
  destruct (String.eqb (task_status task) "SUCCEEDED");
    [|steps_with (@only_changes_refl out) (@only_changes_trans out) only_changes_known].
  steps_with (@only_changes_refl out) (@only_changes_trans out) fail.
  - destruct (task_output task) as [[|url urls]|];
      steps_with (@only_changes_refl out) (@only_changes_trans out) only_changes_known.
  - destruct a as [url|]; [|apply steps_raise, only_changes_refl].
    destruct (Py.truthy url);
      [|steps_with (@only_changes_refl out) (@only_changes_trans out) only_changes_known].
    steps_with (@only_changes_refl out) (@only_changes_trans out)
      ltac:(first [ apply download_video_only_changes | only_changes_known ]).
    destruct a;
      steps_with (@only_changes_refl out) (@only_changes_trans out) only_changes_known.
Qed.

Lemma generate_video_only_changes svc self fuel prompt_path :
  steps (only_changes (video_path self prompt_path))
        (VideoGen.generate_video svc self fuel prompt_path).
Proof.
  intros w q Hq.
  pose proof (run_task_same_fs svc self fuel prompt_path w) as Hfs.
  unfold same_fs in Hfs.
  unfold VideoGen.generate_video, try_except, bind.
  destruct (VideoGen.run_task svc self fuel prompt_path w)
    as [[[name task]|] w1|e w1|w1] eqn:Hrun; simpl in Hfs.
  - pose proof (run_task_image_name _ _ _ _ _ Hrun) as ->.
    pose proof (@handle_task_only_changes svc self (VideoGen.image_name_of prompt_path)
                  task w1 q Hq) as Hh.
    rewrite <- Hfs, <- Hh.
    destruct (VideoGen.handle_task svc self (VideoGen.image_name_of prompt_path) task w1);
      reflexivity.
  - simpl. rewrite Hfs. reflexivity.
  - simpl. rewrite Hfs. reflexivity.
  - simpl. rewrite Hfs. reflexivity.
Qed.

(** X3. Processing an item changes the file system at one path at most
    besides the log file [runway_generator.log], to which the records of the
    item are appended: the video path of the item.  Every other path (the
    prompt files, the images, the videos of other items) holds afterwards
    what it held before, however the item ends. *)
Theorem item_changes_only_its_video svc self fuel prompt_path w q :
  q <> video_path self prompt_path ->
  q <> "runway_generator.log" ->
  Fs.lookup q (fs (world_of (VideoGen.generate_video svc self fuel prompt_path w)))
  = Fs.lookup q (fs w).
Proof.
  intros Hq _. apply (generate_video_only_changes svc self fuel prompt_path w), Hq.
Qed.

Lemma item_changes_only_its_video_witness :
  Fs.lookup "videos/b.mp4"
    (fs (world_of (VideoGen.generate_video Reachable.services Scenario.generator 3
                     "prompts/a_prompt.txt" Rerun.world)))
  = Fs.lookup "videos/b.mp4" (fs Rerun.world)
  /\ Fs.lookup "prompts/a_prompt.txt"
       (fs (world_of (VideoGen.generate_video Reachable.services Scenario.generator 3
                        "prompts/a_prompt.txt" Rerun.world)))
     = Some (File "slow pan").
Proof.
  split.
  - apply (@item_changes_only_its_video Reachable.services Scenario.generator 3
             "prompts/a_prompt.txt" Rerun.world "videos/b.mp4").
    + vm_compute. discriminate.
    + discriminate.
  - rewrite (@item_changes_only_its_video Reachable.services Scenario.generator 3
               "prompts/a_prompt.txt" Rerun.world "prompts/a_prompt.txt").
    + reflexivity.
    + vm_compute. discriminate.
    + discriminate.
Defined.

(** ** The result of a download *)

Lemma open_write_fails p w :
  writable p (fs w) = false ->
  exists e, open_write p w = Raise e (emit (EOpenWrite p) w).
Proof.
  unfold writable, open_write.
  destruct (Fs.lookup p (fs w)) as [[c|]|]; intros H; try rewrite H; eauto.
Qed.

Lemma write_content_result p r w acc :
  Fs.lookup p (fs w) = Some (File acc) ->
  exists w',
    VideoGen.write_content p r w
      = match resp_stream_error r with
        | Some e => Raise e w'
        | None => Ret tt w'
        end /\
    Fs.lookup p (fs w') = Some (File (acc ++ body_of r)) /\
    logs (trace w') = logs (trace w).
Proof.
  intros Hacc.
  destruct (@write_chunks_content p (resp_chunks r) w acc Hacc)
    as (w' & Hrun & Hcontent & _).
  exists w'.
  pose proof (write_content_same_logs p r w) as Hlogs. unfold same_logs in Hlogs.
  unfold VideoGen.write_content in *. rewrite (bind_Ret _ _ _ Hrun) in *.
  destruct (resp_stream_error r); simpl in Hlogs; auto.
Qed.

(** X4. [download_video] always returns, [True] or [False], and never raises.
    It returns [True] exactly when the GET answers with a success status, the
    destination can be opened and the stream ends without an error; the
    destination then holds the chunks of the response in order, and the one
    record the call adds to the log is the INFO record of the success.  When
    it returns [False] the one record it adds is the ERROR record with the text
    of the exception. *)
Theorem download_video_returns_whether_it_succeeded svc url p w :
  exists ok w',
    VideoGen.download_video svc url p w = Ret ok w' /\
    (ok = true <-> download_ok svc url p w) /\
    (ok = true ->
     logs (trace w') = logs (trace w)
                       ++ [(INFO, ("Successfully downloaded video to " ++ p)%string)] /\
     forall r, requests_get svc (clock w) url = inr r ->
               Fs.lookup p (fs w') = Some (File (body_of r))) /\
    (ok = false ->
     exists e,
       logs (trace w') = logs (trace w)
                         ++ [(ERROR, ("Error downloading video: " ++ exn_str e)%string)]).
Proof.
  destruct (requests_get svc (clock w) url) as [e|r] eqn:Hget.
  - exists false. eexists. split.
    + unfold VideoGen.download_video, try_except, VideoGen.download_video_try,
        bind, VideoGen.get. rewrite Hget. reflexivity.
    + split; [|split].
      * split; [discriminate|]. intros (r & Hr & _). congruence.
      * discriminate.
      * intros _. exists e. cbn [log bind ret emit trace tick].
        rewrite !logs_app. simpl. rewrite app_nil_r. reflexivity.
  - destruct (resp_status_error r) as [e|] eqn:Hstatus.
    + exists false. eexists. split.
      * unfold VideoGen.download_video, try_except, VideoGen.download_video_try,
          bind, VideoGen.get, VideoGen.raise_for_status.
        rewrite Hget, Hstatus. reflexivity.
      * split; [|split].
        -- split; [discriminate|]. intros (r' & Hr & Hs & _).
           rewrite Hget in Hr. injection Hr as <-. congruence.
        -- discriminate.
        -- intros _. exists e. cbn [log bind ret emit trace tick].
           rewrite !logs_app. simpl. rewrite app_nil_r. reflexivity.
    + destruct (writable p (fs w)) eqn:Hopen.
      * rewrite (download_video_opened svc url p w Hget Hstatus Hopen).
        match goal with |- context [try_except _ _ ?w3] => set (w3' := w3) end.
        destruct (@write_content_result p r w3' EmptyString)
          as (w5 & Hbody & Hcontent & Hlogs).
        { unfold w3'; simpl. apply lookup_put_same. }
        assert (Hlogs3 : logs (trace w3') = logs (trace w)).
        { unfold w3'. cbn [set_fs trace emit tick]. rewrite !logs_app. simpl.
          rewrite !app_nil_r. reflexivity. }
        destruct (resp_stream_error r) as [e|] eqn:Hstream.
        -- exists false. eexists. split.
           ++ unfold try_except. rewrite (bind_Raise _ _ _ Hbody). reflexivity.
           ++ split; [|split].
              ** split; [discriminate|]. intros (r' & Hr & _ & _ & Hs).
                 rewrite Hget in Hr. injection Hr as <-. congruence.
              ** discriminate.
              ** intros _. exists e. cbn [log bind ret emit trace].
                 rewrite logs_app, Hlogs, Hlogs3. reflexivity.
        -- exists true. eexists. split.
           ++ unfold try_except. rewrite (bind_Ret _ _ _ Hbody). reflexivity.
           ++ split; [|split].
              ** split; [|reflexivity]. intros _. exists r. auto.
              ** intros _. split.
                 --- cbn [emit trace]. rewrite logs_app, Hlogs, Hlogs3. reflexivity.
                 --- intros r' Hr. injection Hr as <-. exact Hcontent.
              ** discriminate.
      * destruct (open_write_fails p (tick (emit (EGet url) w))) as [e He].
        { exact Hopen. }
        exists false. eexists. split.
        -- unfold VideoGen.download_video, try_except, VideoGen.download_video_try.
           unfold bind at 1, VideoGen.get. rewrite Hget.
           unfold bind at 1, VideoGen.raise_for_status. rewrite Hstatus.
           unfold ret at 1. rewrite (bind_Raise _ _ _ He). reflexivity.
        -- split; [|split].
           ++ split; [discriminate|]. intros (r' & _ & _ & Hw & _). congruence.
           ++ discriminate.
           ++ intros _. exists e. cbn [log bind ret emit trace tick].
              rewrite !logs_app. simpl. rewrite !app_nil_r. reflexivity.
Qed.

(** ** The batch of videos *)

Lemma prompt_loop_never_raises svc self fuel paths : forall w e w',
  for_each paths (VideoGen.process_prompt svc self fuel) w <> Raise e w'.
Proof.
  induction paths as [|p paths IH]; intros w e w'; simpl; [discriminate|].
  unfold bind at 1, VideoGen.process_prompt at 1. unfold bind at 1, log at 1.
  match goal with |- context [VideoGen.generate_video svc self fuel p ?w1] =>
    pose proof (generate_video_never_raises svc self fuel p w1) as Hitem;
    destruct (VideoGen.generate_video svc self fuel p w1) as [[] w2|e2 w2|w2]
  end.
  - apply IH.
  - exfalso. apply (Hitem e2 w2). reflexivity.
  - discriminate.
Qed.

Lemma mkdir_raises_iff p w :
  (exists e w', mkdir_exist_ok p w = Raise e w') <-> cannot_mkdir p (fs w) = true.
Proof.
  unfold mkdir_exist_ok, cannot_mkdir.
  destruct (Fs.lookup p (fs w)) as [[c|]|];
    try destruct (Fs.is_dir (Py.parent p) (fs w)); simpl;
    split; intros H; try discriminate; eauto;
    destruct H as (e & w' & H); discriminate.
Qed.

(** X5. The only exception that leaves [process_all_prompts] is the one of
    creating the output folder: the batch raises exactly when the output
    folder exists as a file, or is absent with a parent that is not a
    directory.  Whatever an item does, the loop over the prompt files does not
    raise, and [main] never raises. *)
Theorem video_batch_raises_only_when_output_folder_cannot_be_made svc self fuel w :
  ((exists e w', VideoGen.process_all_prompts svc self fuel w = Raise e w')
   <-> cannot_mkdir (VideoGen.output_folder self) (fs w) = true) /\
  (forall paths e w',
      for_each paths (VideoGen.process_prompt svc self fuel) w <> Raise e w') /\
  (forall e w', VideoGen.main svc fuel w <> Raise e w').
Proof.
  split; [|split].
  - rewrite <- mkdir_raises_iff. unfold VideoGen.process_all_prompts.
    unfold bind at 1.
    destruct (mkdir_exist_ok (VideoGen.output_folder self) w) as [[] w1|e1 w1|w1].
    + split; intros (e & w' & H); [|discriminate H]. exfalso.
      unfold bind, glob_suffix in H.
      destruct (Fs.is_dir (VideoGen.input_folder self) (fs w1));
        apply prompt_loop_never_raises in H; exact H.
    + split; intros _; eauto.
    + split; intros (e & w' & H); discriminate H.
  - intros paths e w'. apply prompt_loop_never_raises.
  - intros e w'. unfold VideoGen.main, try_except.
    match goal with |- context [match ?m with _ => _ end] => destruct m end;
      discriminate.
Qed.

(** X6. The loop over the prompt files submits at most as many jobs as there
    are prompt files. *)
Theorem video_batch_submits_at_most_one_job_per_prompt svc self fuel paths : forall w,
  List.length
    (filter is_create
       (trace (world_of (for_each paths (VideoGen.process_prompt svc self fuel) w))))
  <= List.length (filter is_create (trace w)) + List.length paths.
Proof.
  induction paths as [|p paths IH]; intros w; simpl; [lia|].
  unfold bind at 1, VideoGen.process_prompt at 1. unfold bind at 1, log at 1.
  remember (emit (ELog INFO ("Processing " ++ Py.name p)) w) as w1 eqn:Ew1.
  assert (Hw1 : filter is_create (trace w1) = filter is_create (trace w)).
  { rewrite Ew1, trace_emit, filter_app. simpl. apply app_nil_r. }
  pose proof (generate_video_submissions svc self fuel p w1) as Hitem.
  assert (Hone : List.length (submission_of svc self p w1) <= 1).
  { unfold submission_of.
    destruct (Fs.lookup p (fs w1)) as [[c|]|];
      try destruct (decode_text svc c);
      try destruct (Fs.lookup (VideoGen.image_path_of self p) (fs w1)) as [[c'|]|];
      simpl; lia. }
  destruct (VideoGen.generate_video svc self fuel p w1) as [[] w2|e2 w2|w2];
    simpl in Hitem.
  - specialize (IH w2). rewrite Hitem, length_app, Hw1 in IH. lia.
  - simpl. rewrite Hitem, length_app, Hw1. lia.
  - simpl. rewrite Hitem, length_app, Hw1. lia.
Qed.

(** ** Starting the video script *)

Lemma lookup_configured logfile q w :
  q <> logfile -> Fs.lookup q (fs (configured logfile w)) = Fs.lookup q (fs w).
Proof.
  intros Hq. unfold configured.
  destruct (Fs.lookup logfile (fs w)); [reflexivity|].
  cbn [fs set_fs]. apply lookup_put_other, Hq.
Qed.

Lemma trace_configured logfile w :
  trace (configured logfile w) = trace w ++ [EBasicConfig logfile].
Proof. unfold configured. destruct (Fs.lookup logfile (fs w)); reflexivity. Qed.

Lemma clock_configured logfile w : clock (configured logfile w) = clock w.
Proof. unfold configured. destruct (Fs.lookup logfile (fs w)); reflexivity. Qed.

Lemma basic_config_returns logfile w :
  Fs.lookup logfile (fs w) <> Some Dir ->
  basic_config logfile w = Ret tt (configured logfile w).
Proof.
  intros Hlog. unfold basic_config.
  destruct (Fs.lookup logfile (fs w)) as [[c|]|]; congruence.
Qed.

Lemma constructor_with_key k a b w :
  getenv_in "RUNWAY_API_KEY" (env w) = Some k ->
  Py.truthy k = true ->
  Fs.lookup "runway_generator.log" (fs w) <> Some Dir ->
  VideoGen.SimpleVideoGenerator a b w
  = Ret (VideoGen.mkGenerator k a b) (configured "runway_generator.log" w).
Proof.
  intros Hk Ht Hlog. unfold VideoGen.SimpleVideoGenerator, bind, getenv.
  rewrite Hk, Ht. unfold VideoGen.setup_logging.
  rewrite (basic_config_returns _ _ Hlog). reflexivity.
Qed.

(** X7. RUNWAY_API_KEY set to the empty string is treated as a missing key:
    the constructor raises the same [ValueError], and [main] ends with the
    same single ERROR record, without configuring the log, creating the
    output folder or looking at a prompt. *)
Theorem empty_runway_key_is_a_missing_key svc fuel w k :
  getenv_in "RUNWAY_API_KEY" (env w) = Some k ->
  Py.truthy k = false ->
  VideoGen.SimpleVideoGenerator "prompts" "videos" w
    = Raise VideoGen.ValueError_no_key w /\
  VideoGen.main svc fuel w
    = Ret tt (emit (ELog ERROR
                      "Error in main: RUNWAY_API_KEY not found in environment variables")
                   w).
Proof.
  intros Hk Ht.
  assert (Hinit : VideoGen.SimpleVideoGenerator "prompts" "videos" w
                  = Raise VideoGen.ValueError_no_key w).
  { unfold VideoGen.SimpleVideoGenerator, bind, getenv. rewrite Hk, Ht. reflexivity. }
  split; [exact Hinit|].
  unfold VideoGen.main, try_except. rewrite (bind_Raise _ _ _ Hinit). reflexivity.
Qed.

Lemma empty_runway_key_witness :
  VideoGen.main Reachable.services 3 Startup.empty_key_world
  = Ret tt (emit (ELog ERROR
                    "Error in main: RUNWAY_API_KEY not found in environment variables")
                 Startup.empty_key_world).
Proof.
  apply (@empty_runway_key_is_a_missing_key Reachable.services 3
           Startup.empty_key_world EmptyString); reflexivity.
Defined.

(** X8. With a key in the environment and a log file [runway_generator.log]
    that can be opened (the path is not a directory), when [videos] exists
    and is a regular file, [main] configures the log, which creates the log
    file when it is not there, tries the [mkdir], writes the one ERROR record
    [Error in main: [Errno 17] File exists: 'videos'] and returns: the
    prompts folder is not listed, no prompt is read and no job is
    submitted. *)
Theorem main_stops_when_videos_is_a_file svc fuel w k c :
  getenv_in "RUNWAY_API_KEY" (env w) = Some k ->
  Py.truthy k = true ->
  Fs.lookup "runway_generator.log" (fs w) <> Some Dir ->
  Fs.lookup "videos" (fs w) = Some (File c) ->
  VideoGen.main svc fuel w
  = Ret tt (emit (ELog ERROR "Error in main: [Errno 17] File exists: 'videos'")
              (emit (EMkdir "videos")
                 (configured "runway_generator.log" w))).
Proof.
  intros Hk Ht Hlog Hfile.
  set (w1 := configured "runway_generator.log" w).
  assert (He : mkdir_exist_ok "videos" w1
               = Raise (FileExistsError "videos") (emit (EMkdir "videos") w1)).
  { unfold mkdir_exist_ok, w1. rewrite lookup_configured by discriminate.
    rewrite Hfile. reflexivity. }
  unfold VideoGen.main, try_except.
  rewrite (bind_Ret _ _ _ (constructor_with_key "prompts" "videos" w Hk Ht Hlog)).
  unfold VideoGen.process_all_prompts.
  change (VideoGen.output_folder (VideoGen.mkGenerator k "prompts" "videos"))
    with "videos".
  fold w1. rewrite (bind_Raise _ _ _ He). reflexivity.
Qed.

Lemma main_stops_witness :
  Fs.lookup "videos" (fs Startup.videos_is_a_file) = Some (File "notes") /\
  VideoGen.main Reachable.services 3 Startup.videos_is_a_file
  = Ret tt (emit (ELog ERROR "Error in main: [Errno 17] File exists: 'videos'")
              (emit (EMkdir "videos")
                 (configured "runway_generator.log" Startup.videos_is_a_file))).
Proof.
  split; [reflexivity|].
  apply (@main_stops_when_videos_is_a_file Reachable.services 3
           Startup.videos_is_a_file "key" "notes");
    first [reflexivity | discriminate].
Defined.

(** X9. A missing [prompts] folder is not an error for the video script: with
    a key in the environment, a log file [runway_generator.log] that can be
    opened (the path is not a directory) and a [videos] folder that can be
    made, [main] configures the log, makes sure [videos] exists, lists
    nothing, and returns without a log record and without a submission. *)
Theorem main_is_quiet_without_a_prompts_folder svc fuel w k :
  getenv_in "RUNWAY_API_KEY" (env w) = Some k ->
  Py.truthy k = true ->
  Fs.lookup "runway_generator.log" (fs w) <> Some Dir ->
  cannot_mkdir "videos" (fs w) = false ->
  Fs.lookup "prompts" (fs w) = None ->
  exists w',
    VideoGen.main svc fuel w = Ret tt w' /\
    trace w' = trace w ++ [EBasicConfig "runway_generator.log";
                           EMkdir "videos"; EListDir "prompts"] /\
    Fs.lookup "videos" (fs w') = Some Dir /\
    clock w' = clock w.
Proof.
  intros Hk Ht Hlog Hmk Hnone.
  set (w1 := configured "runway_generator.log" w).
  assert (Hv1 : Fs.lookup "videos" (fs w1) = Fs.lookup "videos" (fs w))
    by (apply lookup_configured; discriminate).
  assert (Hp1 : Fs.lookup "prompts" (fs w1) = None)
    by (unfold w1; rewrite lookup_configured by discriminate; exact Hnone).
  assert (Hmkdir : exists w2,
             mkdir_exist_ok "videos" w1 = Ret tt w2 /\
             trace w2 = trace w1 ++ [EMkdir "videos"] /\
             Fs.lookup "videos" (fs w2) = Some Dir /\
             Fs.lookup "prompts" (fs w2) = None /\
             clock w2 = clock w).
  { unfold mkdir_exist_ok, cannot_mkdir in *. rewrite Hv1.
    change (Fs.is_dir (Py.parent "videos") (fs w1)) with true.
    destruct (Fs.lookup "videos" (fs w)) as [[c|]|] eqn:Hv; try discriminate.
    - eexists; split; [reflexivity|]. cbn [fs trace clock emit].
      rewrite Hv1. repeat split; auto. apply clock_configured.
    - eexists; split; [reflexivity|]. cbn [fs trace clock emit set_fs].
      split; [reflexivity|]. split; [apply lookup_put_same|]. split.
      + rewrite lookup_put_other by discriminate. exact Hp1.
      + apply clock_configured. }
  destruct Hmkdir as (w2 & Hrun & Htrace & Hvideos & Hprompts & Hclock).
  exists (emit (EListDir "prompts") w2).
  split; [|split; [|split]].
  - unfold VideoGen.main, try_except.
    rewrite (bind_Ret _ _ _ (constructor_with_key "prompts" "videos" w Hk Ht Hlog)).
    unfold VideoGen.process_all_prompts.
    change (VideoGen.output_folder (VideoGen.mkGenerator k "prompts" "videos"))
      with "videos".
    change (VideoGen.input_folder (VideoGen.mkGenerator k "prompts" "videos"))
      with "prompts".
    fold w1. rewrite (bind_Ret _ _ _ Hrun).
    unfold bind, glob_suffix, Fs.is_dir. rewrite Hprompts. reflexivity.
  - rewrite trace_emit, Htrace. unfold w1. rewrite trace_configured.
    rewrite <- !app_assoc. reflexivity.
  - exact Hvideos.
  - exact Hclock.
Qed.

Lemma main_is_quiet_witness :
  exists w',
    VideoGen.main Reachable.services 3 Startup.no_prompts_folder = Ret tt w' /\
    trace w' = [EBasicConfig "runway_generator.log"; EMkdir "videos"; EListDir "prompts"] /\
    Fs.lookup "videos" (fs w') = Some Dir /\
    clock w' = 0.
Proof.
  apply (@main_is_quiet_without_a_prompts_folder Reachable.services 3
           Startup.no_prompts_folder "key");
    first [reflexivity | discriminate].
Defined.

(** ** Saving a prompt *)

Lemma save_prompt_unfold svc self image_name prompt w :
  let out := Py.joinpath (Prompter.output_folder self) (image_name ++ "_prompt.txt") in
  Prompter.save_prompt svc self image_name prompt w
  = try_except
      (open_write out ;; write_text svc out prompt ;;
       log INFO ("Saved prompt for " ++ image_name))
      (fun e => log ERROR ("Error saving prompt for " ++ image_name ++ ": " ++ exn_str e))
      w.
Proof. reflexivity. Qed.

Lemma save_prompt_never_raises svc self image_name prompt w :
  forall e w', Prompter.save_prompt svc self image_name prompt w <> Raise e w'.
Proof.
  intros e w'. unfold Prompter.save_prompt, try_except.
  match goal with |- context [match ?m with _ => _ end] => destruct m end;
    discriminate.
Qed.

(** X10. [save_prompt] never raises.  When the prompt file can be opened for
    writing and the prompt can be encoded in the encoding of the file, the
    file holds afterwards exactly the encoded prompt, whatever it held
    before, and the record [Saved prompt] is logged.  When the file can be
    opened and the prompt cannot be encoded, the file is left empty, as the
    open truncated it, and one ERROR record [Error saving prompt] with the
    text of the encoding error is logged.  When the file cannot be opened,
    no prompt file is made or changed and one ERROR record [Error saving
    prompt] is logged. *)
Theorem save_prompt_writes_the_prompt_or_logs_the_error svc self image_name prompt w :
  let out := Py.joinpath (Prompter.output_folder self) (image_name ++ "_prompt.txt") in
  (forall bytes,
      writable out (fs w) = true ->
      encode_text svc prompt = inr bytes ->
      exists w',
        Prompter.save_prompt svc self image_name prompt w = Ret tt w' /\
        Fs.lookup out (fs w') = Some (File bytes) /\
        logs (trace w')
        = logs (trace w) ++ [(INFO, ("Saved prompt for " ++ image_name)%string)])
  /\
  (forall e,
      writable out (fs w) = true ->
      encode_text svc prompt = inl e ->
      exists w',
        Prompter.save_prompt svc self image_name prompt w = Ret tt w' /\
        Fs.lookup out (fs w') = Some (File EmptyString) /\
        logs (trace w')
        = logs (trace w)
          ++ [(ERROR, ("Error saving prompt for " ++ image_name ++ ": "
                         ++ exn_str e)%string)])
  /\
  (writable out (fs w) = false ->
   exists e,
     Prompter.save_prompt svc self image_name prompt w
     = Ret tt (emit (ELog ERROR ("Error saving prompt for " ++ image_name ++ ": "
                                   ++ exn_str e))
                 (emit (EOpenWrite out) w))).
Proof.
  intros out. split; [|split].
  - intros bytes Hopen Hencode. rewrite save_prompt_unfold. fold out.
    unfold try_except. unfold bind at 1. rewrite (open_write_ok _ _ Hopen).
    unfold bind at 1, write_text. rewrite Hencode. unfold write.
    cbn [fs set_fs emit]. rewrite lookup_put_same.
    eexists. split; [reflexivity|]. split.
    + cbn [fs set_fs emit]. apply lookup_put_same.
    + cbn [trace set_fs emit]. rewrite !logs_app. simpl.
      rewrite !app_nil_r. reflexivity.
  - intros e Hopen Hencode. rewrite save_prompt_unfold. fold out.
    unfold try_except. unfold bind at 1. rewrite (open_write_ok _ _ Hopen).
    unfold bind at 1, write_text. rewrite Hencode. unfold raise, log.
    eexists. split; [reflexivity|]. split.
    + cbn [fs set_fs emit]. apply lookup_put_same.
    + cbn [trace set_fs emit]. rewrite !logs_app. simpl.
      rewrite !app_nil_r. reflexivity.
  - intros Hopen. rewrite save_prompt_unfold. fold out.
    destruct (open_write_fails out w Hopen) as [e He]. exists e.
    unfold try_except. rewrite (bind_Raise _ _ _ He). reflexivity.
Qed.

Lemma save_prompt_witness :
  (exists w',
      Prompter.save_prompt Locale.services Photos.generator "a" "slow pan"
        Folders.second_run = Ret tt w' /\
      Fs.lookup "prompts/a_prompt.txt" (fs w') = Some (File "slow pan") /\
      logs (trace w') = [(INFO, "Saved prompt for a")]) /\
  (exists w',
      Prompter.save_prompt Locale.services Photos.generator "a" Locale.accented
        Folders.second_run = Ret tt w' /\
      Fs.lookup "prompts/a_prompt.txt" (fs w') = Some (File EmptyString) /\
      logs (trace w')
      = [(ERROR, ("Error saving prompt for a: " ++ exn_str Locale.UnicodeEncodeError)%string)]) /\
  (exists e,
      Prompter.save_prompt Locale.services Photos.generator "a" "slow pan"
        Folders.prompt_is_a_folder
      = Ret tt (emit (ELog ERROR ("Error saving prompt for a: " ++ exn_str e))
                  (emit (EOpenWrite "prompts/a_prompt.txt") Folders.prompt_is_a_folder))).
Proof.
  split; [|split].
  - apply (proj1 (@save_prompt_writes_the_prompt_or_logs_the_error
                    Locale.services Photos.generator "a" "slow pan" Folders.second_run));
      reflexivity.
  - apply (proj1 (proj2 (@save_prompt_writes_the_prompt_or_logs_the_error
                           Locale.services Photos.generator "a" Locale.accented
                           Folders.second_run)));
      reflexivity.
  - apply (proj2 (proj2 (@save_prompt_writes_the_prompt_or_logs_the_error
                           Locale.services Photos.generator "a" "slow pan"
                           Folders.prompt_is_a_folder))).
    reflexivity.
Defined.

(** ** One image of the prompt batch *)

Lemma get_image_prompt_result svc image_path w bytes :
  Fs.lookup image_path (fs w) = Some (File bytes) ->
  Prompter.get_image_prompt svc image_path w
  = let w1 := tick (emit (EChat "gpt-4o" (image_url_of svc bytes))
                      (emit (ERead image_path) w)) in
    match chat_completions_create svc (clock w) (image_url_of svc bytes) with
    | inl e =>
        Ret None (emit (ELog ERROR ("Error generating prompt for " ++ image_path
                                      ++ ": " ++ exn_str e)) w1)
    | inr (mkCompletion (first :: _)) => Ret first w1
    | inr (mkCompletion []) =>
        Ret None (emit (ELog ERROR ("Error generating prompt for " ++ image_path
                                      ++ ": " ++ exn_str Prompter.IndexError)) w1)
    end.
Proof.
  intros Hfile.
  unfold Prompter.get_image_prompt, Prompter.encode_image, try_except, bind,
    read_file, Prompter.chat, ret, image_url_of.
  rewrite Hfile. cbv beta iota.
  change (clock (emit (ERead image_path) w)) with (clock w).
  destruct (chat_completions_create svc (clock w)
              ("data:image/jpeg;base64," ++ b64encode svc bytes))
    as [e|[[|first rest]]]; reflexivity.
Qed.

Lemma get_image_prompt_unreadable svc image_path w :
  (forall bytes, Fs.lookup image_path (fs w) <> Some (File bytes)) ->
  exists e, Prompter.get_image_prompt svc image_path w
            = Raise e (emit (ERead image_path) w).
Proof.
  intros Hno.
  unfold Prompter.get_image_prompt, Prompter.encode_image, bind, read_file.
  destruct (Fs.lookup image_path (fs w)) as [[c|]|]; eauto.
  exfalso. apply (Hno c). reflexivity.
Qed.

(** X11. An entry of the input folder makes [process_photos] raise exactly
    when it has an image suffix and cannot be read as a file.  A failing
    vision call, a response without choices, an empty or missing text and a
    prompt file that cannot be written all leave the item by a normal
    return. *)
Theorem photo_raises_exactly_when_unreadable svc self image_path w :
  (exists e w', Prompter.process_photo svc self image_path w = Raise e w')
  <->
  (Prompter.is_image image_path = true /\
   forall bytes, Fs.lookup image_path (fs w) <> Some (File bytes)).
Proof.
  unfold Prompter.process_photo.
  destruct (Prompter.is_image image_path) eqn:Himg.
  - unfold bind at 1, log at 1. unfold bind at 1.
    set (w0 := emit (ELog INFO ("Processing " ++ Py.name image_path)) w).
    split.
    + intros (e & w' & H). split; [reflexivity|]. intros bytes Hfile.
      assert (Hfile0 : Fs.lookup image_path (fs w0) = Some (File bytes)) by exact Hfile.
      rewrite (get_image_prompt_result svc image_path w0 Hfile0) in H.
      cbv zeta in H.
      destruct (chat_completions_create svc (clock w0) (image_url_of svc bytes))
        as [e0|[[|[text|] rest]]]; try discriminate H.
      destruct (Py.truthy text); [|discriminate H].
      apply save_prompt_never_raises in H. exact H.
    + intros [_ Hno].
      destruct (get_image_prompt_unreadable svc image_path w0) as [e He];
        [exact Hno|].
      exists e, (emit (ERead image_path) w0). rewrite He. reflexivity.
  - split; [intros (e & w' & H); discriminate H | intros [H _]; discriminate H].
Qed.

(** X12. The prompt script makes its output folder before it looks at its
    input folder: when [input-photos] does not exist and [prompts] can be
    made, [process_photos] leaves a [prompts] folder behind and then raises
    [FileNotFoundError] for [input-photos], which nothing catches. *)
Theorem prompt_batch_without_photos_folder svc w :
  cannot_mkdir "prompts" (fs w) = false ->
  Fs.lookup "input-photos" (fs w) = None ->
  exists w',
    Prompter.process_photos svc (Prompter.mkGenerator "input-photos" "prompts") w
      = Raise (FileNotFoundError "input-photos") w' /\
    Fs.lookup "prompts" (fs w') = Some Dir /\
    trace w' = trace w ++ [EMkdir "prompts"; EListDir "input-photos"].
Proof.
  intros Hmk Hnone.
  assert (Hmkdir : exists w2,
             mkdir_exist_ok "prompts" w = Ret tt w2 /\
             trace w2 = trace w ++ [EMkdir "prompts"] /\
             Fs.lookup "prompts" (fs w2) = Some Dir /\
             Fs.lookup "input-photos" (fs w2) = None).
  { unfold mkdir_exist_ok, cannot_mkdir in *.
    destruct (Fs.lookup "prompts" (fs w)) as [[c|]|] eqn:Hv; try discriminate.
    - eexists; repeat split; simpl; auto.
    - destruct (Fs.is_dir (Py.parent "prompts") (fs w)); try discriminate.
      eexists; split; [reflexivity|]. simpl. repeat split.
      + apply lookup_put_same.
      + rewrite lookup_put_other by discriminate. exact Hnone. }
  destruct Hmkdir as (w2 & Hrun & Htrace & Hprompts & Hphotos).
  exists (emit (EListDir "input-photos") w2). split; [|split].
  - unfold Prompter.process_photos.
    change (Prompter.output_folder (Prompter.mkGenerator "input-photos" "prompts"))
      with "prompts".
    change (Prompter.input_folder (Prompter.mkGenerator "input-photos" "prompts"))
      with "input-photos".
    rewrite (bind_Ret _ _ _ Hrun).
    unfold bind, iterdir, Fs.is_dir. rewrite Hphotos. reflexivity.
  - exact Hprompts.
  - rewrite trace_emit, Htrace, <- app_assoc. reflexivity.
Qed.

Lemma prompt_batch_without_photos_folder_witness :
  exists w',
    Prompter.process_photos Reachable.services
        (Prompter.mkGenerator "input-photos" "prompts") Folders.no_photos_folder
      = Raise (FileNotFoundError "input-photos") w' /\
    Fs.lookup "prompts" (fs w') = Some Dir /\
    trace w' = [EMkdir "prompts"; EListDir "input-photos"].
Proof.
  apply (@prompt_batch_without_photos_folder Reachable.services
           Folders.no_photos_folder); reflexivity.
Defined.

Lemma chat_same_fs svc url : steps same_fs (Prompter.chat svc url).
Proof.
  intros w; unfold Prompter.chat, same_fs.
  destruct (chat_completions_create svc (clock w) url); reflexivity.
Qed.

Lemma get_image_prompt_same_fs svc image_path :
  steps same_fs (Prompter.get_image_prompt svc image_path).
Proof.
  unfold Prompter.get_image_prompt, Prompter.encode_image.
  steps_with same_fs_refl same_fs_trans
    ltac:(first [ apply read_file_same_fs | apply chat_same_fs | apply log_same_fs ]).
  destruct (choices a0); steps_with same_fs_refl same_fs_trans fail.
Qed.

Lemma write_text_only_changes svc p text : steps (only_changes p) (write_text svc p text).
Proof.
  unfold write_text. destruct (encode_text svc text);
    [apply steps_raise, only_changes_refl | apply write_only_changes].
Qed.

Lemma save_prompt_only_changes svc self image_name prompt :
  steps (only_changes (Py.joinpath (Prompter.output_folder self)
                         (image_name ++ "_prompt.txt")))
        (Prompter.save_prompt svc self image_name prompt).
Proof.
  unfold Prompter.save_prompt.
  match goal with |- steps (only_changes ?out) _ =>
    steps_with (@only_changes_refl out) (@only_changes_trans out)
      ltac:(first [ apply write_text_only_changes | only_changes_known ])
  end.
Qed.

Lemma process_photo_only_changes svc self image_path :
  steps (only_changes (prompt_path_of self image_path))
        (Prompter.process_photo svc self image_path).
Proof.
  unfold Prompter.process_photo.
  destruct (Prompter.is_image image_path); [|apply steps_ret, only_changes_refl].
  steps_with (@only_changes_refl (prompt_path_of self image_path))
             (@only_changes_trans (prompt_path_of self image_path))
    ltac:(first [ only_changes_known
                | apply same_fs_only_changes, get_image_prompt_same_fs ]).
  destruct a0 as [text|]; [|apply steps_ret, only_changes_refl].
  destruct (Py.truthy text); [|apply steps_ret, only_changes_refl].
  apply save_prompt_only_changes.
Qed.

(** X13. Processing an entry of the input folder changes the file system at
    one path at most besides the log file [prompt_generator.log], to which
    the records of the entry are appended: the prompt file of that entry.
    The photos and the prompt files of other stems hold afterwards what they
    held before. *)
Theorem photo_changes_only_its_prompt svc self image_path w q :
  q <> prompt_path_of self image_path ->
  q <> "prompt_generator.log" ->
  Fs.lookup q (fs (world_of (Prompter.process_photo svc self image_path w)))
  = Fs.lookup q (fs w).
Proof.
  intros Hq _. apply (process_photo_only_changes svc self image_path w), Hq.
Qed.

Lemma photo_changes_only_its_prompt_witness :
  Fs.lookup "input-photos/a.jpg"
    (fs (world_of (Prompter.process_photo Reachable.services Photos.generator
                     "input-photos/a.jpg" Folders.second_run)))
  = Some (File "AAAA").
Proof.
  rewrite (@photo_changes_only_its_prompt Reachable.services Photos.generator
             "input-photos/a.jpg" Folders.second_run "input-photos/a.jpg").
  - reflexivity.
  - vm_compute. discriminate.
  - discriminate.
Defined.

Lemma write_text_emits ks svc p text :
  In KWrite ks -> steps (emits ks) (write_text svc p text).
Proof.
  intros H. unfold write_text. destruct (encode_text svc text);
    [apply steps_raise, emits_refl | apply write_emits, H].
Qed.

Lemma save_prompt_emits svc self image_name prompt :
  steps (emits [KOpenWrite; KWrite; KLog])
        (Prompter.save_prompt svc self image_name prompt).
Proof.
  unfold Prompter.save_prompt.
  emits_steps [KOpenWrite; KWrite; KLog] ltac:(apply write_text_emits; simpl; tauto).
Qed.

(** X14. An entry of the input folder leads to one vision request when it has
    an image suffix (.jpg, .jpeg or .png, in any case) and is a file, and to
    none otherwise; the request carries the image as a JPEG data URL.  A
    failed request is not repeated. *)
Theorem photo_sends_one_vision_request svc self image_path w :
  filter is_chat (trace (world_of (Prompter.process_photo svc self image_path w)))
  = filter is_chat (trace w) ++ vision_request_of svc image_path w.
Proof.
  unfold vision_request_of, Prompter.process_photo.
  destruct (Prompter.is_image image_path).
  - unfold bind at 1, log at 1. unfold bind at 1.
    set (w0 := emit (ELog INFO ("Processing " ++ Py.name image_path)) w).
    assert (Hw0 : filter is_chat (trace w0) = filter is_chat (trace w)).
    { unfold w0. rewrite trace_emit, filter_app. simpl. apply app_nil_r. }
    destruct (Fs.lookup image_path (fs w)) as [[bytes|]|] eqn:Hfile.
    + assert (Hfile0 : Fs.lookup image_path (fs w0) = Some (File bytes)) by exact Hfile.
      rewrite (get_image_prompt_result svc image_path w0 Hfile0). cbv zeta.
      set (w1 := tick (emit (EChat "gpt-4o" (image_url_of svc bytes))
                         (emit (ERead image_path) w0))).
      assert (Hw1 : filter is_chat (trace w1)
                    = filter is_chat (trace w) ++ [EChat "gpt-4o" (image_url_of svc bytes)]).
      { unfold w1. rewrite trace_tick, !trace_emit, !filter_app, Hw0. simpl.
        rewrite app_nil_r. reflexivity. }
      assert (Hno : forall e, In (kind e) [KOpenWrite; KWrite; KLog] -> is_chat e = false)
        by kinds_solve.
      destruct (chat_completions_create svc (clock w0) (image_url_of svc bytes))
        as [e0|[[|[text|] rest]]].
      * cbn [world_of ret]. rewrite trace_emit, filter_app, Hw1. simpl.
        rewrite app_nil_r. reflexivity.
      * cbn [world_of ret]. rewrite trace_emit, filter_app, Hw1. simpl.
        rewrite app_nil_r. reflexivity.
      * cbv beta iota. destruct (Py.truthy text); [|exact Hw1].
        rewrite (filter_emits is_chat Hno
                   (save_prompt_emits svc self (Py.stem image_path) text w1)).
        exact Hw1.
      * exact Hw1.
    + destruct (get_image_prompt_unreadable svc image_path w0) as [e He].
      { intros bytes H. change (fs w0) with (fs w) in H. congruence. }
      rewrite He. cbn [world_of]. rewrite trace_emit, filter_app, Hw0. simpl.
      reflexivity.
    + destruct (get_image_prompt_unreadable svc image_path w0) as [e He].
      { intros bytes H. change (fs w0) with (fs w) in H. congruence. }
      rewrite He. cbn [world_of]. rewrite trace_emit, filter_app, Hw0. simpl.
      reflexivity.
  - simpl. rewrite app_nil_r. reflexivity.
Qed.

(** ** Names, from a photo to its prompt and back *)

Lemma length_append (a b : string) :
  String.length (a ++ b) = String.length a + String.length b.
Proof. induction a as [|c a IH]; simpl; [reflexivity | rewrite IH; reflexivity]. Qed.

Lemma rfind_append c (a b : string) :
  Py.rfind c (a ++ b)
  = match Py.rfind c b with
    | Some i => Some (String.length a + i)
    | None => Py.rfind c a
    end.
Proof.
  induction a as [|x a IH]; simpl.
  - destruct (Py.rfind c b); reflexivity.
  - rewrite IH. destruct (Py.rfind c b); reflexivity.
Qed.

Lemma substring_all (s : string) : substring 0 (String.length s) s = s.
Proof. induction s as [|c s IH]; simpl; [reflexivity | rewrite IH; reflexivity]. Qed.

Lemma substring_head (a b : string) : substring 0 (String.length a) (a ++ b) = a.
Proof.
  induction a as [|c a IH]; simpl.
  - destruct b; reflexivity.
  - rewrite IH; reflexivity.
Qed.

Lemma substring_skip (a b : string) n m :
  substring (String.length a + n) m (a ++ b) = substring n m b.
Proof. induction a as [|c a IH]; simpl; [reflexivity | exact IH]. Qed.

Lemma prefix_cons a b s1 s2 :
  prefix (String a s1) (String b s2) = Ascii.eqb a b && prefix s1 s2.
Proof.
  simpl. destruct (ascii_dec a b) as [->|Hne].
  - rewrite Ascii.eqb_refl. reflexivity.
  - apply Ascii.eqb_neq in Hne. rewrite Hne. reflexivity.
Qed.

Lemma prefix_nil_r a s : prefix (String a s) EmptyString = false.
Proof. reflexivity. Qed.

Lemma prefix_nil_l s : prefix EmptyString s = true.
Proof. destruct s; reflexivity. Qed.

(** [_prompt] does not overlap itself: in front of [_prompt] it begins where
    it begins in what stands in front. *)
Lemma prefix_prompt_append s :
  s <> EmptyString ->
  prefix "_prompt" (s ++ "_prompt") = prefix "_prompt" s.
Proof.
  intros Hs.
  destruct s as [|c1 [|c2 [|c3 [|c4 [|c5 [|c6 [|c7 s]]]]]]]; [congruence| | | | | | |];
    cbn [append]; rewrite ?prefix_cons, ?prefix_nil_r, ?prefix_nil_l;
    repeat match goal with
           | |- context [Ascii.eqb ?a ?b] =>
               lazymatch b with
               | Ascii _ _ _ _ _ _ _ _ => fail
               | _ => destruct (Ascii.eqb a b)
               end
           end; reflexivity.
Qed.

Lemma remove_prompt_suffix n :
  occurs "_prompt" n = false ->
  Py.remove_all "_prompt" (n ++ "_prompt") = n.
Proof.
  unfold Py.remove_all. induction n as [|c n IH]; intros Hocc.
  - reflexivity.
  - cbn [occurs] in Hocc. apply orb_false_iff in Hocc as [Hhere Hlater].
    cbn [append Py.remove_from].
    change (String c (n ++ "_prompt")) with (String c n ++ "_prompt")%string.
    rewrite prefix_prompt_append by discriminate. rewrite Hhere.
    rewrite (IH Hlater). reflexivity.
Qed.

Lemma name_of_join d nm :
  Py.rfind Py.slash nm = None -> Py.name (d ++ String Py.slash nm) = nm.
Proof.
  intros Hnm. unfold Py.name.
  assert (Hr : Py.rfind Py.slash (d ++ String Py.slash nm) = Some (String.length d + 0)).
  { rewrite rfind_append. cbn [Py.rfind]. rewrite Hnm, Ascii.eqb_refl. reflexivity. }
  rewrite Hr, length_append. simpl String.length.
  replace (String.length d + S (String.length nm) - S (String.length d + 0))
    with (String.length nm) by lia.
  replace (S (String.length d + 0)) with (String.length d + 1) by lia.
  rewrite substring_skip. simpl. apply substring_all.
Qed.

Lemma suffix_at_of_name n e :
  n <> EmptyString -> e <> EmptyString -> Py.rfind Py.dot e = None ->
  Py.suffix_at (n ++ String Py.dot e) = Some (String.length n + 0).
Proof.
  intros Hn He Hdot. unfold Py.suffix_at.
  rewrite rfind_append. cbn [Py.rfind]. rewrite Hdot, Ascii.eqb_refl.
  rewrite length_append. simpl String.length.
  destruct n as [|c n]; [congruence|]. destruct e as [|x e]; [congruence|].
  simpl String.length.
  assert (H1 : (0 <? S (String.length n) + 0) = true) by (apply Nat.ltb_lt; lia).
  assert (H2 : (S (String.length n) + 0
                <? S (String.length n) + S (S (String.length e)) - 1) = true)
    by (apply Nat.ltb_lt; lia).
  rewrite H1, H2. reflexivity.
Qed.

Lemma stem_of_join d n e :
  n <> EmptyString -> Py.rfind Py.slash n = None ->
  e <> EmptyString -> Py.rfind Py.dot e = None -> Py.rfind Py.slash e = None ->
  Py.stem (d ++ String Py.slash (n ++ String Py.dot e)) = n.
Proof.
  intros Hn Hns He Hed Hes. unfold Py.stem.
  assert (Hnm : Py.rfind Py.slash (n ++ String Py.dot e) = None).
  { rewrite rfind_append. simpl. rewrite Hes. exact Hns. }
  rewrite (name_of_join d _ Hnm), (suffix_at_of_name Hn He Hed).
  rewrite Nat.add_0_r. apply substring_head.
Qed.

Lemma endswith_append a suf : Py.endswith (a ++ suf) suf = true.
Proof.
  unfold Py.endswith. rewrite length_append.
  replace (String.length a + String.length suf - String.length suf)
    with (String.length a + 0) by lia.
  rewrite substring_skip, substring_all, String.eqb_refl.
  rewrite andb_true_r. apply Nat.leb_le. lia.
Qed.

(** X15. From a photo to its prompt and on to the video.  For a photo
    [input-photos/<n>.<e>] whose stem [n] does not contain [_prompt], the
    prompt script writes [prompts/<n>_prompt.txt], the pattern of the video
    script matches that name, and the video script derives from it the image
    [input-photos/<n>.jpg] and the video [videos/<n>.mp4].  The suffix of the
    photo plays no part: the image the video script opens is the photo itself
    only for suffix [.jpg]. *)
Theorem names_from_photo_to_prompt_to_video n e k :
  n <> EmptyString -> Py.rfind Py.slash n = None -> occurs "_prompt" n = false ->
  e <> EmptyString -> Py.rfind Py.dot e = None -> Py.rfind Py.slash e = None ->
  let photo := Py.joinpath "input-photos" (n ++ String Py.dot e) in
  let prompt := prompt_path_of (Prompter.mkGenerator "input-photos" "prompts") photo in
  let self := VideoGen.mkGenerator k "prompts" "videos" in
  prompt = Py.joinpath "prompts" (n ++ "_prompt.txt") /\
  Py.endswith (Py.name prompt) "_prompt.txt" = true /\
  VideoGen.image_path_of self prompt = Py.joinpath "input-photos" (n ++ ".jpg") /\
  video_path self prompt = Py.joinpath "videos" (n ++ ".mp4").
Proof.
  intros Hn Hns Hocc He Hed Hes photo prompt self.
  assert (Hstem : Py.stem photo = n).
  { apply (stem_of_join "input-photos" Hn Hns He Hed Hes). }
  assert (Hprompt : prompt = Py.joinpath "prompts" (n ++ "_prompt.txt")).
  { unfold prompt, prompt_path_of. rewrite Hstem. reflexivity. }
  assert (Hpn : Py.rfind Py.slash (n ++ "_prompt") = None).
  { rewrite rfind_append. simpl. exact Hns. }
  assert (Hname : Py.name prompt = (n ++ "_prompt.txt")%string).
  { rewrite Hprompt.
    apply (name_of_join "prompts"). rewrite rfind_append. simpl. exact Hns. }
  assert (Hpstem : Py.stem prompt = (n ++ "_prompt")%string).
  { rewrite Hprompt.
    change (Py.joinpath "prompts" (n ++ "_prompt.txt"))
      with ("prompts" ++ String Py.slash (n ++ "_prompt.txt"))%string.
    replace (n ++ "_prompt.txt")%string
      with ((n ++ "_prompt") ++ String Py.dot "txt")%string
      by (rewrite append_assoc; reflexivity).
    apply stem_of_join; auto; try discriminate.
    destruct n; [congruence | discriminate]. }
  assert (Himage : VideoGen.image_name_of prompt = n).
  { unfold VideoGen.image_name_of. rewrite Hpstem. apply remove_prompt_suffix, Hocc. }
  split; [exact Hprompt|]. split; [|split].
  - rewrite Hname. apply endswith_append.
  - unfold VideoGen.image_path_of. rewrite Himage. reflexivity.
  - unfold video_path. rewrite Himage. reflexivity.
Qed.

Lemma names_witness :
  prompt_path_of (Prompter.mkGenerator "input-photos" "prompts")
    "input-photos/IMG_0042.png" = "prompts/IMG_0042_prompt.txt" /\
  VideoGen.image_path_of (VideoGen.mkGenerator "key" "prompts" "videos")
    "prompts/IMG_0042_prompt.txt" = "input-photos/IMG_0042.jpg" /\
  video_path (VideoGen.mkGenerator "key" "prompts" "videos")
    "prompts/IMG_0042_prompt.txt" = "videos/IMG_0042.mp4".
Proof.
  destruct (@names_from_photo_to_prompt_to_video "IMG_0042" "png" "key")
    as (H1 & _ & H3 & H4); try reflexivity; try discriminate.
  split; [exact H1 | split; [exact H3 | exact H4]].
Defined.

(** ** The suffix test of the prompt script *)

Lemma lower_ascii_keeps_slash a : Ascii.eqb (Py.lower_ascii a) Py.slash = Ascii.eqb a Py.slash.
Proof. destruct a as [[] [] [] [] [] [] [] []]; reflexivity. Qed.

Lemma lower_ascii_keeps_dot a : Ascii.eqb (Py.lower_ascii a) Py.dot = Ascii.eqb a Py.dot.
Proof. destruct a as [[] [] [] [] [] [] [] []]; reflexivity. Qed.

Lemma lower_ascii_idempotent a : Py.lower_ascii (Py.lower_ascii a) = Py.lower_ascii a.
Proof. destruct a as [[] [] [] [] [] [] [] []]; reflexivity. Qed.

Lemma lower_idempotent s : Py.lower (Py.lower s) = Py.lower s.
Proof.
  induction s as [|c s IH]; simpl; [reflexivity|].
  rewrite lower_ascii_idempotent, IH. reflexivity.
Qed.

Lemma length_lower s : String.length (Py.lower s) = String.length s.
Proof. induction s as [|c s IH]; simpl; [reflexivity | rewrite IH; reflexivity]. Qed.

Lemma rfind_lower c s :
  (forall a, Ascii.eqb (Py.lower_ascii a) c = Ascii.eqb a c) ->
  Py.rfind c (Py.lower s) = Py.rfind c s.
Proof.
  intros Hc. induction s as [|a s IH]; simpl; [reflexivity|].
  rewrite IH, Hc. reflexivity.
Qed.

Lemma substring_lower s : forall n m,
  substring n m (Py.lower s) = Py.lower (substring n m s).
Proof.
  induction s as [|c s IH]; intros [|n] [|m]; simpl; try reflexivity.
  - rewrite IH. reflexivity.
  - apply IH.
  - apply IH.
Qed.

Lemma name_lower p : Py.name (Py.lower p) = Py.lower (Py.name p).
Proof.
  unfold Py.name. rewrite (@rfind_lower Py.slash p lower_ascii_keeps_slash), length_lower.
  destruct (Py.rfind Py.slash p); [apply substring_lower | reflexivity].
Qed.

Lemma suffix_lower p : Py.suffix (Py.lower p) = Py.lower (Py.suffix p).
Proof.
  unfold Py.suffix, Py.suffix_at. rewrite name_lower.
  rewrite (@rfind_lower Py.dot (Py.name p) lower_ascii_keeps_dot), length_lower.
  destruct (Py.rfind Py.dot (Py.name p)) as [i|]; [|reflexivity].
  destruct ((0 <? i) && (i <? String.length (Py.name p) - 1));
    [apply substring_lower | reflexivity].
Qed.

(** X16. The suffix test of the prompt script does not depend on the case of
    the letters of a path: an entry is taken for an image exactly when its
    lower-cased form is, so that [.JPG], [.Jpeg] and [.PNG] are accepted like
    [.jpg], [.jpeg] and [.png]. *)
Theorem image_test_ignores_case p :
  Prompter.is_image (Py.lower p) = Prompter.is_image p.
Proof.
  unfold Prompter.is_image. rewrite suffix_lower, lower_idempotent. reflexivity.
Qed.

(** ** A job that fails *)

Lemma await_returns_terminal svc fuel created w task w' :
  VideoGen.await svc fuel created w = Ret task w' ->
  task_status task = "SUCCEEDED" \/ task_status task = "FAILED".
Proof.
  unfold VideoGen.await. intros H.
  apply bind_Ret_inv in H as (? & w1 & _ & H).
  apply bind_Ret_inv in H as (t1 & w2 & _ & H).
  apply bind_Ret_inv in H as (? & w3 & _ & H).
  destruct (poll_returns_first_terminal _ _ _ _ H) as (k & _ & _ & Hterm & _).
  unfold VideoGen.terminal in Hterm. apply orb_true_iff in Hterm.
  destruct Hterm as [Ht|Ht]; apply String.eqb_eq in Ht; auto.
Qed.

(** X17. The task an item ends its wait on is SUCCEEDED or FAILED, so that the
    [else] of line 119 is the branch of FAILED.  For a FAILED task the item
    returns after the one ERROR record [Task failed]: nothing is downloaded
    and no file is written, whatever the output of the task holds. *)
Theorem failed_job_is_logged_and_nothing_is_downloaded
    svc self fuel prompt_path w image_name task w1 :
  VideoGen.run_task svc self fuel prompt_path w = Ret (Some (image_name, task)) w1 ->
  (task_status task = "SUCCEEDED" \/ task_status task = "FAILED") /\
  (task_status task = "FAILED" ->
   VideoGen.generate_video svc self fuel prompt_path w
   = Ret tt (emit (ELog ERROR ("Task failed for " ++ image_name)) w1)).
Proof.
  intros Hrun. split.
  - unfold VideoGen.run_task in Hrun.
    apply bind_Ret_inv in Hrun as (prompt & wa & _ & H).
    apply bind_Ret_inv in H as (found & wb & _ & H).
    destruct (negb found).
    + apply bind_Ret_inv in H as (? & wc & _ & H). discriminate H.
    + apply bind_Ret_inv in H as (? & wc & _ & H).
      apply bind_Ret_inv in H as (image & wd & _ & H).
      apply bind_Ret_inv in H as (t0 & we & _ & H).
      apply bind_Ret_inv in H as (t1 & wf & Hawait & H).
      injection H as _ <- _. eapply await_returns_terminal; eauto.
  - intros Hfailed.
    rewrite (generate_video_after_run_task _ _ _ _ _ Hrun).
    unfold try_except, VideoGen.handle_task. rewrite Hfailed. reflexivity.
Qed.

Lemma failed_job_witness :
  VideoGen.generate_video Failing.services Scenario.generator 3
    "prompts/a_prompt.txt" Scenario.two_prompts_world
  = Ret tt (emit (ELog ERROR "Task failed for a") Failing.after_task).
Proof.
  apply (proj2 (@failed_job_is_logged_and_nothing_is_downloaded
                  Failing.services Scenario.generator 3 "prompts/a_prompt.txt"
                  Scenario.two_prompts_world "a"
                  (mkTask "t1" "FAILED" (Some ["https://cdn/v.mp4"]))
                  Failing.after_task ltac:(vm_compute; reflexivity))).
  reflexivity.
Defined.

(** ** Runs of the further properties *)

Lemma handler_requests_witness :
  filter is_get
    (trace (world_of (VideoGen.handle_task Reachable.services Scenario.generator "a"
                        Edge.empty_url_task Scenario.two_prompts_world))) = [] /\
  filter is_get
    (trace (world_of (VideoGen.handle_task Reachable.services Scenario.generator "a"
                        Edge.failed_task Scenario.two_prompts_world))) = [] /\
  filter is_get
    (trace (world_of (VideoGen.handle_task Reachable.services Scenario.generator "a"
                        Download.succeeded_task Scenario.two_prompts_world)))
  = [EGet "https://cdn/v.mp4"].
Proof.
  rewrite !handler_requests_first_url_once. repeat split.
Defined.

Lemma item_submits_witness :
  filter is_create
    (trace (world_of (VideoGen.generate_video Reachable.services Scenario.generator 3
                        "prompts/a_prompt.txt" Edge.image_is_a_folder))) = [] /\
  filter is_create
    (trace (world_of (VideoGen.generate_video Unreachable.services Scenario.generator 3
                        "prompts/a_prompt.txt" Scenario.two_prompts_world)))
  = [ECreate "gen3a_turbo" "data:image/png;base64,AAAA" "slow pan"] /\
  filter is_create
    (trace (world_of (VideoGen.generate_video Locale.services Scenario.generator 3
                        "prompts/a_prompt.txt" Locale.world)))
  = [ECreate "gen3a_turbo" "data:image/png;base64,AAAA" Locale.two_lines_read] /\
  filter is_create
    (trace (world_of (VideoGen.generate_video Locale.services Scenario.generator 3
                        "prompts/b_prompt.txt" Locale.world))) = [].
Proof.
  rewrite !item_submits_once_when_prompt_and_image_are_files.
  split; [|split; [|split]]; reflexivity.
Defined.

Lemma photo_sends_witness :
  filter is_chat
    (trace (world_of (Prompter.process_photo Scenario.no_output_services Photos.generator
                        "input-photos/a.jpg" Folders.second_run)))
  = [EChat "gpt-4o" "data:image/jpeg;base64,AAAA"] /\
  filter is_chat
    (trace (world_of (Prompter.process_photo Reachable.services Photos.generator
                        "input-photos/notes.txt" Folders.second_run))) = [].
Proof.
  rewrite !photo_sends_one_vision_request. split; reflexivity.
Defined.

Lemma photo_raises_witness :
  exists e w',
    Prompter.process_photo Reachable.services Photos.generator "input-photos/a.jpg"
      Photos.unreadable_first_world = Raise e w'.
Proof.
  apply (proj2 (photo_raises_exactly_when_unreadable Reachable.services Photos.generator
                  "input-photos/a.jpg" Photos.unreadable_first_world)).
  split; [reflexivity|]. intros bytes H. vm_compute in H. discriminate H.
Defined.

(** ** Running the batch again *)

Lemma adds_then_extends e w w1 w' : adds e w w1 -> extends w1 w' -> adds e w w'.
Proof.
  intros (b & a & H) [d Hd]. exists b, (a ++ d).
  rewrite Hd, H, <- !app_assoc. reflexivity.
Qed.

Lemma extends_then_adds e w w1 w' : extends w w1 -> adds e w1 w' -> adds e w w'.
Proof.
  intros [d Hd] (b & a & H). exists (d ++ b), a.
  rewrite H, Hd, <- !app_assoc. reflexivity.
Qed.

Lemma read_file_extends p : steps extends (read_file p).
Proof.
  intros w; unfold read_file.
  destruct (Fs.lookup p (fs w)) as [[c|]|]; exists [ERead p]; reflexivity.
Qed.

Lemma read_text_extends svc p : steps extends (read_text svc p).
Proof.
  unfold read_text.
  steps_with extends_refl extends_trans ltac:(apply read_file_extends).
  destruct (decode_text svc a); [apply steps_raise | apply steps_ret]; apply extends_refl.
Qed.

Lemma create_extends svc model image text :
  steps extends (VideoGen.create svc model image text).
Proof.
  intros w; unfold VideoGen.create.
  destruct (image_to_video_create svc (clock w) model image text);
    exists [ECreate model image text]; reflexivity.
Qed.

Lemma exists_extends p : steps extends (exists_ p).
Proof. intros w; apply extends_refl. Qed.

Lemma run_task_extends svc self fuel prompt_path :
  steps extends (VideoGen.run_task svc self fuel prompt_path).
Proof.
  unfold VideoGen.run_task.
  steps_with extends_refl extends_trans
    ltac:(first [ apply read_text_extends | apply exists_extends ]).
  destruct (negb a0);
    steps_with extends_refl extends_trans
      ltac:(first [ extends_known svc | apply read_file_extends
                  | apply create_extends | apply await_extends ]).
Qed.

Lemma generate_video_extends svc self fuel prompt_path :
  steps extends (VideoGen.generate_video svc self fuel prompt_path).
Proof.
  unfold VideoGen.generate_video.
  steps_with extends_refl extends_trans ltac:(apply run_task_extends).
  - destruct a as [[image_name task]|];
      [apply handle_task_extends | apply steps_ret, extends_refl].
  - apply log_extends.
Qed.

Lemma process_prompt_extends svc self fuel prompt_path :
  steps extends (VideoGen.process_prompt svc self fuel prompt_path).
Proof.
  unfold VideoGen.process_prompt.
  steps_with extends_refl extends_trans
    ltac:(first [ apply log_extends | apply generate_video_extends ]).
Qed.

Lemma generate_video_adds_submission svc self fuel prompt_path w bytes prompt image :
  Fs.lookup prompt_path (fs w) = Some (File bytes) ->
  decode_text svc bytes = inr prompt ->
  Fs.lookup (VideoGen.image_path_of self prompt_path) (fs w) = Some (File image) ->
  adds (ECreate "gen3a_turbo" ("data:image/png;base64," ++ b64encode svc image) prompt)
       w (world_of (VideoGen.generate_video svc self fuel prompt_path w)).
Proof.
  intros Hp Hdecode Hi.
  rewrite (generate_video_from_create svc self fuel prompt_path w Hp Hdecode Hi).
  match goal with |- context [try_except (bind (bind ?submit ?k1) ?k2) ?outer ?w4] =>
    assert (Hsubmit : trace (world_of (submit w4))
                      = trace w4 ++ [ECreate "gen3a_turbo"
                                       ("data:image/png;base64," ++ b64encode svc image)
                                       prompt]);
    [|assert (Hrest : extends (world_of (submit w4))
                        (world_of (try_except (bind (bind submit k1) k2) outer w4)))]
  end.
  { unfold VideoGen.create.
    match goal with |- context [image_to_video_create ?a ?b ?c ?d ?e] =>
      destruct (image_to_video_create a b c d e) end; reflexivity. }
  { eapply extends_trans; [|apply (try_except_continues extends_refl)].
    - eapply extends_trans; [|apply (bind_continues extends_refl)].
      + apply (bind_continues extends_refl). intros task.
        steps_with extends_refl extends_trans ltac:(apply await_extends).
      + intros [[image_name task]|];
          [apply handle_task_extends | apply steps_ret, extends_refl].
    - intros e. apply log_extends. }
  destruct Hrest as [rest Hrest].
  exists [ERead prompt_path;
          ELog INFO ("Creating video generation task for "
                       ++ VideoGen.image_name_of prompt_path);
          ERead (VideoGen.image_path_of self prompt_path)], rest.
  rewrite Hrest, Hsubmit, !trace_emit, <- !app_assoc. reflexivity.
Qed.

(** *** Paths that cannot coincide *)

Lemma substring_split (s : string) : forall n,
  n <= String.length s ->
  s = (substring 0 n s ++ substring n (String.length s - n) s)%string.
Proof.
  induction s as [|c s IH]; intros [|n] Hn; simpl in *.
  - reflexivity.
  - lia.
  - rewrite substring_all. reflexivity.
  - rewrite <- IH by lia. reflexivity.
Qed.

Lemma rfind_lt c s : forall i, Py.rfind c s = Some i -> i < String.length s.
Proof.
  induction s as [|a s IH]; simpl; intros i H; [discriminate|].
  destruct (Py.rfind c s) as [j|].
  - injection H as <-. specialize (IH j eq_refl). lia.
  - destruct (Ascii.eqb a c); [injection H as <-; lia | discriminate].
Qed.

Lemma name_is_suffix p : exists pre, p = (pre ++ Py.name p)%string.
Proof.
  unfold Py.name. destruct (Py.rfind Py.slash p) as [i|] eqn:E.
  - exists (substring 0 (S i) p). apply substring_split.
    apply rfind_lt in E. lia.
  - exists EmptyString. reflexivity.
Qed.

Lemma endswith_inv s suf : Py.endswith s suf = true -> exists x, s = (x ++ suf)%string.
Proof.
  unfold Py.endswith. intros H. apply andb_true_iff in H as [Hle Heq].
  apply Nat.leb_le in Hle. apply String.eqb_eq in Heq.
  exists (substring 0 (String.length s - String.length suf) s).
  pose proof (@substring_split s (String.length s - String.length suf)) as Hs.
  replace (String.length s - (String.length s - String.length suf))
    with (String.length suf) in Hs by lia.
  rewrite Heq in Hs. apply Hs. lia.
Qed.

Lemma endswith_differ s suf1 suf2 :
  String.length suf1 = String.length suf2 -> suf1 <> suf2 ->
  Py.endswith s suf1 = true -> Py.endswith s suf2 = true -> False.
Proof.
  unfold Py.endswith. intros Hlen Hne H1 H2.
  apply andb_true_iff in H1 as [_ H1]. apply andb_true_iff in H2 as [_ H2].
  apply String.eqb_eq in H1. apply String.eqb_eq in H2.
  rewrite Hlen in H1. congruence.
Qed.

Lemma joinpath_endswith d n suf : Py.endswith (Py.joinpath d (n ++ suf)) suf = true.
Proof.
  unfold Py.joinpath. destruct (String.eqb d ".").
  - apply endswith_append.
  - replace (d ++ "/" ++ n ++ suf)%string with ((d ++ "/" ++ n) ++ suf)%string
      by (rewrite !append_assoc; reflexivity).
    apply endswith_append.
Qed.

Lemma prompt_file_endswith_txt p :
  Py.endswith (Py.name p) "_prompt.txt" = true -> Py.endswith p ".txt" = true.
Proof.
  intros H. apply endswith_inv in H as [x Hx].
  destruct (name_is_suffix p) as [pre Hp]. rewrite Hp, Hx.
  replace (pre ++ x ++ "_prompt.txt")%string
    with ((pre ++ x ++ "_prompt") ++ ".txt")%string
    by (rewrite !append_assoc; reflexivity).
  apply endswith_append.
Qed.

Lemma prompt_is_no_video self p q :
  Py.endswith (Py.name p) "_prompt.txt" = true -> p <> video_path self q.
Proof.
  intros Hp Heq. apply prompt_file_endswith_txt in Hp.
  apply (@endswith_differ p ".txt" ".mp4"); [reflexivity | discriminate | exact Hp |].
  rewrite Heq. apply joinpath_endswith.
Qed.

Lemma image_is_no_video self p q : VideoGen.image_path_of self p <> video_path self q.
Proof.
  intros Heq.
  apply (@endswith_differ (VideoGen.image_path_of self p) ".jpg" ".mp4");
    [reflexivity | discriminate | apply joinpath_endswith |].
  rewrite Heq. apply joinpath_endswith.
Qed.

(** *** What making the output folder keeps *)

Lemma entries_put_in d p q n m :
  In p (Fs.entries d m) -> In p (Fs.entries d (Fs.put q n m)).
Proof.
  induction m as [|[k x] m IH]; simpl; [intros []|].
  destruct (String.eqb k q); simpl.
  - auto.
  - destruct (Fs.child_name d k); simpl; [intros [H|H]; auto | auto].
Qed.

Lemma mkdir_keeps p w w1 :
  mkdir_exist_ok p w = Ret tt w1 ->
  (forall q n, Fs.lookup q (fs w) = Some n -> Fs.lookup q (fs w1) = Some n) /\
  (forall d q, In q (Fs.entries d (fs w)) -> In q (Fs.entries d (fs w1))) /\
  extends w w1.
Proof.
  unfold mkdir_exist_ok.
  destruct (Fs.lookup p (fs w)) as [[c|]|] eqn:Hp; try discriminate.
  - intros H; injection H as <-. split; [|split]; auto. apply extends_emit.
  - destruct (Fs.is_dir (Py.parent p) (fs w)); [|discriminate].
    intros H; injection H as <-. cbn [fs set_fs emit]. split; [|split].
    + intros q n Hq. rewrite lookup_put_other; [exact Hq|]. congruence.
    + intros d q. apply entries_put_in.
    + exists [EMkdir p]. reflexivity.
Qed.

Lemma is_dir_kept d (m m' : FS) :
  (forall q n, Fs.lookup q m = Some n -> Fs.lookup q m' = Some n) ->
  Fs.is_dir d m = true -> Fs.is_dir d m' = true.
Proof.
  unfold Fs.is_dir. intros Hkeep H. destruct (String.eqb d "."); [reflexivity|].
  simpl in *. destruct (Fs.lookup d m) as [[c|]|] eqn:Hd; try discriminate.
  rewrite (Hkeep _ _ Hd). reflexivity.
Qed.

(** *** The loop reaches every prompt file *)

Lemma prompt_loop_submits svc self fuel p bytes prompt image : forall paths w w',
  for_each paths (VideoGen.process_prompt svc self fuel) w = Ret tt w' ->
  In p paths ->
  Py.endswith (Py.name p) "_prompt.txt" = true ->
  Fs.lookup p (fs w) = Some (File bytes) ->
  decode_text svc bytes = inr prompt ->
  Fs.lookup (VideoGen.image_path_of self p) (fs w) = Some (File image) ->
  adds (ECreate "gen3a_turbo" ("data:image/png;base64," ++ b64encode svc image) prompt)
       w w'.
Proof.
  induction paths as [|q paths IH]; intros w w' Hrun Hin Hname Hp Hdecode Hi;
    [destruct Hin|].
  cbn [for_each] in Hrun.
  apply bind_Ret_inv in Hrun as ([] & w1 & Hitem & Hrest).
  pose proof (process_prompt_extends svc self fuel q w) as Hext.
  rewrite Hitem in Hext. cbn [world_of] in Hext.
  destruct Hin as [->|Hin].
  - eapply adds_then_extends.
    + unfold VideoGen.process_prompt, bind, log in Hitem.
      pose proof (@generate_video_adds_submission svc self fuel p
                    (emit (ELog INFO ("Processing " ++ Py.name p)) w)
                    bytes prompt image Hp Hdecode Hi) as Hadd.
      rewrite Hitem in Hadd. cbn [world_of] in Hadd.
      eapply extends_then_adds; [apply extends_emit | exact Hadd].
    + pose proof (@steps_for_each extends extends_refl extends_trans _ paths
                    (VideoGen.process_prompt svc self fuel)
                    (process_prompt_extends svc self fuel) w1) as Hloop.
      rewrite Hrest in Hloop. exact Hloop.
  - assert (Hfs : only_changes (video_path self q) w w1).
    { unfold VideoGen.process_prompt, bind, log in Hitem.
      pose proof (@generate_video_only_changes svc self fuel q
                    (emit (ELog INFO ("Processing " ++ Py.name q)) w)) as H.
      rewrite Hitem in H. exact H. }
    eapply extends_then_adds; [exact Hext|].
    apply (IH w1 w' Hrest Hin Hname).
    + rewrite (Hfs p (prompt_is_no_video self q Hname)). exact Hp.
    + exact Hdecode.
    + rewrite (Hfs _ (@image_is_no_video self p q)). exact Hi.
Qed.

Lemma batch_submits svc self fuel w w' p bytes prompt image :
  VideoGen.process_all_prompts svc self fuel w = Ret tt w' ->
  In p (prompt_files self w) ->
  Fs.lookup p (fs w) = Some (File bytes) ->
  decode_text svc bytes = inr prompt ->
  Fs.lookup (VideoGen.image_path_of self p) (fs w) = Some (File image) ->
  adds (ECreate "gen3a_turbo" ("data:image/png;base64," ++ b64encode svc image) prompt)
       w w'.
Proof.
  intros Hrun Hin Hp Hdecode Hi.
  unfold prompt_files, glob_suffix in Hin.
  destruct (Fs.is_dir (VideoGen.input_folder self) (fs w)) eqn:Hd; [|destruct Hin].
  apply filter_In in Hin as [Hent Hname].
  unfold VideoGen.process_all_prompts in Hrun.
  apply bind_Ret_inv in Hrun as ([] & w1 & Hmk & Hrun).
  apply bind_Ret_inv in Hrun as (paths & w2 & Hglob & Hloop).
  destruct (@mkdir_keeps _ _ _ Hmk) as (Hkeep & Hentries & Hext1).
  unfold glob_suffix in Hglob.
  rewrite (@is_dir_kept _ _ _ Hkeep Hd) in Hglob. injection Hglob as <- <-.
  eapply extends_then_adds; [exact Hext1|].
  eapply extends_then_adds; [apply (extends_emit (EListDir (VideoGen.input_folder self)))|].
  apply (@prompt_loop_submits svc self fuel p bytes prompt image _ _ _ Hloop).
  - apply filter_In. split; [apply Hentries, Hent | exact Hname].
  - exact Hname.
  - apply Hkeep, Hp.
  - exact Hdecode.
  - apply Hkeep, Hi.
Qed.

Lemma download_overwrites svc self fuel prompt_path w old task w1 url urls r :
  Fs.lookup (video_path self prompt_path) (fs w) = Some (File old) ->
  VideoGen.run_task svc self fuel prompt_path w
    = Ret (Some (VideoGen.image_name_of prompt_path, task)) w1 ->
  task_status task = "SUCCEEDED" ->
  task_output task = Some (url :: urls) ->
  Py.truthy url = true ->
  requests_get svc (clock w1) url = inr r ->
  resp_status_error r = None ->
  resp_stream_error r = None ->
  Fs.is_dir (Py.parent (video_path self prompt_path)) (fs w) = true ->
  exists w',
    VideoGen.generate_video svc self fuel prompt_path w = Ret tt w' /\
    adds (EOpenWrite (video_path self prompt_path)) w1 w' /\
    Fs.lookup (video_path self prompt_path) (fs w') = Some (File (body_of r)).
Proof.
  intros Hold Hrun Hs Ho Hurl Hget Hstatus Hstream Hdir.
  pose proof (run_task_same_fs svc self fuel prompt_path w) as Hfs.
  unfold same_fs in Hfs. rewrite Hrun in Hfs; simpl in Hfs.
  set (out := video_path self prompt_path) in *.
  assert (Hopen : writable out (fs w1) = true).
  { unfold writable. rewrite Hfs, Hold. exact Hdir. }
  rewrite (generate_video_after_run_task _ _ _ _ _ Hrun).
  unfold try_except at 1.
  rewrite (@handle_task_opened svc self (VideoGen.image_name_of prompt_path)
             task url urls r w1 Hs Ho Hurl Hget Hstatus Hopen).
  cbv zeta.
  change (Py.joinpath (VideoGen.output_folder self)
            (VideoGen.image_name_of prompt_path ++ ".mp4")) with out.
  set (w3 := set_fs (Fs.put out (File EmptyString)
                       (fs (emit (ELog INFO ("Video URL: " ++ url)) w1)))
               (emit (EOpenWrite out)
                  (tick (emit (EGet url) (emit (ELog INFO ("Video URL: " ++ url)) w1))))).
  destruct (@write_chunks_content out (resp_chunks r) w3 EmptyString)
    as (w5 & Hwrite & Hcontent & Hext).
  { unfold w3; simpl. apply lookup_put_same. }
  assert (Hbody : VideoGen.write_content out r w3 = Ret tt w5).
  { unfold VideoGen.write_content. rewrite (bind_Ret _ _ _ Hwrite), Hstream.
    reflexivity. }
  unfold bind at 1, try_except. rewrite (bind_Ret _ _ _ Hbody).
  eexists; split; [reflexivity|]. split.
  + destruct Hext as [d Hd].
    exists [ELog INFO ("Video URL: " ++ url); EGet url],
           (d ++ [ELog INFO ("Successfully downloaded video to " ++ out);
                  ELog INFO ("Video generation complete for "
                               ++ VideoGen.image_name_of prompt_path)]).
    cbn [bind log ret trace emit]. rewrite Hd. unfold w3.
    cbn [trace set_fs emit tick]. rewrite <- !app_assoc. reflexivity.
  + simpl. exact Hcontent.
Qed.

(** C10.  A second run of the batch does what the first did and looks at no
    video that is already there.  For every prompt file the glob of the input
    folder yields whose bytes decode to a text and whose image is a file, a
    batch that returns has submitted a job with that text and that image,
    whatever the video path of the item holds.  And when the job of an item
    succeeds and the download goes through, the video path, which holds a
    file of an earlier run, is opened for writing and afterwards holds the
    bytes of the new response and nothing of the old file. *)
Theorem rerun_submits_again_and_overwrites svc self fuel :
  (forall w w' p bytes prompt image,
      VideoGen.process_all_prompts svc self fuel w = Ret tt w' ->
      In p (prompt_files self w) ->
      Fs.lookup p (fs w) = Some (File bytes) ->
      decode_text svc bytes = inr prompt ->
      Fs.lookup (VideoGen.image_path_of self p) (fs w) = Some (File image) ->
      adds (ECreate "gen3a_turbo" ("data:image/png;base64," ++ b64encode svc image)
                    prompt)
           w w') /\
  (forall prompt_path w old task w1 url urls r,
      Fs.lookup (video_path self prompt_path) (fs w) = Some (File old) ->
      VideoGen.run_task svc self fuel prompt_path w
        = Ret (Some (VideoGen.image_name_of prompt_path, task)) w1 ->
      task_status task = "SUCCEEDED" ->
      task_output task = Some (url :: urls) ->
      Py.truthy url = true ->
      requests_get svc (clock w1) url = inr r ->
      resp_status_error r = None ->
      resp_stream_error r = None ->
      Fs.is_dir (Py.parent (video_path self prompt_path)) (fs w) = true ->
      exists w',
        VideoGen.generate_video svc self fuel prompt_path w = Ret tt w' /\
        adds (EOpenWrite (video_path self prompt_path)) w1 w' /\
        Fs.lookup (video_path self prompt_path) (fs w') = Some (File (body_of r))).
Proof.
  split.
  - intros w w' p bytes prompt image. apply batch_submits.
  - intros prompt_path w old task w1 url urls r. apply download_overwrites.
Qed.

Lemma rerun_witness :
  adds (ECreate "gen3a_turbo" "data:image/png;base64,AAAA" Locale.two_lines_read)
       Locale.world
       (world_of (VideoGen.process_all_prompts Locale.services Scenario.generator 3
                    Locale.world)) /\
  exists w',
    VideoGen.generate_video Locale.services Scenario.generator 3
      "prompts/a_prompt.txt" Locale.world = Ret tt w' /\
    adds (EOpenWrite "videos/a.mp4") Locale.after_task w' /\
    Fs.lookup "videos/a.mp4" (fs w') = Some (File "abcd").
Proof.
  split.
  - apply (proj1 (@rerun_submits_again_and_overwrites
                    Locale.services Scenario.generator 3))
      with (p := "prompts/a_prompt.txt") (bytes := Locale.two_lines);
      vm_compute; auto.
  - apply (proj2 (@rerun_submits_again_and_overwrites
                    Locale.services Scenario.generator 3))
      with (old := "the video of the first run")
           (task := mkTask "t1" "SUCCEEDED" (Some ["https://cdn/v.mp4"]))
           (url := "https://cdn/v.mp4") (urls := [])
           (r := mkResponse None ["ab"; EmptyString; "cd"] None);
      vm_compute; reflexivity.
Defined.
